(** * darksky-api: a DarkSky-compatible forecast service over NOAA and Climacell

    A shallow embedding of the Python sources

      - [DarkskyAPIFunctions.py]  (getKeyValue, parseInterval),
      - [NOAAWeatherAPI.py]       (_mapIcons; of [get] the "currently",
                                   "hourly" and "alerts" sections, the
                                   averaging loops of the "daily" section
                                   and the source flag),
      - [ClimacellWeatherAPI.py]  (_mapIcons, _mapClimacellWeatherCode, [get]),
      - [darksky-api.py]          (the [forecast] route handler),

    together with the properties of the specification that concern them.

    Conventions of the embedding.

    - Python objects are the trees of [value].  The documents handled by the
      service are decoded JSON or are built from literals, so every
      dictionary and list has exactly one owner; in-place mutation of the
      document is therefore modelled by rebuilding the tree (explicit state
      passing).
    - A Python [float] is idealised as a rational number; [int] stays [Z].
      Sums, products and quotients agree with Python's where operands and
      result are numbers that a binary float holds exactly (integers below
      2^53 in magnitude and their halves among them); [round(x, 2)] is
      taken on the rational and can differ from Python's in the last digit
      where the float is not the decimal it prints as.
    - Code that may raise returns a [result]; the exception is propagated as
      Python does.
    - Wall-clock time, HTTP fetches, date parsing ([datetime], [isodate]),
      [astral] and [timezonefinder] are collaborators outside the repository;
      they are variables of the sections that need them. *)

From Stdlib Require Import ZArith QArith Qround List String Ascii Bool Lia.
From Stdlib Require Import Sorted.
Import ListNotations.

Local Open Scope string_scope.
Local Open Scope Z_scope.

(** ** Python values and exceptions *)

Module Py.

Inductive exn : Type :=
| TypeError
| KeyError
| IndexError
| NameError
| ValueError
| AttributeError
| ZeroDivisionError.

Inductive result (A : Type) : Type :=
| Ok (a : A)
| Raise (e : exn).

Arguments Ok {A} a.
Arguments Raise {A} e.

Definition bind {A B : Type} (m : result A) (k : A -> result B) : result B :=
  match m with
  | Ok a => k a
  | Raise e => Raise e
  end.

#[local] Unset Elimination Schemes.

Inductive value : Type :=
| VNone
| VBool (b : bool)
| VInt (n : Z)
| VFloat (q : Q)
| VStr (s : string)
| VList (l : list value)
| VTuple (l : list value)
| VDict (d : list (string * value)).

#[local] Set Elimination Schemes.

(** A key of a key path: [isinstance(key, int)] separates the two cases. *)
Inductive key : Type :=
| KInt (n : Z)
| KStr (s : string).

(** Truth value testing, as [bool(x)]. *)
Definition truthy (v : value) : bool :=
  match v with
  | VNone => false
  | VBool b => b
  | VInt n => negb (n =? 0)
  | VFloat q => negb (Qeq_bool q 0)
  | VStr s => negb (String.eqb s EmptyString)
  | VList l => match l with [] => false | _ => true end
  | VTuple l => match l with [] => false | _ => true end
  | VDict d => match d with [] => false | _ => true end
  end.

(** [len(x)]; numbers, booleans and [None] have no length. *)
Definition len (v : value) : result Z :=
  match v with
  | VStr s => Ok (Z.of_nat (String.length s))
  | VList l => Ok (Z.of_nat (List.length l))
  | VTuple l => Ok (Z.of_nat (List.length l))
  | VDict d => Ok (Z.of_nat (List.length d))
  | _ => Raise TypeError
  end.

(** Dictionaries keep insertion order; lookup finds the entry of a key. *)
Fixpoint dict_get (k : string) (d : list (string * value)) : option value :=
  match d with
  | [] => None
  | (k', v) :: d' => if String.eqb k k' then Some v else dict_get k d'
  end.

Fixpoint dict_mem (k : string) (d : list (string * value)) : bool :=
  match d with
  | [] => false
  | (k', _) :: d' => if String.eqb k k' then true else dict_mem k d'
  end.

(** [d[k] = v]: replaces the value of an existing key in place, or appends. *)
Fixpoint dict_set (k : string) (v : value) (d : list (string * value))
  : list (string * value) :=
  match d with
  | [] => [(k, v)]
  | (k', v') :: d' =>
      if String.eqb k k' then (k', v) :: d' else (k', v') :: dict_set k v d'
  end.

(** [del d[k]]. *)
Fixpoint dict_del (k : string) (d : list (string * value))
  : list (string * value) :=
  match d with
  | [] => []
  | (k', v') :: d' =>
      if String.eqb k k' then dict_del k d' else (k', v') :: dict_del k d'
  end.

(** Sequence indexing with Python's negative indices. *)
Definition seq_index {A : Type} (l : list A) (i : Z) : result A :=
  let n := Z.of_nat (List.length l) in
  let j := if i <? 0 then i + n else i in
  if (0 <=? j) && (j <? n) then
    match nth_error l (Z.to_nat j) with
    | Some a => Ok a
    | None => Raise IndexError
    end
  else Raise IndexError.

Fixpoint chars (s : string) : list string :=
  match s with
  | EmptyString => []
  | String c s' => String c EmptyString :: chars s'
  end.

(** [x[i]] for an integer [i]. *)
Definition getitem_int (v : value) (i : Z) : result value :=
  match v with
  | VList l => seq_index l i
  | VTuple l => seq_index l i
  | VStr s => bind (seq_index (chars s) i) (fun c => Ok (VStr c))
  | VDict _ => Raise KeyError          (* the dictionaries have string keys *)
  | _ => Raise TypeError
  end.

(** [x[k]] for a string [k]. *)
Definition getitem_str (v : value) (k : string) : result value :=
  match v with
  | VDict d => match dict_get k d with
               | Some x => Ok x
               | None => Raise KeyError
               end
  | _ => Raise TypeError
  end.

Definition is_substring (k s : string) : bool :=
  match String.index 0 k s with
  | Some _ => true
  | None => false
  end.

Definition is_str (k : string) (v : value) : bool :=
  match v with
  | VStr s => String.eqb k s
  | _ => false
  end.

(** [k in x] for a string [k]. *)
Definition contains_str (k : string) (v : value) : result bool :=
  match v with
  | VDict d => Ok (dict_mem k d)
  | VList l => Ok (existsb (is_str k) l)
  | VTuple l => Ok (existsb (is_str k) l)
  | VStr s => Ok (is_substring k s)
  | _ => Raise TypeError
  end.

(** [x[k] = v] for a string [k]. *)
Definition setitem_str (x : value) (k : string) (v : value) : result value :=
  match x with
  | VDict d => Ok (VDict (dict_set k v d))
  | _ => Raise TypeError
  end.

(** *** Numbers

    [int] and [float] operands mix as in Python: [bool] counts as an [int],
    an operation on two [int]s stays an [int] (except true division), any
    [float] operand makes the result a [float].  Floats are kept as reduced
    fractions. *)

Inductive num : Type :=
| NInt (n : Z)
| NFloat (q : Q).

Definition to_num (v : value) : result num :=
  match v with
  | VBool b => Ok (NInt (if b then 1 else 0))
  | VInt n => Ok (NInt n)
  | VFloat q => Ok (NFloat q)
  | _ => Raise TypeError
  end.

Definition of_num (x : num) : value :=
  match x with
  | NInt n => VInt n
  | NFloat q => VFloat (Qred q)
  end.

Definition num_Q (x : num) : Q :=
  match x with
  | NInt n => inject_Z n
  | NFloat q => q
  end.

Definition num_add (x y : num) : num :=
  match x, y with
  | NInt a, NInt b => NInt (a + b)
  | _, _ => NFloat (Qred (num_Q x + num_Q y))
  end.

Definition num_sub (x y : num) : num :=
  match x, y with
  | NInt a, NInt b => NInt (a - b)
  | _, _ => NFloat (Qred (num_Q x - num_Q y))
  end.

Definition num_mul (x y : num) : num :=
  match x, y with
  | NInt a, NInt b => NInt (a * b)
  | _, _ => NFloat (Qred (num_Q x * num_Q y))
  end.

(** [x / y] is true division: always a [float]. *)
Definition num_truediv (x y : num) : result num :=
  if Qeq_bool (num_Q y) 0 then Raise ZeroDivisionError
  else Ok (NFloat (Qred (num_Q x / num_Q y))).

Definition num_ltb (x y : num) : bool :=
  match Qcompare (num_Q x) (num_Q y) with Lt => true | _ => false end.

Definition num_eqb (x y : num) : bool := Qeq_bool (num_Q x) (num_Q y).

(** Rounding to the nearest integer, ties to the even neighbour. *)
Definition round_half_even (q : Q) : Z :=
  let f := Qfloor q in
  match Qcompare (q - inject_Z f) (1 # 2) with
  | Lt => f
  | Gt => f + 1
  | Eq => if Z.even f then f else f + 1
  end.

(** [round(x)]: an [int]. *)
Definition round0 (x : num) : num :=
  match x with
  | NInt n => NInt n
  | NFloat q => NInt (round_half_even q)
  end.

(** [round(x, 2)]: an [int] is returned as it is, a [float] is rounded to
    hundredths. *)
Definition round2 (x : num) : num :=
  match x with
  | NInt n => NInt n
  | NFloat q => NFloat (Qred (inject_Z (round_half_even (q * 100)) / 100))
  end.

(** *** Iteration, hashing and strings *)

(** [for x in v]: the items a [for] loop visits. *)
Definition iterate (v : value) : result (list value) :=
  match v with
  | VList l => Ok l
  | VTuple l => Ok l
  | VStr s => Ok (map VStr (chars s))
  | VDict d => Ok (map (fun kv => VStr (fst kv)) d)
  | _ => Raise TypeError
  end.

(** Lists and dictionaries cannot be dictionary keys. *)
Fixpoint hashable (v : value) : bool :=
  match v with
  | VList _ | VDict _ => false
  | VTuple l => forallb hashable l
  | _ => true
  end.

(** Equality of two hashable values, as a dictionary compares its keys. *)
Fixpoint key_eqb (a b : value) : bool :=
  match a, b with
  | VNone, VNone => true
  | VStr s, VStr t => String.eqb s t
  | VTuple l, VTuple m =>
      (fix all2 (l m : list value) : bool :=
         match l, m with
         | [], [] => true
         | x :: l', y :: m' => key_eqb x y && all2 l' m'
         | _, _ => false
         end) l m
  | _, _ =>
      match to_num a, to_num b with
      | Ok x, Ok y => num_eqb x y
      | _, _ => false
      end
  end.

(** A dictionary whose keys are arbitrary hashable values. *)
Fixpoint kv_get (k : value) (d : list (value * value)) : option value :=
  match d with
  | [] => None
  | (k', v) :: d' => if key_eqb k k' then Some v else kv_get k d'
  end.

Fixpoint kv_set (k v : value) (d : list (value * value))
  : list (value * value) :=
  match d with
  | [] => [(k, v)]
  | (k', v') :: d' =>
      if key_eqb k k' then (k', v) :: d' else (k', v') :: kv_set k v d'
  end.

(** [s.split(c)]: never empty. *)
Fixpoint split_on (c : ascii) (s : string) : list string :=
  match s with
  | EmptyString => [EmptyString]
  | String a s' =>
      if Ascii.eqb a c then EmptyString :: split_on c s'
      else match split_on c s' with
           | h :: t => String a h :: t
           | [] => [String a EmptyString]
           end
  end.

Definition upper (c : ascii) : ascii :=
  let n := nat_of_ascii c in
  if (97 <=? n)%nat && (n <=? 122)%nat then ascii_of_nat (n - 32) else c.

Definition lower (c : ascii) : ascii :=
  let n := nat_of_ascii c in
  if (65 <=? n)%nat && (n <=? 90)%nat then ascii_of_nat (n + 32) else c.

Fixpoint lower_all (s : string) : string :=
  match s with
  | EmptyString => EmptyString
  | String c s' => String (lower c) (lower_all s')
  end.

(** [s.capitalize()] on ASCII text. *)
Definition capitalize (s : string) : string :=
  match s with
  | EmptyString => EmptyString
  | String c s' => String (upper c) (lower_all s')
  end.

(** [int(x)] of a float: truncation towards zero. *)
Definition int_of_Q (q : Q) : Z := Z.quot (Qnum q) (Zpos (Qden q)).

(** [a > b] on numbers; ordering anything else with a number raises. *)
Definition py_gt (a b : value) : result bool :=
  bind (to_num a) (fun x => bind (to_num b) (fun y => Ok (num_ltb y x))).

Definition py_lt (a b : value) : result bool := py_gt b a.

(** *** Loops and nested assignment *)

(** A [for] loop threading the mutated state; an exception leaves the loop. *)
Fixpoint foldM {A B : Type} (f : A -> B -> result A) (a : A) (l : list B)
  : result A :=
  match l with
  | [] => Ok a
  | x :: l' => bind (f a x) (fun a' => foldM f a' l')
  end.

(** [x[k1][k2] = v] on the tree of [x]. *)
Definition setitem_str2 (x : value) (k1 k2 : string) (v : value)
  : result value :=
  bind (getitem_str x k1) (fun inner =>
  bind (setitem_str inner k2 v) (fun inner' =>
  setitem_str x k1 inner')).

(** [\s] of a [str] pattern: the characters for which [str.isspace] holds.
    A character of a [string] stands for a code point below 256; among these
    the white space is the blank, the controls 9 to 13 and 28 to 31, the
    next-line control 133 and the no-break space 160. *)
Definition is_space (c : ascii) : bool :=
  let n := nat_of_ascii c in
  (n =? 32)%nat || ((9 <=? n)%nat && (n <=? 13)%nat)
  || ((28 <=? n)%nat && (n <=? 31)%nat)
  || (n =? 133)%nat || (n =? 160)%nat.

(** [re.sub(r'\s+', ' ', s)]: every run of white space becomes one blank. *)
Fixpoint collapse_ws (in_run : bool) (s : string) : string :=
  match s with
  | EmptyString => EmptyString
  | String c s' =>
      if is_space c then
        if in_run then collapse_ws true s'
        else String " " (collapse_ws true s')
      else String c (collapse_ws false s')
  end.

(** [range(start, stop)] *)
Definition py_range (start stop : Z) : list Z :=
  map (fun k => start + Z.of_nat k) (seq 0 (Z.to_nat (stop - start))).

Fixpoint list_set {A : Type} (l : list A) (n : nat) (a : A) : list A :=
  match l, n with
  | [], _ => []
  | _ :: l', O => a :: l'
  | x :: l', S n' => x :: list_set l' n' a
  end.

(** [x[i] = v] for an integer [i]: lists only (the dictionaries have string
    keys, tuples and strings are immutable). *)
Definition setitem_int (x : value) (i : Z) (v : value) : result value :=
  match x with
  | VList l =>
      let n := Z.of_nat (List.length l) in
      let j := if i <? 0 then i + n else i in
      if (0 <=? j) && (j <? n) then Ok (VList (list_set l (Z.to_nat j) v))
      else Raise IndexError
  | _ => Raise TypeError
  end.

(** [x.append(v)] *)
Definition append (x v : value) : result value :=
  match x with
  | VList l => Ok (VList (l ++ [v]))
  | _ => Raise AttributeError
  end.

(** [a == n] for an integer [n]. *)
Definition eq_int (a : value) (n : Z) : bool :=
  match to_num a with
  | Ok x => num_eqb x (NInt n)
  | Raise _ => false
  end.

(** [del x[k]] for a string [k]. *)
Definition delitem_str (x : value) (k : string) : result value :=
  match x with
  | VDict d => if dict_mem k d then Ok (VDict (dict_del k d)) else Raise KeyError
  | _ => Raise TypeError
  end.

(** A [float] as [float(s)] can return it. *)
Inductive pyfloat : Type :=
| Finite (q : Q)
| PosInf
| NegInf
| NaN.

(** [x > c] and [x < c] for an integer constant [c]; every comparison with
    [nan] is false. *)
Definition float_gtb (x : pyfloat) (c : Z) : bool :=
  match x with
  | Finite q => match Qcompare q (inject_Z c) with Gt => true | _ => false end
  | PosInf => true
  | NegInf => false
  | NaN => false
  end.

Definition float_ltb (x : pyfloat) (c : Z) : bool :=
  match x with
  | Finite q => match Qcompare q (inject_Z c) with Lt => true | _ => false end
  | PosInf => false
  | NegInf => true
  | NaN => false
  end.

(** [x[k]] for a key of either kind. *)
Definition getitem (x : value) (k : key) : result value :=
  match k with
  | KInt i => getitem_int x i
  | KStr s => getitem_str x s
  end.

(** [s.count(c)] *)
Fixpoint count_char (c : ascii) (s : string) : nat :=
  match s with
  | EmptyString => O
  | String a s' =>
      if Ascii.eqb a c then S (count_char c s') else count_char c s'
  end.

(** [a >= b] on numbers. *)
Definition py_ge (a b : value) : result bool :=
  bind (to_num a) (fun x => bind (to_num b) (fun y => Ok (negb (num_ltb x y)))).

(** [a <= b] on numbers. *)
Definition py_le (a b : value) : result bool := py_ge b a.

End Py.

Export Py.

Declare Scope py_scope.
Notation "x <- m ;; k" := (bind m (fun x => k))
  (at level 61, m at next level, right associativity) : py_scope.
Local Open Scope py_scope.

(** ** DarkskyAPIFunctions.py *)

Module DarkskyAPIFunctions.

(** The [for key in key_list] loop of [getKeyValue]: [Ok None] is the early
    [return None], [Ok (Some v)] the element reached at the end of the path. *)
Fixpoint walk (dictionary_element : value) (key_list : list key)
  : result (option value) :=
  match key_list with
  | [] => Ok (Some dictionary_element)
  | KInt k :: rest =>
      n <- len dictionary_element ;;
      if k <? n then
        e <- getitem_int dictionary_element k ;; walk e rest
      else Ok None
  | KStr k :: rest =>
      b <- contains_str k dictionary_element ;;
      if b then
        e <- getitem_str dictionary_element k ;; walk e rest
      else Ok None
  end.

Definition getKeyValue (dictionary_element : value) (key_list : list key)
  (func : option (value -> result value)) : result value :=
  r <- walk dictionary_element key_list ;;
  match r with
  | None => Ok VNone
  | Some e =>
      match func with
      | Some f => if truthy e then f e else Ok e
      | None => Ok e
      end
  end.

(** [parseInterval] relies on the [isodate] package:
    [parse_datetime s] stands for [isodate.parse_datetime(s).timestamp()] and
    [add_duration t s] for [(start + isodate.parse_duration(s)).timestamp()]
    where [start] is the instant of timestamp [t].  Both raise on malformed
    text. *)
Section Interval.

Variable parse_datetime : string -> result Q.
Variable add_duration : Q -> string -> result Q.

Definition parseInterval (time_str : value) : result value :=
  match time_str with
  | VStr s =>
      let split_time_str := split_on "/" s in
      start <- parse_datetime (hd EmptyString split_time_str) ;;
      let interval := [("start", VInt (int_of_Q start))] in
      if (List.length split_time_str =? 2)%nat then
        e <- add_duration start (nth 1 split_time_str EmptyString) ;;
        Ok (VDict (dict_set "end" (VInt (int_of_Q e)) interval))
      else Ok (VDict interval)
  | _ => Raise AttributeError
  end.

End Interval.

(** Plain subscripting along a key path, [x[k1][k2]...], as the adapters
    write it where they do not go through [getKeyValue]. *)
Fixpoint index_path (x : value) (key_list : list key) : result value :=
  match key_list with
  | [] => Ok x
  | k :: rest => e <- getitem x k ;; index_path e rest
  end.

(** A key path without negative indices. *)
Definition natural_key (k : key) : Prop :=
  match k with
  | KInt i => 0 <= i
  | KStr _ => True
  end.

End DarkskyAPIFunctions.

Import DarkskyAPIFunctions.

(** ** Logging

    [flask_app.logger.warning(msg)] and [print(msg)].  A message is kept as
    its text and the argument of its [format]. *)

Inductive event : Type :=
| LogWarning (text arg : string)
| Printed (text arg : string).

(** Name resolution: a name that is neither a local of the running function
    nor bound at module level (nor a builtin) raises [NameError]. *)
Definition load_name (scope : list string) (name : string) : result unit :=
  if existsb (String.eqb name) scope then Ok tt else Raise NameError.

Fixpoint table_get (k : string) (t : list (string * string)) : option string :=
  match t with
  | [] => None
  | (k', v) :: t' => if String.eqb k k' then Some v else table_get k t'
  end.

(** A numeric lambda applied to a decoded JSON value. *)
Definition on_number (f : num -> result num) (x : value) : result value :=
  n <- to_num x ;; r <- f n ;; Ok (of_num r).

(** ** NOAAWeatherAPI.py *)

Module NOAAWeatherAPI.

Definition noaa_icon_list : list (string * string) :=
  [ ("land/day/bkn", "partly-cloudy-day");
    ("land/day/bkn/rain_showers", "rain");
    ("land/day/bkn/snow", "snow");
    ("land/day/few", "clear-day");
    ("land/day/fog", "fog");
    ("land/day/fog/wind_sct", "fog");
    ("land/day/ovc", "cloudy");
    ("land/day/rain", "rain");
    ("land/day/rain/sct", "rain");
    ("land/day/rain_showers", "rain");
    ("land/day/sct", "partly-cloudy-day");
    ("land/day/sct/rain", "rain");
    ("land/day/sct/rain_showers", "rain");
    ("land/day/sct/snow", "snow");
    ("land/day/skc", "partly-cloudy-day");
    ("land/day/snow", "snow");
    ("land/day/snow/bkn", "snow");
    ("land/day/snow/snow", "snow");
    ("land/day/tsra", "rain");
    ("land/day/wind_bkn", "wind");
    ("land/day/wind_few", "wind");
    ("land/day/wind_ovc", "wind");
    ("land/day/wind_sct", "wind");
    ("land/night/bkn", "partly-cloudy-night");
    ("land/night/bkn/rain_showers", "rain");
    ("land/night/bkn/snow", "snow");
    ("land/night/few", "clear-night");
    ("land/night/fog", "fog");
    ("land/night/fog/wind_sct", "fog");
    ("land/night/ovc", "cloudy");
    ("land/night/rain", "rain");
    ("land/night/rain/sct", "rain");
    ("land/night/rain_showers", "rain");
    ("land/night/sct", "partly-cloudy-night");
    ("land/night/sct/rain", "rain");
    ("land/night/sct/rain_showers", "rain");
    ("land/night/sct/snow", "snow");
    ("land/night/skc", "partly-cloudy-night");
    ("land/night/snow/snow", "snow");
    ("land/night/snow", "snow");
    ("land/night/snow/bkn", "snow");
    ("land/night/tsra", "rain");
    ("land/night/wind_bkn", "wind");
    ("land/night/wind_few", "wind");
    ("land/night/wind_ovc", "wind");
    ("land/night/wind_sct", "wind") ].

Definition newline : ascii := ascii_of_nat 10.

(** The tail of a lazy [.+?(?=t)] once its first character is consumed: the
    characters up to the first [t]; [.] does not match a newline. *)
Fixpoint lazy_until (t : ascii) (s : string) : option string :=
  match s with
  | EmptyString => None
  | String c s' =>
      if Ascii.eqb c t then Some EmptyString
      else if Ascii.eqb c newline then None
      else option_map (String c) (lazy_until t s')
  end.

(** [.+?(?=t)] anchored at the head of [s]. *)
Definition match_here (t : ascii) (s : string) : option string :=
  match s with
  | EmptyString => None
  | String c s' =>
      if Ascii.eqb c newline then None
      else option_map (String c) (lazy_until t s')
  end.

Fixpoint drop (n : nat) (s : string) : string :=
  match n, s with
  | O, _ => s
  | S n', String _ s' => drop n' s'
  | S _, EmptyString => EmptyString
  end.

(** [re.search('(?<=icons/).+?(?=t)', s)]: the leftmost position preceded by
    [icons/] at which the lazy pattern matches; the result is [match[0]]. *)
Fixpoint re_search (t : ascii) (s : string) : option string :=
  match s with
  | EmptyString => None
  | String _ s' =>
      if String.prefix "icons/" s then
        match match_here t (drop 6 s) with
        | Some m => Some m
        | None => re_search t s'
        end
      else re_search t s'
  end.

Definition _mapIcons (icon : string) (flask_app : bool)
  : list event * result string :=
  let noaa_icon :=
    match re_search "," icon with
    | Some m => Some m
    | None => re_search "?" icon
    end in
  match noaa_icon with
  | Some m =>
      match table_get m noaa_icon_list with
      | Some v => ([], Ok v)
      | None =>
          let text := "Parsed icon sucessfully but can't find it in the list: {}" in
          (((if flask_app then [LogWarning text m] else [])
              ++ [Printed text m])%list,
           Ok EmptyString)
      end
  | None =>
      (((if flask_app
         then [LogWarning "Unable to parse icon URL: {}" icon] else [])
          ++ [Printed "Unable to parse the icon URL: {}" icon])%list,
       Ok EmptyString)
  end.

(** *** Unit conversions of [get] *)

(** [lambda x: round((x * 9 / 5) + 32, 2)] *)
Definition celsius_to_fahrenheit (x : num) : result num :=
  d <- num_truediv (num_mul x (NInt 9)) (NInt 5) ;;
  Ok (round2 (num_add d (NInt 32))).

(** [lambda x: round(x * 2.23694, 2)] *)
Definition mps_to_mph (x : num) : result num :=
  Ok (round2 (num_mul x (NFloat (223694 # 100000)))).

(** [lambda x: round(x / 39.37014, 2)] *)
Definition metres_to_inches (x : num) : result num :=
  d <- num_truediv x (NFloat (3937014 # 100000)) ;; Ok (round2 d).

(** [lambda x: round(x / 100, 2)] *)
Definition hundredth (x : num) : result num :=
  d <- num_truediv x (NInt 100) ;; Ok (round2 d).

(** [lambda x: round(x / 1609.34, 2)] *)
Definition metres_to_miles (x : num) : result num :=
  d <- num_truediv x (NFloat (160934 # 100)) ;; Ok (round2 d).

(** [lambda x: x.capitalize()] *)
Definition capitalized (x : value) : result value :=
  match x with
  | VStr s => Ok (VStr (capitalize s))
  | _ => Raise AttributeError
  end.

(** [lambda x: _mapIcons(x, flask_app)]; the log is not part of the value. *)
Definition icon_of (flask_app : bool) (x : value) : result value :=
  match x with
  | VStr s => i <- snd (_mapIcons s flask_app) ;; Ok (VStr i)
  | _ => Raise TypeError
  end.

Section Get.

Variable parse_datetime : string -> result Q.
Variable add_duration : Q -> string -> result Q.
Variable flask_app : bool.

(** [lambda x: functions.parseInterval(x)['start']] *)
Definition interval_start (x : value) : result value :=
  iv <- parseInterval parse_datetime add_duration x ;;
  getitem_str iv "start".

(** [round(100 - (5 * (T - Td)), 2) if T and Td else None] of "currently". *)
Definition currently_humidity (props : value) : result value :=
  t <- getKeyValue props [KStr "temperature"; KStr "value"] None ;;
  if truthy t then
    td <- getKeyValue props [KStr "dewpoint"; KStr "value"] None ;;
    if truthy td then
      pt <- getitem_str props "temperature" ;;
      tv <- getitem_str pt "value" ;;
      pd <- getitem_str props "dewpoint" ;;
      dv <- getitem_str pd "value" ;;
      a <- to_num tv ;;
      b <- to_num dv ;;
      Ok (of_num
            (round2 (num_sub (NInt 100) (num_mul (NInt 5) (num_sub a b)))))
    else Ok VNone
  else Ok VNone.

(** The dictionary assigned to [output['currently']]. *)
Definition currently (props : value) : result value :=
  time <- getKeyValue props [KStr "timestamp"] (Some interval_start) ;;
  summary <- getKeyValue props [KStr "textDescription"] (Some capitalized) ;;
  icon <- getKeyValue props [KStr "icon"] (Some (icon_of flask_app)) ;;
  precipIntensity <-
    getKeyValue props [KStr "precipitationLastHour"; KStr "value"]
      (Some (on_number metres_to_inches)) ;;
  temperature <-
    getKeyValue props [KStr "temperature"; KStr "value"]
      (Some (on_number celsius_to_fahrenheit)) ;;
  windchill <- getKeyValue props [KStr "windchill"; KStr "value"] None ;;
  apparentTemperature <-
    (if truthy windchill then
       getKeyValue props [KStr "windchill"; KStr "value"]
         (Some (on_number celsius_to_fahrenheit))
     else
       getKeyValue props [KStr "heatIndex"; KStr "value"]
         (Some (on_number celsius_to_fahrenheit))) ;;
  dewPoint <-
    getKeyValue props [KStr "dewpoint"; KStr "value"]
      (Some (on_number celsius_to_fahrenheit)) ;;
  humidity <- currently_humidity props ;;
  pressure <-
    getKeyValue props [KStr "barometricpressure"; KStr "value"]
      (Some (on_number hundredth)) ;;
  windSpeed <-
    getKeyValue props [KStr "windSpeed"; KStr "value"]
      (Some (on_number mps_to_mph)) ;;
  windGust <-
    getKeyValue props [KStr "windGust"; KStr "value"]
      (Some (on_number mps_to_mph)) ;;
  windBearing <- getKeyValue props [KStr "windDirection"; KStr "value"] None ;;
  visibility <-
    getKeyValue props [KStr "visibility"; KStr "value"]
      (Some (on_number metres_to_miles)) ;;
  Ok (VDict
        [ ("time", time);
          ("summary", summary);
          ("icon", icon);
          ("precipIntensity", precipIntensity);
          ("temperature", temperature);
          ("apparentTemperature", apparentTemperature);
          ("dewPoint", dewPoint);
          ("humidity", humidity);
          ("pressure", pressure);
          ("windSpeed", windSpeed);
          ("windGust", windGust);
          ("windBearing", windBearing);
          ("visibility", visibility) ]).

(** *** Alerts *)

(** Variable [now]: [datetime.datetime.now().timestamp()], read once for each
    alert of the loop; [now i] is the reading taken at the [i]-th alert. *)
Variable now : nat -> Q.

(** The two [for feature in ...] loops that fill [noaa_county_list]. *)
Definition add_features (obj : value) (noaa_county_list : list (value * value))
  : result (list (value * value)) :=
  if truthy obj then
    features <- getKeyValue obj [KStr "features"] None ;;
    items <- iterate features ;;
    foldM (fun cl feature =>
             name <- getKeyValue feature [KStr "properties"; KStr "name"] None ;;
             id <- getKeyValue feature [KStr "properties"; KStr "id"] None ;;
             if hashable id then Ok (kv_set id name cl) else Raise TypeError)
          noaa_county_list items
  else Ok noaa_county_list.

(** [lambda x: re.sub(r'\s+', ' ', x)] *)
Definition normalized (x : value) : result value :=
  match x with
  | VStr s => Ok (VStr (collapse_ws false s))
  | _ => Raise TypeError
  end.

Definition regions_of (noaa_county_list : list (value * value)) (ugc : value)
  : result (list value) :=
  ids <- iterate ugc ;;
  foldM (fun regions county_id =>
           if hashable county_id then
             match kv_get county_id noaa_county_list with
             | Some name => Ok (regions ++ [name])%list
             | None => Raise KeyError
             end
           else Raise TypeError)
        [] ids.

(** The body of [for alert in alerts] at the [i]-th alert. *)
Definition alert_step (noaa_county_list : list (value * value)) (i : nat)
  (alert_data : list value) (alert : value) : result (list value) :=
  props <- getKeyValue alert [KStr "properties"] None ;;
  expires <- getKeyValue props [KStr "expires"] (Some interval_start) ;;
  live <- py_gt expires (VFloat (now i)) ;;
  if live then
    ugc <- getKeyValue props [KStr "geocode"; KStr "UGC"] None ;;
    regions <- regions_of noaa_county_list ugc ;;
    title <- getKeyValue props [KStr "event"] None ;;
    severity <- getKeyValue props [KStr "severity"] None ;;
    time <- getKeyValue props [KStr "onset"] (Some interval_start) ;;
    expires' <- getKeyValue props [KStr "expires"] (Some interval_start) ;;
    description <- getKeyValue props [KStr "description"] (Some normalized) ;;
    url <- getKeyValue props [KStr "@id"] None ;;
    Ok (alert_data ++
          [VDict [ ("title", title);
                   ("regions", VList regions);
                   ("severity", severity);
                   ("time", time);
                   ("expires", expires');
                   ("description", description);
                   ("url", url) ]])%list
  else Ok alert_data.

Fixpoint alerts_loop (noaa_county_list : list (value * value)) (i : nat)
  (alert_data : list value) (alerts : list value) : result (list value) :=
  match alerts with
  | [] => Ok alert_data
  | alert :: rest =>
      alert_data' <- alert_step noaa_county_list i alert_data alert ;;
      alerts_loop noaa_county_list (S i) alert_data' rest
  end.

(** The "Alerts" section: [output['alerts']] is reassigned only when the
    alerts document has a non-empty [features]. *)
Definition alerts_section (noaa_county_list : list (value * value))
  (noaa_alerts_obj : value) (output : value) : result value :=
  if truthy noaa_alerts_obj then
    alerts <- getKeyValue noaa_alerts_obj [KStr "features"] None ;;
    if truthy alerts then
      items <- iterate alerts ;;
      alert_data <- alerts_loop noaa_county_list 0 [] items ;;
      setitem_str output "alerts" (VList alert_data)
    else Ok output
  else Ok output.

(** *** Hourly

    The block that [get] assigns to [output['hourly']], if any, from the
    periodic hourly forecast and the grid forecast.  [now i] is the clock
    reading taken at the [i]-th period. *)

(** The [for hour in hours] loop, left by [break] at 48 entries. *)
Fixpoint periods_loop (i : nat) (hourly_data hours : list value)
  : result (list value) :=
  match hours with
  | [] => Ok hourly_data
  | hour :: rest =>
      if 48 <=? Z.of_nat (List.length hourly_data) then Ok hourly_data
      else
        endTime <- getitem_str hour "endTime" ;;
        e <- interval_start endTime ;;
        live <- py_gt e (VFloat (now i)) ;;
        hourly_data' <-
          (if live then
             startTime <- getitem_str hour "startTime" ;;
             time <- interval_start startTime ;;
             summary <-
               getKeyValue hour [KStr "shortForecast"] (Some capitalized) ;;
             icon <- getKeyValue hour [KStr "icon"] (Some (icon_of flask_app)) ;;
             Ok (hourly_data ++
                   [VDict [ ("time", time);
                            ("summary", summary);
                            ("icon", icon) ]])%list
           else Ok hourly_data) ;;
        periods_loop (S i) hourly_data' rest
  end.

(** The [for i in range(len(hourly_data))] loop of one grid value: [write]
    is the assignment made to an hour that starts within [interval]; the loop
    is left at the first hour that starts after the interval. *)
Fixpoint spread (interval : value) (write : value -> result value)
  (hourly_data : list value) : result (list value) :=
  match hourly_data with
  | [] => Ok []
  | h :: rest =>
      t <- getitem_str h "time" ;;
      s <- getitem_str interval "start" ;;
      from <- py_ge t s ;;
      inside <-
        (if from then
           t <- getitem_str h "time" ;;
           e <- getitem_str interval "end" ;;
           py_lt t e
         else Ok false) ;;
      h' <- (if inside then write h else Ok h) ;;
      t <- getitem_str h' "time" ;;
      e <- getitem_str interval "end" ;;
      past <- py_gt t e ;;
      if past then Ok (h' :: rest)
      else rest' <- spread interval write rest ;; Ok (h' :: rest')
  end.

(** One pass over [properties.<name>.values] of the grid forecast. *)
Definition grid_values (noaa_griddata_obj : value) (name : string)
  (step : list value -> value -> value -> result (list value))
  (hourly_data : list value) : result (list value) :=
  values <-
    getKeyValue noaa_griddata_obj
      [KStr "properties"; KStr name; KStr "values"] None ;;
  if truthy values then
    items <- iterate values ;;
    foldM (fun hourly_data x =>
             validTime <- getitem_str x "validTime" ;;
             interval <- parseInterval parse_datetime add_duration validTime ;;
             step hourly_data x interval)
          hourly_data items
  else Ok hourly_data.

(** [round(x['value'] / 25.4 / hours, 2)] with
    [hours = (interval['end'] - interval['start']) / 3600]. *)
Definition per_hour (x interval : value) : result value :=
  e <- getitem_str interval "end" ;;
  s <- getitem_str interval "start" ;;
  e' <- to_num e ;;
  s' <- to_num s ;;
  hours <- num_truediv (num_sub e' s') (NInt 3600) ;;
  raw <- getitem_str x "value" ;;
  amount <- to_num raw ;;
  inches <- num_truediv amount (NFloat (254 # 10)) ;;
  rate <- num_truediv inches hours ;;
  Ok (of_num (round2 rate)).

(** Rain: the hourly rate is computed once for each grid value. *)
Definition rain (noaa_griddata_obj : value) (hourly_data : list value)
  : result (list value) :=
  grid_values noaa_griddata_obj "quantitativePrecipitation"
    (fun hourly_data quantity interval =>
       perhour <- per_hour quantity interval ;;
       spread interval
         (fun h => setitem_str h "precipIntensity" perhour)
         hourly_data)
    hourly_data.

(** Snow: kept only where it exceeds the rate already there. *)
Definition snowfall (noaa_griddata_obj : value) (hourly_data : list value)
  : result (list value) :=
  grid_values noaa_griddata_obj "snowfallAmount"
    (fun hourly_data snow interval =>
       perhour <- per_hour snow interval ;;
       spread interval
         (fun h =>
            known <- contains_str "precipIntensity" h ;;
            if known then
              current <- getitem_str h "precipIntensity" ;;
              more <- py_gt perhour current ;;
              if more then setitem_str h "precipIntensity" perhour else Ok h
            else setitem_str h "precipIntensity" perhour)
         hourly_data)
    hourly_data.

(** The other grid quantities: the value is converted where it is assigned. *)
Definition overlay (noaa_griddata_obj : value) (name key : string)
  (f : value -> result value) (hourly_data : list value)
  : result (list value) :=
  grid_values noaa_griddata_obj name
    (fun hourly_data x interval =>
       spread interval
         (fun h =>
            raw <- getitem_str x "value" ;;
            v <- f raw ;;
            setitem_str h key v)
         hourly_data)
    hourly_data.

(** [lambda x: round(x)] *)
Definition rounded (x : num) : result num := Ok (round0 x).

Definition hourly_section (noaa_hourly_obj noaa_griddata_obj : value)
  : result (option value) :=
  hours <-
    getKeyValue noaa_hourly_obj [KStr "properties"; KStr "periods"] None ;;
  if truthy hours then
    items <- iterate hours ;;
    hourly_data <- periods_loop 0 [] items ;;
    hourly_data <- rain noaa_griddata_obj hourly_data ;;
    hourly_data <- snowfall noaa_griddata_obj hourly_data ;;
    hourly_data <-
      overlay noaa_griddata_obj "probabilityOfPrecipitation"
        "precipProbability" (on_number hundredth) hourly_data ;;
    hourly_data <-
      overlay noaa_griddata_obj "temperature"
        "temperature" (on_number celsius_to_fahrenheit) hourly_data ;;
    hourly_data <-
      overlay noaa_griddata_obj "apparentTemperature"
        "apparentTemperature" (on_number celsius_to_fahrenheit) hourly_data ;;
    hourly_data <-
      overlay noaa_griddata_obj "dewpoint"
        "dewpoint" (on_number celsius_to_fahrenheit) hourly_data ;;
    hourly_data <-
      overlay noaa_griddata_obj "relativeHumidity"
        "humdity" (on_number hundredth) hourly_data ;;
    hourly_data <-
      overlay noaa_griddata_obj "windSpeed"
        "windSpeed" (on_number mps_to_mph) hourly_data ;;
    hourly_data <-
      overlay noaa_griddata_obj "windGust"
        "windGust" (on_number mps_to_mph) hourly_data ;;
    hourly_data <-
      overlay noaa_griddata_obj "windDirection"
        "windBearing" (on_number rounded) hourly_data ;;
    hourly_data <-
      overlay noaa_griddata_obj "skyCover"
        "cloudCover" (on_number hundredth) hourly_data ;;
    hourly_data <-
      overlay noaa_griddata_obj "visibility"
        "visibility" (on_number metres_to_miles) hourly_data ;;
    match hourly_data with
    | first :: _ =>
        summary <- getitem_str first "summary" ;;
        icon <- getitem_str first "icon" ;;
        Ok (Some (VDict [ ("summary", summary);
                          ("icon", icon);
                          ("data", VList hourly_data) ]))
    | [] => Ok None
    end
  else Ok None.

(** *** Daily averages

    The loops of the daily section that average a grid quantity over the day
    from [start] to [end_], each value weighing as many hours as its
    interval has within the day. *)

(** The part of the interval of [value] within the day, in hours, if the
    interval meets the day: the interval is clipped in place. *)
Definition day_hours (start end_ value : value) : result (option num) :=
  validTime <- getKeyValue value [KStr "validTime"] None ;;
  interval <- parseInterval parse_datetime add_duration validTime ;;
  e <- getitem_str interval "end" ;;
  after <- py_gt e start ;;
  meets <-
    (if after then s <- getitem_str interval "start" ;; py_le s end_
     else Ok false) ;;
  if meets then
    s <- getitem_str interval "start" ;;
    early <- py_lt s start ;;
    interval <-
      (if early then setitem_str interval "start" start else Ok interval) ;;
    e <- getitem_str interval "end" ;;
    late <- py_gt e end_ ;;
    interval <-
      (if late then setitem_str interval "end" end_ else Ok interval) ;;
    e <- getitem_str interval "end" ;;
    s <- getitem_str interval "start" ;;
    e' <- to_num e ;;
    s' <- to_num s ;;
    hours <- num_truediv (num_sub e' s') (NInt 3600) ;;
    Ok (Some hours)
  else Ok None.

(** The body of an averaging loop on the state [(total, total_hours)].  The
    loop for the wind speed ([wind]) has one more statement than the others,
    a second [total_hours = total_hours + hours]. *)
Definition average_step (wind : bool) (start end_ : value)
  (state : num * num) (value : value) : result (num * num) :=
  let (total, total_hours) := state in
  inside <- day_hours start end_ value ;;
  match inside with
  | Some hours =>
      x <- getKeyValue value [KStr "value"] None ;;
      state' <-
        (match x with
         | VNone => Ok (total, total_hours)
         | _ =>
             n <- to_num x ;;
             Ok (num_add total (num_mul n hours), num_add total_hours hours)
         end) ;;
      if wind then Ok (fst state', num_add (snd state') hours)
      else Ok state'
  | None => Ok (total, total_hours)
  end.

(** [total = 0; total_hours = 0; for value in values: ...] *)
Definition average_loop (wind : bool) (start end_ : value)
  (values : list value) : result (num * num) :=
  foldM (average_step wind start end_) (NInt 0, NInt 0) values.

(** [total / total_hours], the mean that the assignment after a loop
    converts and stores, computed [if total_hours > 0]. *)
Definition day_mean (state : num * num) : result (option num) :=
  let (total, total_hours) := state in
  if num_ltb (NInt 0) total_hours then
    mean <- num_truediv total total_hours ;; Ok (Some mean)
  else Ok None.

(** *** [get]

    What [get] obtains from outside while it runs.  The [*_obj] fields are
    the results of the [getURL] calls (a decoded JSON document or [False]),
    after the [try]/[except] that turns an exception of the worker thread
    into [None].  Three computations are kept abstract, no property below
    depending on their output: the offset of the time zone ([pytz]), the scan
    for the nearest station ([geopy]: the rounded distance found, if the
    station list has an entry), and the "hourly" and "daily" blocks built
    from the periodic and grid forecasts (the dictionary assigned to
    [output['hourly']], respectively [output['daily']], if any). *)
Record upstream : Type := {
  noaa_points_obj : value;
  utc_offset : result value;
  noaa_stations_obj : value;
  nearest_station : result (option value);
  noaa_current_obj : value;
  noaa_hourly_obj : value;
  noaa_griddata_obj : value;
  noaa_daily_obj : value;
  noaa_alerts_obj : value;
  noaa_counties_obj : value;
  noaa_zones_obj : value;
  hourly_block : result (option value);
  daily_block : result (option value)
}.

Definition is_False (v : value) : bool :=
  match v with
  | VBool false => true
  | _ => false
  end.

(** The module does not import [flask]: [flask.abort(501)] raises. *)
Definition module_scope : list string :=
  [ "datetime"; "concurrent"; "sys"; "re"; "isodate"; "pytz"; "great_circle";
    "moon"; "LocationInfo"; "sun"; "functions"; "_mapIcons"; "dailyEpochTime";
    "get" ].

Definition assign_block (output : value) (k : string) (block : option value)
  : result value :=
  match block with
  | Some b => setitem_str output k b
  | None => Ok output
  end.

Definition get (latitude longitude : value) (up : upstream) : result value :=
  if is_False (noaa_points_obj up) then
    (* [flask_app.logger.critical(...)] needs an application object *)
    if flask_app then Ok (VBool false) else Raise AttributeError
  else
  timezone <-
    getKeyValue (noaa_points_obj up) [KStr "properties"; KStr "timeZone"] None ;;
  let output :=
    VDict [ ("latitude", latitude);
            ("longitude", longitude);
            ("timezone", timezone);
            ("currently", VDict []);
            ("minutely", VDict []);
            ("hourly", VDict []);
            ("daily", VDict []);
            ("alerts", VList []);
            ("flags", VDict [("sources", VList []); ("units", VStr "us")]) ] in
  offset <- utc_offset up ;;
  output <- setitem_str output "offset" offset ;;
  _ <- getKeyValue (noaa_points_obj up)
         [KStr "properties"; KStr "observationStations"] None ;;
  _ <- (if is_False (noaa_stations_obj up)
        then load_name module_scope "flask" else Ok tt) ;;
  nearest <- nearest_station up ;;
  match nearest with
  | None => Raise NameError     (* [noaa_station_url] was never assigned *)
  | Some miles =>
      output <- setitem_str2 output "flags" "nearest-station" miles ;;
      if negb (truthy (noaa_current_obj up)) then Ok (VBool false) else
      if negb (truthy (noaa_hourly_obj up)) then Ok (VBool false) else
      if negb (truthy (noaa_griddata_obj up)) then Ok (VBool false) else
      if negb (truthy (noaa_daily_obj up)) then Ok (VBool false) else
      noaa_county_list <- add_features (noaa_counties_obj up) [] ;;
      noaa_county_list <- add_features (noaa_zones_obj up) noaa_county_list ;;
      props <- getKeyValue (noaa_current_obj up) [KStr "properties"] None ;;
      output <-
        (if truthy props then
           c <- currently props ;; setitem_str output "currently" c
         else Ok output) ;;
      hourly <- hourly_block up ;;
      output <- assign_block output "hourly" hourly ;;
      daily <- daily_block up ;;
      output <- assign_block output "daily" daily ;;
      output <- alerts_section noaa_county_list (noaa_alerts_obj up) output ;;
      setitem_str2 output "flags" "sources" (VTuple [VStr "noaa"])
  end.

End Get.

End NOAAWeatherAPI.

(** ** ClimacellWeatherAPI.py *)

Module ClimacellWeatherAPI.

Definition climacell_icon_list : list (string * string) :=
  [ ("freezing_rain_heavy", "sleet");
    ("freezing_rain", "sleet");
    ("freezing_rain_light", "sleet");
    ("freezing_drizzle", "sleet");
    ("ice_pellets_heavy", "sleet");
    ("ice_pellets", "sleet");
    ("ice_pellets_light", "sleet");
    ("snow_heavy", "snow");
    ("snow", "snow");
    ("snow_light", "snow");
    ("flurries", "snow");
    ("tstorm", "rain");
    ("rain_heavy", "rain");
    ("rain", "rain");
    ("rain_light", "rain");
    ("drizzle", "rain");
    ("fog_light", "fog");
    ("fog", "fog");
    ("cloudy", "cloudy");
    ("mostly_cloudy", "cloudy");
    ("partly_cloudy", "partly-cloudy-day");
    ("mostly_clear", "clear-day");
    ("clear", "clear-day") ].

Definition weather_codes : list (string * string) :=
  [ ("freezing_rain_heavy", "Heavt Freezing Rain");
    ("freezing_rain", "Freezing Rain");
    ("freezing_rain_light", "Light Freezing Rain");
    ("freezing_drizzle", "Freezing Drizzle");
    ("ice_pellets_heavy", "Heavy Sleet");
    ("ice_pellets", "Sleet");
    ("ice_pellets_light", "Light Sleet");
    ("snow_heavy", "Heavy Snow");
    ("snow", "Snow");
    ("snow_light", "Light Snow");
    ("flurries", "Snow Flurries");
    ("tstorm", "Thundestorms");
    ("rain_heavy", "Heavy Rain");
    ("rain", "Rain");
    ("rain_light", "Light Rain");
    ("drizzle", "Drizzle");
    ("fog_light", "Light Fog");
    ("fog", "Fog");
    ("cloudy", "Cloudy");
    ("mostly_cloudy", "Mostly Cloudy");
    ("partly_cloudy", "Partly Cloudy");
    ("mostly_clear", "Mostly Clear");
    ("clear", "Clear") ].

(** The names bound at module level. *)
Definition module_scope : list string :=
  [ "datetime"; "concurrent"; "sys"; "isodate"; "pytz"; "moon";
    "TimezoneFinder"; "functions"; "_mapIcons"; "_mapClimacellWeatherCode";
    "_epochTime"; "_dailyEpochTime"; "get" ].

(** [k in table] and [table[k]] for a table with string keys: a key of
    another hashable type is not found, an unhashable one raises. *)
Definition table_find (k : value) (t : list (string * string))
  : result (option string) :=
  match k with
  | VStr s => Ok (table_get s t)
  | _ => if hashable k then Ok None else Raise TypeError
  end.

(** The [else] branch formats its message with [noaa_icon], a name of the
    other adapter that nothing binds here. *)
Definition _mapIcons (icon : value) (flask_app : bool)
  : list event * result value :=
  let scope := (["icon"; "flask_app"; "climacell_icon_list"]
                  ++ module_scope)%list in
  let text := "Can't find the icon in the Climacell list: {}" in
  match table_find icon climacell_icon_list with
  | Raise e => ([], Raise e)
  | Ok (Some v) => ([], Ok (VStr v))
  | Ok None =>
      match load_name scope "noaa_icon" with
      | Raise e => ([], Raise e)
      | Ok _ =>
          (((if flask_app then [LogWarning text "noaa_icon"] else [])
              ++ [Printed text "noaa_icon"])%list,
           Ok (VStr EmptyString))
      end
  end.

(** [flask_app] is not a parameter of this function. *)
Definition _mapClimacellWeatherCode (code : value)
  : list event * result value :=
  let scope := (["code"; "weather_codes"] ++ module_scope)%list in
  let text := "Could not find {} in the Climacell weather codes list" in
  if truthy code then
    match table_find code weather_codes with
    | Raise e => ([], Raise e)
    | Ok (Some v) => ([], Ok (VStr v))
    | Ok None =>
        match load_name scope "flask_app" with
        | Raise e => ([], Raise e)
        | Ok _ => ([LogWarning text "code"; Printed text "code"],
                   Ok (VStr EmptyString))
        end
    end
  else ([], Ok (VStr EmptyString)).

(** *** [get] *)

(** What [get] obtains from outside while it runs: the results of the four
    [getURL] calls (after the [try]/[except] that turns an exception of the
    worker thread into [None]), the time zone of [timezonefinder] and its
    offset ([pytz]), and two readings of the clock: the start of the current
    local hour and of the current UTC day. *)
Record upstream : Type := {
  cc_current_obj : value;
  cc_minutely_obj : value;
  cc_hourly_obj : value;
  cc_daily_obj : value;
  timezone_at : value;
  tz_offset : result value;
  this_hour : Z;
  utc_midnight : Z
}.

(** All four fetches of the adapter returned a payload. *)
Definition fetched (up : upstream) : Prop :=
  truthy (cc_current_obj up) = true /\ truthy (cc_minutely_obj up) = true /\
  truthy (cc_hourly_obj up) = true /\ truthy (cc_daily_obj up) = true.

(** A top-level key that no section of [get] assigns. *)
Definition untouched (k : string) : Prop :=
  k <> "currently" /\ k <> "minutely" /\ k <> "hourly" /\ k <> "daily" /\
  k <> "flags".

Section Get.

(** [strptime s] is the timestamp of
    [datetime.strptime(s, '%Y-%m-%dT%H:%M:%S.%fZ')] read as UTC,
    [strptime_day s] that of local midnight of
    [datetime.strptime(s, '%Y-%m-%d')], [parse_datetime s] that of
    [isodate.parse_datetime(s)], and [moon_phase t] is
    [moon.phase(datetime.utcfromtimestamp(t))]. *)
Variable strptime : string -> result Q.
Variable strptime_day : string -> result Q.
Variable parse_datetime : string -> result Q.
Variable moon_phase : Q -> result Q.
Variable flask_app : bool.

(** The integer computed by [_epochTime]. *)
Definition epoch_seconds (dt_str : value) : result Z :=
  match dt_str with
  | VStr s => t <- strptime s ;; Ok (int_of_Q t)
  | _ => Raise TypeError
  end.

Definition _epochTime (dt_str : value) : result value :=
  t <- epoch_seconds dt_str ;; Ok (VInt t).

Definition _dailyEpochTime (dt_str : value) : result value :=
  match dt_str with
  | VStr s => t <- strptime_day s ;; Ok (VInt (int_of_Q t))
  | _ => Raise TypeError
  end.

(** [isodate.parse_datetime(x).timestamp()] *)
Definition timestamp_of (x : value) : result Q :=
  match x with
  | VStr s => parse_datetime s
  | _ => Raise TypeError
  end.

(** [lambda x: int(isodate.parse_datetime(x).timestamp())] *)
Definition int_timestamp (x : value) : result value :=
  t <- timestamp_of x ;; Ok (VInt (int_of_Q t)).

(** [lambda x: round(isodate.parse_datetime(x).timestamp())] *)
Definition round_timestamp (x : value) : result value :=
  t <- timestamp_of x ;; Ok (VInt (round_half_even t)).

(** [lambda x: _mapClimacellWeatherCode(x)] *)
Definition summary_of (x : value) : result value :=
  snd (_mapClimacellWeatherCode x).

(** [lambda x: _mapIcons(x, flask_app)] *)
Definition icon_of (x : value) : result value := snd (_mapIcons x flask_app).

(** [lambda x: None if x == 'none' else x] *)
Definition precip_type (x : value) : result value :=
  Ok (if is_str "none" x then VNone else x).

(** [lambda x: round(x / 100)] *)
Definition percent_round (x : num) : result num :=
  d <- num_truediv x (NInt 100) ;; Ok (round0 d).

(** [lambda x: round(x / 100, 2)] *)
Definition percent_round2 (x : num) : result num :=
  d <- num_truediv x (NInt 100) ;; Ok (round2 d).

Definition field (obj : value) (name : string)
  (func : option (value -> result value)) : result value :=
  getKeyValue obj [KStr name; KStr "value"] func.

(** The dictionary assigned to [output['currently']]. *)
Definition currently (cc : value) : result value :=
  time <- field cc "observation_time" (Some _epochTime) ;;
  summary <- field cc "weather_code" (Some summary_of) ;;
  icon <- field cc "weather_code" (Some icon_of) ;;
  precipIntensity <- field cc "precipitation" None ;;
  precipType <- field cc "precipitation_type" (Some precip_type) ;;
  temperature <- field cc "temp" None ;;
  apparentTemperature <- field cc "feels_like" None ;;
  dewPoint <- field cc "dewpoint" None ;;
  humidity <- field cc "humidity" (Some (on_number percent_round)) ;;
  pressure <- field cc "baro_pressure" None ;;
  windSpeed <- field cc "wind_speed" None ;;
  windGust <- field cc "wind_gust" None ;;
  windBearing <- field cc "wind_direction" None ;;
  cloudCover <- field cc "cloud_cover" (Some (on_number percent_round)) ;;
  visibility <- field cc "visibility" None ;;
  ozone <- field cc "o3" None ;;
  Ok (VDict
        [ ("time", time);
          ("summary", summary);
          ("icon", icon);
          ("precipIntensity", precipIntensity);
          ("precipType", precipType);
          ("temperature", temperature);
          ("apparentTemperature", apparentTemperature);
          ("dewPoint", dewPoint);
          ("humidity", humidity);
          ("pressure", pressure);
          ("windSpeed", windSpeed);
          ("windGust", windGust);
          ("windBearing", windBearing);
          ("cloudCover", cloudCover);
          ("visibility", visibility);
          ("ozone", ozone) ]).

Definition currently_section (up : upstream) (output : value) : result value :=
  if truthy (cc_current_obj up) then
    c <- currently (cc_current_obj up) ;;
    setitem_str output "currently" c
  else Ok output.

(** *** Minutely *)

(** [not data or len(data) == 0] *)
Definition no_data (data : value) : result bool :=
  if negb (truthy data) then Ok true
  else n <- len data ;; Ok (n =? 0).

(** [minute['observation_time']['value']] *)
Definition observation_time (x : value) : result value :=
  ot <- getitem_str x "observation_time" ;; getitem_str ot "value".

Definition minute_entry (minute : value) : result value :=
  ot <- observation_time minute ;;
  time <- _epochTime ot ;;
  precipIntensity <- field minute "precipitation" None ;;
  precipType <- field minute "precipitation_type" (Some precip_type) ;;
  Ok (VDict
        [ ("time", time);
          ("precipIntensity", precipIntensity);
          ("precipIntesityError", VNone);
          ("precipProbability", VNone);
          ("precipType", precipType) ]).

Definition minutely_section (up : upstream) (output : value) : result value :=
  if truthy (cc_minutely_obj up) then
    minutely_data <- getKeyValue output [KStr "minutely"; KStr "data"] None ;;
    empty <- no_data minutely_data ;;
    if empty then
      minutes <- iterate (cc_minutely_obj up) ;;
      minutely_data <-
        foldM (fun acc minute => e <- minute_entry minute ;; Ok (acc ++ [e])%list)
              [] minutes ;;
      setitem_str output "minutely"
        (VDict [ ("summary", VNone);
                 ("icon", VNone);
                 ("data", VList minutely_data) ])
    else Ok output
  else Ok output.

(** *** Hourly *)

Definition time_only (t : Z) : value := VDict [("time", VInt t)].

Definition hour_entry (hour cc_hour : value) : result value :=
  time <- getitem_str hour "time" ;;
  summary <- field cc_hour "weather_code" (Some summary_of) ;;
  icon <- field cc_hour "weather_code" (Some icon_of) ;;
  precipIntensity <- field cc_hour "precipitation" None ;;
  precipProbability <-
    field cc_hour "precipitation_probability" (Some (on_number percent_round2)) ;;
  precipType <- field cc_hour "precipitation_type" (Some precip_type) ;;
  temperature <- field cc_hour "temp" None ;;
  apparentTemperature <- field cc_hour "feels_like" None ;;
  dewPoint <- field cc_hour "dewpoint" None ;;
  humidity <- field cc_hour "humidity" (Some (on_number percent_round2)) ;;
  pressure <- field cc_hour "baro_pressure" None ;;
  windSpeed <- field cc_hour "wind_speed" None ;;
  windGust <- field cc_hour "wind_gust" None ;;
  windBearing <- field cc_hour "wind_direction" None ;;
  cloudCover <- field cc_hour "cloud_cover" (Some (on_number percent_round2)) ;;
  visibility <- field cc_hour "visibility" None ;;
  ozone <- field cc_hour "o3" None ;;
  Ok (VDict
        [ ("time", time);
          ("summary", summary);
          ("icon", icon);
          ("precipIntensity", precipIntensity);
          ("precipProbability", precipProbability);
          ("precipType", precipType);
          ("temperature", temperature);
          ("apparentTemperature", apparentTemperature);
          ("dewPoint", dewPoint);
          ("humidity", humidity);
          ("pressure", pressure);
          ("windSpeed", windSpeed);
          ("windGust", windGust);
          ("windBearing", windBearing);
          ("cloudCover", cloudCover);
          ("visibility", visibility);
          ("ozone", ozone) ]).

(** [x[0][k]] *)
Definition first_field (x : value) (k : string) : result value :=
  e <- getitem_int x 0 ;; getitem_str e k.

(** The body of [for i in range(len(hourly_data))]; the state is the output
    document and the list [hourly_data]. *)
Definition hourly_step (up : upstream) (st : value * value) (i : Z)
  : result (value * value) :=
  let (output, hourly_data) := st in
  hour <- getitem_int hourly_data i ;;
  cc_hour <- getitem_int (cc_hourly_obj up) i ;;
  time <- getitem_str hour "time" ;;
  ot <- observation_time cc_hour ;;
  cc_time <- epoch_seconds ot ;;
  hourly_data <-
    (if eq_int time cc_time then
       e <- hour_entry hour cc_hour ;; setitem_int hourly_data i e
     else Ok hourly_data) ;;
  s <- first_field hourly_data "summary" ;;
  output <- setitem_str2 output "hourly" "summary" s ;;
  c <- first_field hourly_data "icon" ;;
  output <- setitem_str2 output "hourly" "icon" c ;;
  s <- first_field hourly_data "summary" ;;
  output <- setitem_str2 output "minutely" "summary" s ;;
  c <- first_field hourly_data "icon" ;;
  output <- setitem_str2 output "minutely" "icon" c ;;
  Ok (output, hourly_data).

Definition hourly_section (up : upstream) (output : value) : result value :=
  if truthy (cc_hourly_obj up) then
    hourly_data <- getKeyValue output [KStr "hourly"; KStr "data"] None ;;
    empty <- no_data hourly_data ;;
    let hourly_data :=
      if empty then
        let timestamp := this_hour up in
        VList (map time_only
                 (py_range (timestamp + (timestamp + 3600 * 48)) 3600))
      else hourly_data in
    n <- len hourly_data ;;
    st <- foldM (hourly_step up) (output, hourly_data) (py_range 0 n) ;;
    setitem_str2 (fst st) "hourly" "data" (snd st)
  else Ok output.

(** *** Daily *)

(** [round(moon.phase(datetime.datetime.utcfromtimestamp(t)) / 27.99, 2)] *)
Definition moonPhase (t : value) : result value :=
  n <- to_num t ;;
  p <- moon_phase (num_Q n) ;;
  d <- num_truediv (NFloat p) (NFloat (2799 # 100)) ;;
  Ok (of_num (round2 d)).

(** The dictionary literal assigned to [daily_data[i]]. *)
Definition day_entry (day cc_day : value) : result (list (string * value)) :=
  time <- getitem_str day "time" ;;
  summary <- field cc_day "weather_code" (Some summary_of) ;;
  icon <- field cc_day "weather_code" (Some icon_of) ;;
  sunriseTime <- field cc_day "sunrise" (Some round_timestamp) ;;
  sunsetTime <- field cc_day "sunset" (Some round_timestamp) ;;
  t <- getitem_str day "time" ;;
  phase <- moonPhase t ;;
  precipIntensity <-
    getKeyValue cc_day [KStr "precipitation"; KInt 0; KStr "max"; KStr "value"]
      None ;;
  precipIntensityMax <-
    getKeyValue cc_day [KStr "precipitation"; KInt 0; KStr "max"; KStr "value"]
      None ;;
  precipIntensityMaxTime <-
    getKeyValue cc_day [KStr "precipitation"; KStr "observation_time"]
      (Some int_timestamp) ;;
  precipProbability <- field cc_day "precipitation_probability" None ;;
  windSpeed <- getKeyValue day [KStr "windSpeed"] None ;;
  windBearing <- getKeyValue day [KStr "windBearing"] None ;;
  cloudCover <- getKeyValue day [KStr "cloudCover"] None ;;
  visibility <- getKeyValue day [KStr "visibility"] None ;;
  Ok [ ("time", time);
       ("summary", summary);
       ("icon", icon);
       ("sunriseTime", sunriseTime);
       ("sunsetTime", sunsetTime);
       ("moonPhase", phase);
       ("precipIntensity", precipIntensity);
       ("precipIntensityMax", precipIntensityMax);
       ("precipIntensityMaxTime", precipIntensityMaxTime);
       ("precipProbability", precipProbability);
       ("temperatureHigh", VNone);
       ("temperatureHighTime", VNone);
       ("temperatureLow", VNone);
       ("temperatureLowTime", VNone);
       ("apparentTemperatureHigh", VNone);
       ("apparentTemperatureHighTime", VNone);
       ("apparentTemperatureLow", VNone);
       ("apparentTemperatureLowTime", VNone);
       ("dewPoint", VNone);
       ("humidity", VNone);
       ("pressure", VNone);
       ("windSpeed", windSpeed);
       ("windGust", VNone);
       ("windGustTime", VNone);
       ("windBearing", windBearing);
       ("cloudCover", cloudCover);
       ("visibility", visibility);
       ("temperatureMin", VNone);
       ("temperatureMinTime", VNone);
       ("temperatureMax", VNone);
       ("temperatureMaxTime", VNone);
       ("apparentTemperatureMin", VNone);
       ("apparentTemperatureMinTime", VNone);
       ("apparentTemperatureMax", VNone);
       ("apparentTemperatureMaxTime", VNone) ].

(** [t[k]['value']] and [int(isodate.parse_datetime(t['observation_time'])
    .timestamp())] *)
Definition sample_value (t : value) (k : string) : result value :=
  m <- getitem_str t k ;; getitem_str m "value".

Definition sample_time (t : value) : result value :=
  o <- getitem_str t "observation_time" ;; int_timestamp o.

(** [if k in t:] followed by the assignments of the sample's value to the
    fields [vs] and of its time to the fields [ts] of the day. *)
Definition take_sample (k : string) (vs ts : list string) (t : value)
  (rec : list (string * value)) : result (list (string * value)) :=
  present <- contains_str k t ;;
  if present then
    v <- sample_value t k ;;
    time <- sample_time t ;;
    Ok (fold_left (fun r f => dict_set f time r) ts
          (fold_left (fun r f => dict_set f v r) vs rec))
  else Ok rec.

(** [for t in cc_day['temp']] and [for t in cc_day['feels_like']] *)
Definition extremes (samples : value) (prefix : string)
  (rec : list (string * value)) : result (list (string * value)) :=
  items <- iterate samples ;;
  foldM (fun rec t =>
           rec <- take_sample "min"
                    [prefix ++ "Low"; prefix ++ "Min"]%string
                    [prefix ++ "LowTime"; prefix ++ "MinTime"]%string t rec ;;
           take_sample "max"
             [prefix ++ "High"; prefix ++ "Max"]%string
             [prefix ++ "HighTime"; prefix ++ "MaxTime"]%string t rec)
        rec items.

(** [total = total + t[k]['value']] under [if k in t] *)
Definition add_sample (k : string) (t : value) (total : num) : result num :=
  present <- contains_str k t ;;
  if present then
    v <- sample_value t k ;; n <- to_num v ;; Ok (num_add total n)
  else Ok total.

(** [for t in cc_day['humidity']] and [for t in cc_day['baro_pressure']]:
    [total] restarts from 0 at every sample. *)
Definition mean_of_extremes (samples : value) (name : string)
  (rec : list (string * value)) : result (list (string * value)) :=
  items <- iterate samples ;;
  foldM (fun rec t =>
           total <- add_sample "min" t (NInt 0) ;;
           total <- add_sample "max" t total ;;
           n <- len samples ;;
           d <- num_truediv total (NInt n) ;;
           Ok (dict_set name (of_num (round2 d)) rec))
        rec items.

(** [for t in cc_day['wind_speed']] *)
Definition gust (samples : value) (rec : list (string * value))
  : result (list (string * value)) :=
  items <- iterate samples ;;
  foldM (fun rec t => take_sample "max" ["windGust"] ["windGustTime"] t rec)
        rec items.

(** The [if len(daily_data) < 8] padding loop; the state is [timestamp] and
    [daily_data]. *)
Definition pad_step (st : value * value) (_ : Z) : result (value * value) :=
  let (timestamp, daily_data) := st in
  n <- to_num timestamp ;;
  let timestamp := of_num (num_add n (NInt 86400)) in
  daily_data <- append daily_data (VDict [("time", timestamp)]) ;;
  Ok (timestamp, daily_data).

Definition pad (daily_data : value) : result value :=
  n <- len daily_data ;;
  if n <? 8 then
    last <- getitem_int daily_data (n - 1) ;;
    timestamp <- getitem_str last "time" ;;
    st <- foldM pad_step (timestamp, daily_data) (py_range 0 (8 - n)) ;;
    Ok (snd st)
  else Ok daily_data.

(** "Align the dates in the two arrays": the loop that advances [ctr]. *)
Definition align_step (up : upstream) (daily_data : value) (ctr : Z) (_ : Z)
  : result Z :=
  cc_day <- getitem_int (cc_daily_obj up) ctr ;;
  ot <- observation_time cc_day ;;
  t <- _dailyEpochTime ot ;;
  first <- first_field daily_data "time" ;;
  before <- py_lt t first ;;
  Ok (if before then ctr + 1 else ctr).

(** The body of [for i in range(len(daily_data))]; the state is [daily_data]
    and [ctr]. *)
Definition daily_step (up : upstream) (st : value * Z) (i : Z)
  : result (value * Z) :=
  let (daily_data, ctr) := st in
  day <- getitem_int daily_data i ;;
  cc_day <- getitem_int (cc_daily_obj up) ctr ;;
  rec <- day_entry day cc_day ;;
  daily_data <- setitem_int daily_data i (VDict rec) ;;
  temp <- getitem_str cc_day "temp" ;;
  rec <- extremes temp "temperature" rec ;;
  feels_like <- getitem_str cc_day "feels_like" ;;
  rec <- extremes feels_like "apparentTemperature" rec ;;
  humidity <- getitem_str cc_day "humidity" ;;
  rec <- mean_of_extremes humidity "humidity" rec ;;
  baro_pressure <- getitem_str cc_day "baro_pressure" ;;
  rec <- mean_of_extremes baro_pressure "pressure" rec ;;
  wind_speed <- getitem_str cc_day "wind_speed" ;;
  rec <- gust wind_speed rec ;;
  daily_data <- setitem_int daily_data i (VDict rec) ;;
  Ok (daily_data, ctr + 1).

Definition daily_section (up : upstream) (output : value) : result value :=
  if truthy (cc_daily_obj up) then
    daily_data <- getKeyValue output [KStr "daily"; KStr "data"] None ;;
    empty <- no_data daily_data ;;
    let daily_data :=
      if empty then
        let timestamp := utc_midnight up in
        VList (map time_only
                 (py_range (timestamp + (timestamp + 86400 * 8)) 86400))
      else daily_data in
    daily_data <- pad daily_data ;;
    m <- len (cc_daily_obj up) ;;
    ctr <- foldM (align_step up daily_data) 0 (py_range 0 m) ;;
    n <- len daily_data ;;
    st <- foldM (daily_step up) (daily_data, ctr) (py_range 0 n) ;;
    let daily_data := fst st in
    s <- first_field daily_data "summary" ;;
    output <- setitem_str2 output "daily" "summary" s ;;
    c <- first_field daily_data "icon" ;;
    output <- setitem_str2 output "daily" "icon" c ;;
    setitem_str2 output "daily" "data" daily_data
  else Ok output.

(** *** Source flag *)

(** [input_dictionary] names the same object as [output] whenever it is
    truthy, so its [flags] are read in the current document. *)
Definition sources_section (input_dictionary output : value) : result value :=
  let input_dictionary :=
    if truthy input_dictionary then output else input_dictionary in
  present <-
    getKeyValue input_dictionary [KStr "flags"; KStr "sources"] None ;;
  sources <-
    (if truthy present then
       again <-
         getKeyValue input_dictionary [KStr "flags"; KStr "sources"] None ;;
       iterate again
     else Ok []) ;;
  setitem_str2 output "flags" "sources"
    (VList (sources ++ [VStr "climacell"])).

(** The document built when no input dictionary is given. *)
Definition fresh_output (latitude longitude : value) (up : upstream)
  : result value :=
  let output :=
    VDict [ ("latitude", latitude);
            ("longitude", longitude);
            ("timezone", timezone_at up);
            ("currently", VDict []);
            ("minutely", VDict []);
            ("hourly", VDict []);
            ("daily", VDict []);
            ("flags", VDict [("sources", VList []); ("units", VStr "us")]) ] in
  offset <- tz_offset up ;;
  setitem_str output "offset" offset.

(** [return input_dictionary] if it is truthy, else [return False]. *)
Definition hand_back (input_dictionary : value) : result value :=
  if truthy input_dictionary then Ok input_dictionary else Ok (VBool false).

Definition get (latitude longitude : value) (up : upstream)
  (input_dictionary : value) : result value :=
  if negb (truthy (cc_current_obj up)) then hand_back input_dictionary else
  if negb (truthy (cc_minutely_obj up)) then hand_back input_dictionary else
  if negb (truthy (cc_hourly_obj up)) then hand_back input_dictionary else
  if negb (truthy (cc_daily_obj up)) then hand_back input_dictionary else
  output <-
    (if truthy input_dictionary then Ok input_dictionary
     else fresh_output latitude longitude up) ;;
  output <- currently_section up output ;;
  output <- minutely_section up output ;;
  output <- hourly_section up output ;;
  output <- daily_section up output ;;
  sources_section input_dictionary output.

End Get.

End ClimacellWeatherAPI.

(** ** darksky-api.py *)

Module darksky_api.

(** What the handler returns: a text with a status code, or the
    [flask.Response] that carries [json.dumps(output, indent=4)] with the
    default status 200; the latter is represented by the document [output]
    itself. *)
Inductive response : Type :=
| Plain (text : string) (status : Z)
| Json (output : value) (status : Z).

Definition status_of (r : response) : Z :=
  match r with
  | Plain _ s => s
  | Json _ s => s
  end.

(** The calls the handler makes to the adapters and to the snapshot file.
    The adapters are the only code that reaches [getURL]. *)
Inductive call : Type :=
| CallNOAA (latitude longitude : pyfloat)
| CallClimacell (latitude longitude : pyfloat) (apikey : string)
    (input_dictionary : value)
| WriteSnapshot (output : value)
| ReadSnapshot.

Definition is_fetch (c : call) : bool :=
  match c with
  | CallNOAA _ _ | CallClimacell _ _ _ _ => true
  | _ => false
  end.

(** A run of the handler: the calls made, in order, the snapshot file
    afterwards and the response (or the exception that escapes). *)
Record run : Type := {
  calls : list call;
  snapshot : option value;
  outcome : result response
}.

(** "If there are no alerts in the output, remove the alerts key". *)
Definition strip_alerts (output : value) : result value :=
  present <- contains_str "alerts" output ;;
  if present then
    alerts <- getitem_str output "alerts" ;;
    n <- len alerts ;;
    if n =? 0 then delitem_str output "alerts" else Ok output
  else Ok output.

Section Forecast.

(** [float(s)], [None] standing for its [ValueError]; the two adapters with
    what they fetch; the snapshot file holds a document written by
    [json.dump], [None] when the file does not exist. *)
Variable parse_float : string -> option pyfloat.
Variable noaa_get : pyfloat -> pyfloat -> result value.
Variable climacell_get : pyfloat -> pyfloat -> string -> value -> result value.

Definition reject (text : string) (cached : option value) : run :=
  {| calls := []; snapshot := cached; outcome := Ok (Plain text 400) |}.

(** Lines 85-113: what is done with the output of the adapters. *)
Definition respond (trace : list call) (cached : option value)
  (output : value) : run :=
  if truthy output then
    match strip_alerts output with
    | Raise e => {| calls := trace; snapshot := cached; outcome := Raise e |}
    | Ok output =>
        {| calls := trace ++ [WriteSnapshot output];
           snapshot := Some output;
           outcome := Ok (Json output 200) |}
    end
  else
    match cached with
    | Some stored =>
        {| calls := trace ++ [ReadSnapshot];
           snapshot := cached;
           outcome := Ok (Json stored 200) |}
    | None =>
        {| calls := trace;
           snapshot := cached;
           outcome := Ok (Plain "Failed to obtain any weather data." 502) |}
    end.

Definition forecast (apikey geolocation : string) (cached : option value)
  : run :=
  let gsplit := split_on "," geolocation in
  if negb (List.length gsplit =? 2)%nat then
    reject "URL must include a valid latitude,longitude" cached
  else
    match parse_float (nth 0 gsplit EmptyString) with
    | None => reject "URL must include a valid latitude,longitude" cached
    | Some latitude =>
    match parse_float (nth 1 gsplit EmptyString) with
    | None => reject "URL must include a valid latitude,longitude" cached
    | Some longitude =>
      if float_gtb latitude 65 || float_ltb latitude 19 then
        reject
          "URL must include a valid latitude,longitude for a location in the USA"
          cached
      else if float_gtb longitude (-67) || float_ltb longitude (-162) then
        reject
          "URL must include a valid latitude,longitude for a location in the USA"
          cached
      else
        match noaa_get latitude longitude with
        | Raise e =>
            {| calls := [CallNOAA latitude longitude];
               snapshot := cached;
               outcome := Raise e |}
        | Ok output =>
            let trace :=
              [ CallNOAA latitude longitude;
                CallClimacell latitude longitude apikey output ] in
            match climacell_get latitude longitude apikey output with
            | Raise e =>
                {| calls := trace; snapshot := cached; outcome := Raise e |}
            | Ok output => respond trace cached output
            end
        end
    end
    end.

(** The request text splits into two numbers. *)
Definition parsed (geolocation : string) (latitude longitude : pyfloat)
  : Prop :=
  exists a b,
    split_on "," geolocation = [a; b] /\
    parse_float a = Some latitude /\ parse_float b = Some longitude.

(** The two bound checks of the handler let the coordinates through. *)
Definition passes_validation (latitude longitude : pyfloat) : Prop :=
  float_gtb latitude 65 || float_ltb latitude 19 = false /\
  float_gtb longitude (-67) || float_ltb longitude (-162) = false.

End Forecast.

(** The closed interval [[lo, hi]] for a float, and what the comparisons of
    the handler recognise as lying outside it: a float that compares below
    [lo] or above [hi].  [nan] compares with nothing: it is not within the
    interval, and not [outside] it either, so [outside] is not the complement
    of [within]. *)
Definition within (x : pyfloat) (lo hi : Z) : Prop :=
  match x with
  | Finite q => (inject_Z lo <= q /\ q <= inject_Z hi)%Q
  | _ => False
  end.

Definition outside (x : pyfloat) (lo hi : Z) : Prop :=
  match x with
  | Finite q => (q < inject_Z lo \/ inject_Z hi < q)%Q
  | PosInf | NegInf => True
  | NaN => False
  end.

End darksky_api.

(** ** Fixtures

    A small clock and small upstream documents, used to run the adapters on
    concrete inputs. *)

Module Sample.

(** 2020-04-10T16:00:00Z and the hour and days after it. *)
Definition instants : list (string * Z) :=
  [ ("2020-04-10T16:00:00.000Z", 1586534400);
    ("2020-04-10T17:00:00.000Z", 1586538000);
    ("2020-04-10", 1586476800);
    ("2020-04-11", 1586563200);
    ("2020-04-10T16:00:00+00:00", 1586534400);
    ("2020-04-11T16:00:00+00:00", 1586620800) ].

Fixpoint instant_of (s : string) (t : list (string * Z)) : result Q :=
  match t with
  | [] => Raise ValueError
  | (k, v) :: t' => if String.eqb s k then Ok (inject_Z v) else instant_of s t'
  end.

Definition clock (s : string) : result Q := instant_of s instants.

(** Durations are understood as one hour. *)
Definition one_hour_later (start : Q) (_ : string) : result Q :=
  Ok (start + 3600)%Q.

Definition new_moon (_ : Q) : result Q := Ok 0%Q.

Definition entry (k : string) (v : value) : string * value :=
  (k, VDict [("value", v)]).

(** A station observation: 20 degrees Celsius, dew point 10. *)
Definition mild_observation : value :=
  VDict [ entry "temperature" (VInt 20);
          entry "dewpoint" (VInt 10) ].

(** A station observation at the freezing point, wind of 10 m/s. *)
Definition freezing_observation : value :=
  VDict [ entry "temperature" (VInt 0);
          entry "windSpeed" (VInt 10) ].

(** [float(s)] on the few texts used below. *)
Definition float_of (s : string) : option pyfloat :=
  if String.eqb s "18.99" then Some (Finite (1899 # 100))
  else if String.eqb s "-162.01" then Some (Finite (-16201 # 100))
  else if String.eqb s "40" then Some (Finite 40)
  else if String.eqb s "-75" then Some (Finite (-75))
  else if String.eqb s "nan" then Some NaN
  else None.

Definition cc_hour : value :=
  VDict [ entry "observation_time" (VStr "2020-04-10T16:00:00.000Z");
          entry "weather_code" (VStr "rain");
          entry "humidity" (VInt 55);
          entry "temp" (VInt 50) ].

Definition cc_day : value :=
  VDict [ entry "observation_time" (VStr "2020-04-10");
          entry "weather_code" (VStr "cloudy");
          ("temp", VList []);
          ("feels_like", VList []);
          ("humidity",
           VList [ VDict [ ("observation_time", VStr "2020-04-10T16:00:00+00:00");
                           ("min", VDict [("value", VInt 40)]) ];
                   VDict [ ("observation_time", VStr "2020-04-11T16:00:00+00:00");
                           ("max", VDict [("value", VInt 80)]) ] ]);
          ("baro_pressure", VList []);
          ("wind_speed", VList []) ].

Definition cc_minute : value :=
  VDict [ entry "observation_time" (VStr "2020-04-10T16:00:00.000Z");
          entry "precipitation" (VInt 0) ].

Definition climacell : ClimacellWeatherAPI.upstream :=
  {| ClimacellWeatherAPI.cc_current_obj :=
       VDict [ entry "observation_time" (VStr "2020-04-10T16:00:00.000Z");
               entry "weather_code" (VStr "rain");
               entry "humidity" (VInt 55) ];
     ClimacellWeatherAPI.cc_minutely_obj := VList [cc_minute];
     ClimacellWeatherAPI.cc_hourly_obj := VList [cc_hour];
     ClimacellWeatherAPI.cc_daily_obj := VList (repeat cc_day 8);
     ClimacellWeatherAPI.timezone_at := VStr "America/New_York";
     ClimacellWeatherAPI.tz_offset := Ok (VFloat (-4));
     ClimacellWeatherAPI.this_hour := 1586534400;
     ClimacellWeatherAPI.utc_midnight := 1586476800 |}.

(** A document as the primary adapter leaves it, here with one hour, one
    day and a minute already in place. *)
Definition document (sources : value) (minutely hourly : value) : value :=
  VDict [ ("latitude", VFloat 40);
          ("longitude", VFloat (-75));
          ("timezone", VStr "America/New_York");
          ("currently", VDict []);
          ("minutely", minutely);
          ("hourly", hourly);
          ("daily",
           VDict [ ("summary", VStr "Cloudy");
                   ("icon", VStr "cloudy");
                   ("data", VList [VDict [ ("time", VInt 1586476800);
                                           ("windSpeed", VFloat 5) ]]) ]);
          ("alerts", VList []);
          ("flags", VDict [("sources", sources); ("units", VStr "us")]);
          ("offset", VFloat (-4)) ].

Definition one_minute : value :=
  VDict [ ("summary", VStr "Dry");
          ("icon", VStr "clear-day");
          ("data", VList [VDict [("time", VInt 1586534460)]]) ].

Definition one_hour : value :=
  VDict [ ("summary", VStr "Sunny");
          ("icon", VStr "clear-day");
          ("data", VList [VDict [ ("time", VInt 1586534400);
                                  ("summary", VStr "Sunny");
                                  ("icon", VStr "clear-day") ]]) ].

Definition run_climacell (up : ClimacellWeatherAPI.upstream)
  (input_dictionary : value) : result value :=
  ClimacellWeatherAPI.get clock clock clock new_moon true
    (VFloat 40) (VFloat (-75)) up input_dictionary.

(** The secondary provider is down: its first fetch fails. *)
Definition climacell_down : ClimacellWeatherAPI.upstream :=
  {| ClimacellWeatherAPI.cc_current_obj := VBool false;
     ClimacellWeatherAPI.cc_minutely_obj := VBool false;
     ClimacellWeatherAPI.cc_hourly_obj := VBool false;
     ClimacellWeatherAPI.cc_daily_obj := VBool false;
     ClimacellWeatherAPI.timezone_at := VStr "America/New_York";
     ClimacellWeatherAPI.tz_offset := Ok (VFloat (-4));
     ClimacellWeatherAPI.this_hour := 1586534400;
     ClimacellWeatherAPI.utc_midnight := 1586476800 |}.

(** Two alerts: one that expires on the next day, one that expired at
    16:00; the clock of the alert loop reads 17:00. *)
Definition alert (expires : string) : value :=
  VDict [ ("properties",
           VDict [ ("@id", VStr "https://api.weather.gov/alerts/1");
                   ("event", VStr "Flood Warning");
                   ("severity", VStr "Severe");
                   ("onset", VStr "2020-04-10T16:00:00+00:00");
                   ("expires", VStr expires);
                   ("description", VStr "Heavy  rain");
                   ("geocode", VDict [("UGC", VList [VStr "PAC101"])]) ]) ].

Definition five_pm (_ : nat) : Q := 1586538000.

Definition noaa (alerts : list value) : NOAAWeatherAPI.upstream :=
  {| NOAAWeatherAPI.noaa_points_obj :=
       VDict [ ("properties",
                VDict [ ("timeZone", VStr "America/New_York");
                        ("observationStations",
                         VStr "https://api.weather.gov/stations") ]) ];
     NOAAWeatherAPI.utc_offset := Ok (VFloat (-4));
     NOAAWeatherAPI.noaa_stations_obj := VDict [("features", VList [VNone])];
     NOAAWeatherAPI.nearest_station := Ok (Some (VFloat (32 # 10)));
     NOAAWeatherAPI.noaa_current_obj :=
       VDict [("properties", mild_observation)];
     NOAAWeatherAPI.noaa_hourly_obj := VDict [("properties", VDict [])];
     NOAAWeatherAPI.noaa_griddata_obj := VDict [("properties", VDict [])];
     NOAAWeatherAPI.noaa_daily_obj := VDict [("properties", VDict [])];
     NOAAWeatherAPI.noaa_alerts_obj := VDict [("features", VList alerts)];
     NOAAWeatherAPI.noaa_counties_obj :=
       VDict [ ("features",
                VList [VDict [ ("properties",
                                VDict [ ("id", VStr "PAC101");
                                        ("name", VStr "Philadelphia") ]) ]]) ];
     NOAAWeatherAPI.noaa_zones_obj := VNone;
     NOAAWeatherAPI.hourly_block := Ok (Some one_hour);
     NOAAWeatherAPI.daily_block :=
       Ok (Some (VDict [ ("summary", VStr "Cloudy");
                         ("icon", VStr "cloudy");
                         ("data",
                          VList [VDict [("time", VInt 1586476800)]]) ])) |}.

(** The primary provider is down: the points lookup fails. *)
Definition noaa_down : NOAAWeatherAPI.upstream :=
  {| NOAAWeatherAPI.noaa_points_obj := VBool false;
     NOAAWeatherAPI.utc_offset := Raise TypeError;
     NOAAWeatherAPI.noaa_stations_obj := VBool false;
     NOAAWeatherAPI.nearest_station := Raise TypeError;
     NOAAWeatherAPI.noaa_current_obj := VNone;
     NOAAWeatherAPI.noaa_hourly_obj := VNone;
     NOAAWeatherAPI.noaa_griddata_obj := VNone;
     NOAAWeatherAPI.noaa_daily_obj := VNone;
     NOAAWeatherAPI.noaa_alerts_obj := VNone;
     NOAAWeatherAPI.noaa_counties_obj := VNone;
     NOAAWeatherAPI.noaa_zones_obj := VNone;
     NOAAWeatherAPI.hourly_block := Raise TypeError;
     NOAAWeatherAPI.daily_block := Raise TypeError |}.

Definition run_noaa (up : NOAAWeatherAPI.upstream) : result value :=
  NOAAWeatherAPI.get clock one_hour_later true five_pm
    (VFloat 40) (VFloat (-75)) up.

(** The adapters as the handler calls them, both providers being down. *)
Definition noaa_get_down (_ _ : pyfloat) : result value := run_noaa noaa_down.

Definition climacell_get_down (_ _ : pyfloat) (_ : string)
  (input_dictionary : value) : result value :=
  run_climacell climacell_down input_dictionary.

(** The snapshot left by an earlier request. *)
Definition stored : value :=
  document (VList [VStr "noaa"]) (VDict []) (VDict []).

Definition value_of (r : result value) : value :=
  match r with
  | Ok v => v
  | Raise _ => VNone
  end.

(** A document with minute data and an hourly skeleton, and what one and
    two calls of the secondary adapter make of it. *)
Definition with_minute : value :=
  document (VTuple [VStr "noaa"]) one_minute one_hour.

Definition after_one_call : value :=
  value_of (run_climacell climacell with_minute).

Definition after_two_calls : value :=
  value_of (run_climacell climacell after_one_call).

(** A document with minute data but no hourly block, as the primary adapter
    leaves it when every period of the hourly forecast is over. *)
Definition without_hours : value :=
  document (VTuple [VStr "noaa"]) one_minute (VDict []).

(** A document that already names the secondary provider. *)
Definition seen_before : value :=
  document (VList [VStr "climacell"]) (VDict []) (VDict []).

(** The document of the primary adapter for one live and one expired
    alert, and the secondary adapter's output for it. *)
Definition two_alerts : NOAAWeatherAPI.upstream :=
  noaa [ alert "2020-04-11T16:00:00+00:00";
         alert "2020-04-10T16:00:00+00:00" ].

Definition primary : value := value_of (run_noaa two_alerts).

Definition enriched : value := value_of (run_climacell climacell primary).

Definition seen_twice : value :=
  value_of (run_climacell climacell seen_before).

(** The adapters as the handler calls them, both providers answering. *)
Definition noaa_get_up (_ _ : pyfloat) : result value := run_noaa two_alerts.

Definition climacell_get_up (_ _ : pyfloat) (_ : string)
  (input_dictionary : value) : result value :=
  run_climacell climacell input_dictionary.

(** The primary provider answers, with the given alert and county
    documents; the forecast zones are not available. *)
Definition noaa_with (alerts_obj counties_obj : value)
  : NOAAWeatherAPI.upstream :=
  {| NOAAWeatherAPI.noaa_points_obj :=
       VDict [ ("properties",
                VDict [ ("timeZone", VStr "America/New_York");
                        ("observationStations",
                         VStr "https://api.weather.gov/stations") ]) ];
     NOAAWeatherAPI.utc_offset := Ok (VFloat (-4));
     NOAAWeatherAPI.noaa_stations_obj := VDict [("features", VList [VNone])];
     NOAAWeatherAPI.nearest_station := Ok (Some (VFloat (32 # 10)));
     NOAAWeatherAPI.noaa_current_obj :=
       VDict [("properties", mild_observation)];
     NOAAWeatherAPI.noaa_hourly_obj := VDict [("properties", VDict [])];
     NOAAWeatherAPI.noaa_griddata_obj := VDict [("properties", VDict [])];
     NOAAWeatherAPI.noaa_daily_obj := VDict [("properties", VDict [])];
     NOAAWeatherAPI.noaa_alerts_obj := alerts_obj;
     NOAAWeatherAPI.noaa_counties_obj := counties_obj;
     NOAAWeatherAPI.noaa_zones_obj := VNone;
     NOAAWeatherAPI.hourly_block := Ok (Some one_hour);
     NOAAWeatherAPI.daily_block := Ok None |}.

(** Neither the alerts nor the area names could be fetched. *)
Definition no_alert_feed : NOAAWeatherAPI.upstream :=
  noaa_with (VBool false) VNone.

Definition quiet : value := value_of (run_noaa no_alert_feed).

Definition live_alert : value := alert "2020-04-11T16:00:00+00:00".

(** A period of the hourly forecast, and a value of the grid forecast that
    holds for the hour from 16:00. *)
Definition period (startTime endTime : string) : value :=
  VDict [ ("startTime", VStr startTime);
          ("endTime", VStr endTime);
          ("shortForecast", VStr "mostly sunny");
          ("icon",
           VStr "https://api.weather.gov/icons/land/day/few?size=small") ].

Definition hourly_forecast : value :=
  VDict [ ("properties",
           VDict [ ("periods",
                    VList [ period "2020-04-10T16:00:00+00:00"
                              "2020-04-10T16:00:00+00:00";
                            period "2020-04-10T16:00:00+00:00"
                              "2020-04-11T16:00:00+00:00" ]) ]) ].

Definition grid_value (v : value) : value :=
  VDict [ ("values",
           VList [VDict [ ("validTime",
                           VStr "2020-04-10T16:00:00+00:00/PT1H");
                          ("value", v) ]]) ].

Definition grid_forecast : value :=
  VDict [ ("properties",
           VDict [ ("quantitativePrecipitation", grid_value (VFloat 2.54));
                   ("dewpoint", grid_value (VInt 10));
                   ("relativeHumidity", grid_value (VInt 55)) ]) ].

Definition hourly_run : result (option value) :=
  NOAAWeatherAPI.hourly_section clock one_hour_later true five_pm
    hourly_forecast grid_forecast.

Definition hourly_result : value :=
  match hourly_run with
  | Ok (Some block) => block
  | _ => VNone
  end.

(** Hours at 15:00, 16:00, 17:00 and 18:00, and the interval from 16:00
    to 17:00. *)
Definition four_hours : list value :=
  [ VDict [("time", VInt 1586530800)];
    VDict [("time", VInt 1586534400)];
    VDict [("time", VInt 1586538000)];
    VDict [("time", VInt 1586541600)] ].

Definition from_four_to_five : value :=
  VDict [("start", VInt 1586534400); ("end", VInt 1586538000)].

Definition mark (h : value) : result value :=
  setitem_str h "cloudCover" (VFloat 0.5).

(** The day of 10 April 2020, and grid values that hold the same number:
    one for an hour of that day, one for an hour of the next. *)
Definition midnight : value := VInt 1586476800.

Definition next_midnight : value := VInt 1586563200.

Definition steady (v : value) : list value :=
  [ VDict [ ("validTime", VStr "2020-04-10T16:00:00+00:00/PT1H");
            ("value", v) ];
    VDict [ ("validTime", VStr "2020-04-11T16:00:00+00:00/PT1H");
            ("value", v) ] ].

(** What the secondary adapter makes of a document without hours. *)
Definition stale : value := value_of (run_climacell climacell without_hours).

(** A document with neither hours nor minute data, as the primary adapter
    leaves it when every period of the hourly forecast is over, and what the
    secondary adapter makes of it. *)
Definition no_blocks : value :=
  document (VTuple [VStr "noaa"]) (VDict []) (VDict []).

Definition filled : value := value_of (run_climacell climacell no_blocks).

End Sample.

(** ** Reading a document *)

(** [x[k]] when [x] is a dictionary that has the key [k]. *)
Definition lookup (k : string) (x : value) : option value :=
  match x with
  | VDict d => dict_get k d
  | _ => None
  end.

(** [x[k1][k2]] *)
Definition path2 (k1 k2 : string) (x : value) : option value :=
  match lookup k1 x with
  | Some inner => lookup k2 inner
  | None => None
  end.

(** An alert of the output that was not expired when the alert loop looked
    at it: its [expires] is later than a reading [now i] of the clock. *)
Definition unexpired (now : nat -> Q) (alert : value) : Prop :=
  exists (i : nat) (expires : value) (t : num),
    lookup "expires" alert = Some expires /\
    to_num expires = Ok t /\
    (now i < num_Q t)%Q.

(** "The complete DarkSky icon set" of the docstrings of both mappers. *)
Definition darksky_icons : list string :=
  [ "clear-day"; "clear-night"; "cloudy"; "fog"; "partly-cloudy-day";
    "partly-cloudy-night"; "rain"; "sleet"; "snow"; "wind" ].

(** A text whose only white space is single blanks; [after_blank] tells
    that the character before the text is a blank. *)
Fixpoint tidy (after_blank : bool) (s : string) : bool :=
  match s with
  | EmptyString => true
  | String c s' =>
      if Ascii.eqb c " " then negb after_blank && tidy true s'
      else negb (is_space c) && tidy false s'
  end.

(** The position that the index [i] denotes in a sequence of length [n],
    negative indices counting from the end. *)
Definition position (n : nat) (i : Z) : option nat :=
  let j := if i <? 0 then i + Z.of_nat n else i in
  if (0 <=? j) && (j <? Z.of_nat n) then Some (Z.to_nat j) else None.

(** The value of a field of a record, [None] when the record lacks it: what
    [getKeyValue(day, [f])] returns for a dictionary [day]. *)
Definition field_or_none (f : string) (record : value) : value :=
  match lookup f record with
  | Some v => v
  | None => VNone
  end.

(** The fields of a day that the secondary adapter takes from the document
    it is given ("Climacell does not provide, using data from input array"). *)
Definition carried : list string :=
  ["windSpeed"; "windBearing"; "cloudCover"; "visibility"].

(** The timestamps of the entries appended after a last day at [t]. *)
Definition padding (t : Z) (k : nat) : list Z :=
  map (fun j => t + 86400 * Z.of_nat (S j)) (seq 0 k).

(** The keys assigned by the passes over the grid forecast in the hourly
    section of the primary adapter, and the keys of an hour of its output. *)
Definition grid_keys : list string :=
  [ "precipIntensity"; "precipProbability"; "temperature";
    "apparentTemperature"; "dewpoint"; "humdity"; "windSpeed"; "windGust";
    "windBearing"; "cloudCover"; "visibility" ].

Definition hourly_keys : list string :=
  "time" :: "summary" :: "icon" :: grid_keys.

(** [h'] is [h] but for the values under [keys]. *)
Definition differs_within (keys : list string) (h h' : value) : Prop :=
  forall k, ~ In k keys -> lookup k h' = lookup k h.

(** Every key of the dictionary [h] is one of [allowed]. *)
Definition keys_within (allowed : list string) (h : value) : Prop :=
  forall k v, lookup k h = Some v -> In k allowed.

(** The hour [h] was built from the period at a position [i] of [periods]
    that had not ended at [now i], the clock reading taken when the loop
    was at that period, and starts when that period starts. *)
Definition from_live_period (parse_datetime : string -> result Q)
  (add_duration : Q -> string -> result Q) (now : nat -> Q)
  (periods : list value) (h : value) : Prop :=
  exists (hour : value) (i : nat) (endTime e startTime time : value) (t : num),
    nth_error periods i = Some hour /\
    getitem_str hour "endTime" = Ok endTime /\
    NOAAWeatherAPI.interval_start parse_datetime add_duration endTime = Ok e /\
    to_num e = Ok t /\ (now i < num_Q t)%Q /\
    getitem_str hour "startTime" = Ok startTime /\
    NOAAWeatherAPI.interval_start parse_datetime add_duration startTime
    = Ok time /\
    lookup "time" h = Some time.

(** [h['time']] when it is an integer. *)
Definition time_of (h : value) : option Z :=
  match lookup "time" h with
  | Some (VInt t) => Some t
  | _ => None
  end.

(** The grid value [value] lies outside the day from [start] to [end_]
    ([None]), or its interval has a whole number [k] of hours within it. *)
Definition covers (parse_datetime : string -> result Q)
  (add_duration : Q -> string -> result Q) (start end_ value : value)
  (k : option Z) : Prop :=
  match k with
  | None =>
      NOAAWeatherAPI.day_hours parse_datetime add_duration start end_ value
      = Ok None
  | Some k =>
      0 <= k /\
      exists hours,
        NOAAWeatherAPI.day_hours parse_datetime add_duration start end_ value
        = Ok (Some hours) /\
        (num_Q hours == inject_Z k)%Q
  end.

(** The hours counted over a day. *)
Fixpoint whole_hours (ks : list (option Z)) : Z :=
  match ks with
  | [] => 0
  | Some k :: ks' => k + whole_hours ks'
  | None :: ks' => whole_hours ks'
  end.

(** * Properties *)

(** ** Dictionaries and loops *)

Lemma dict_get_set_same (k : string) (v : value) (d : list (string * value)) :
  dict_get k (dict_set k v d) = Some v.
Proof.
  induction d as [|[k' v'] d IH]; simpl.
  - now rewrite String.eqb_refl.
  - destruct (String.eqb k k') eqn:E; simpl; rewrite E; auto.
Qed.

Lemma dict_get_set_other (k k' : string) (v : value)
  (d : list (string * value)) :
  k' <> k -> dict_get k' (dict_set k v d) = dict_get k' d.
Proof.
  intros Hne.
  induction d as [|[k0 v0] d IH]; simpl.
  - destruct (String.eqb k' k) eqn:E; auto.
    apply String.eqb_eq in E. contradiction.
  - destruct (String.eqb k k0) eqn:E; simpl.
    + apply String.eqb_eq in E. subst k0.
      destruct (String.eqb k' k) eqn:E'; auto.
      apply String.eqb_eq in E'. contradiction.
    + now rewrite IH.
Qed.

Lemma dict_get_del_same (k : string) (d : list (string * value)) :
  dict_get k (dict_del k d) = None.
Proof.
  induction d as [|[k' v'] d IH]; simpl; auto.
  destruct (String.eqb k k') eqn:E; simpl; auto. now rewrite E.
Qed.

Lemma dict_get_del_other (k k' : string) (d : list (string * value)) :
  k' <> k -> dict_get k' (dict_del k d) = dict_get k' d.
Proof.
  intros Hne.
  induction d as [|[k0 v0] d IH]; simpl; auto.
  destruct (String.eqb k k0) eqn:E; simpl.
  - apply String.eqb_eq in E. subst k0.
    destruct (String.eqb k' k) eqn:E'; auto.
    apply String.eqb_eq in E'. contradiction.
  - now rewrite IH.
Qed.

Lemma dict_mem_get (k : string) (d : list (string * value)) :
  dict_mem k d = match dict_get k d with Some _ => true | None => false end.
Proof.
  induction d as [|[k' v'] d IH]; simpl; auto.
  destruct (String.eqb k k'); auto.
Qed.

Lemma bind_Ok {A B : Type} (m : result A) (k : A -> result B) (b : B) :
  bind m k = Ok b -> exists a, m = Ok a /\ k a = Ok b.
Proof.
  destruct m as [a|e]; simpl; intros H; [eauto | discriminate].
Qed.

(** Inverts a chain of binds that ends in [Ok]. *)
Ltac inv_bind H :=
  let a := fresh "x" in
  let Ha := fresh "Hx" in
  apply bind_Ok in H; destruct H as (a & Ha & H).

Lemma getitem_str_lookup (x : value) (k : string) (v : value) :
  getitem_str x k = Ok v <-> lookup k x = Some v.
Proof.
  destruct x; simpl; try (split; discriminate).
  destruct (dict_get k d); split; intros H; inversion H; auto.
Qed.

Lemma setitem_str_same (x : value) (k : string) (v x' : value) :
  setitem_str x k v = Ok x' -> lookup k x' = Some v.
Proof.
  destruct x; simpl; try discriminate.
  intros H. inversion H. simpl. apply dict_get_set_same.
Qed.

Lemma setitem_str_other (x : value) (k k' : string) (v x' : value) :
  setitem_str x k v = Ok x' -> k' <> k -> lookup k' x' = lookup k' x.
Proof.
  destruct x; simpl; try discriminate.
  intros H Hne. inversion H. simpl. now apply dict_get_set_other.
Qed.

Lemma setitem_str2_inner (x : value) (k1 k2 : string) (v x' : value) :
  setitem_str2 x k1 k2 v = Ok x' ->
  exists inner inner',
    lookup k1 x = Some inner /\ setitem_str inner k2 v = Ok inner' /\
    lookup k1 x' = Some inner'.
Proof.
  unfold setitem_str2. intros H.
  inv_bind H. inv_bind H.
  exists x0, x1. repeat split; auto.
  - now apply getitem_str_lookup.
  - eapply setitem_str_same; eauto.
Qed.

Lemma setitem_str2_other (x : value) (k1 k2 k' : string) (v x' : value) :
  setitem_str2 x k1 k2 v = Ok x' -> k' <> k1 -> lookup k' x' = lookup k' x.
Proof.
  unfold setitem_str2. intros H Hne.
  inv_bind H. inv_bind H.
  eapply setitem_str_other; eauto.
Qed.

Lemma setitem_str2_same (x : value) (k1 k2 : string) (v x' : value) :
  setitem_str2 x k1 k2 v = Ok x' -> path2 k1 k2 x' = Some v.
Proof.
  intros H. apply setitem_str2_inner in H.
  destruct H as (inner & inner' & _ & Hs & Hl).
  unfold path2. rewrite Hl. eapply setitem_str_same; eauto.
Qed.

(** An assignment to [x[k1][k2]] leaves every other [x[a][b]] as it was. *)
Lemma setitem_str2_path2 (x : value) (k1 k2 a b : string) (v x' : value) :
  setitem_str2 x k1 k2 v = Ok x' -> a <> k1 \/ b <> k2 ->
  path2 a b x' = path2 a b x.
Proof.
  intros H Hne.
  destruct (string_dec a k1) as [->|Ha].
  - destruct Hne as [Hne|Hne]; [contradiction|].
    apply setitem_str2_inner in H.
    destruct H as (inner & inner' & Hl & Hs & Hl').
    unfold path2. rewrite Hl, Hl'.
    eapply setitem_str_other; eauto.
  - unfold path2. now rewrite (setitem_str2_other _ _ _ _ _ _ H Ha).
Qed.

Lemma setitem_str_path2 (x : value) (k a b : string) (v x' : value) :
  setitem_str x k v = Ok x' -> a <> k -> path2 a b x' = path2 a b x.
Proof.
  intros H Hne. unfold path2.
  now rewrite (setitem_str_other _ _ _ _ _ H Hne).
Qed.

(** A loop keeps what each of its iterations keeps. *)
Lemma foldM_invariant {A B : Type} (f : A -> B -> result A) (I : A -> Prop) :
  (forall a x a', f a x = Ok a' -> I a -> I a') ->
  forall l a a', foldM f a l = Ok a' -> I a -> I a'.
Proof.
  intros Hstep l. induction l as [|x l IH]; simpl; intros a a' H Ha.
  - inversion H. now subst.
  - inv_bind H. eapply IH; eauto.
Qed.

(** What the last iteration of a loop establishes holds after the loop. *)
Lemma foldM_last {A B : Type} (f : A -> B -> result A) (P : A -> Prop) :
  (forall a x a', f a x = Ok a' -> P a') ->
  forall l a a', l <> [] -> foldM f a l = Ok a' -> P a'.
Proof.
  intros Hstep l. induction l as [|x l IH]; simpl; intros a a' Hne H.
  - contradiction.
  - inv_bind H. destruct l as [|y l].
    + simpl in H. inversion H. subst. eauto.
    + eapply IH; eauto. discriminate.
Qed.

(** ** getKeyValue *)

(** An index at or beyond the end of a list stops the walk. *)
Lemma walk_index_beyond (l : list value) (k : Z) (rest : list key) :
  Z.of_nat (List.length l) <= k -> walk (VList l) (KInt k :: rest) = Ok None.
Proof.
  intros H. simpl.
  destruct (k <? Z.of_nat (List.length l)) eqn:E; auto.
  apply Z.ltb_lt in E. lia.
Qed.

(** A field that a dictionary does not have stops the walk. *)
Lemma walk_missing_field (d : list (string * value)) (k : string)
  (rest : list key) :
  dict_get k d = None -> walk (VDict d) (KStr k :: rest) = Ok None.
Proof.
  intros H. simpl. now rewrite dict_mem_get, H.
Qed.

(** The transform is applied to a truthy final value only. *)
Lemma getKeyValue_transform (x : value) (key_list : list key)
  (f : value -> result value) (e : value) :
  walk x key_list = Ok (Some e) ->
  getKeyValue x key_list (Some f) = if truthy e then f e else Ok e.
Proof.
  intros H. unfold getKeyValue. now rewrite H.
Qed.

Lemma getKeyValue_stopped (x : value) (key_list : list key)
  (func : option (value -> result value)) :
  walk x key_list = Ok None -> getKeyValue x key_list func = Ok VNone.
Proof.
  intros H. unfold getKeyValue. now rewrite H.
Qed.

(** Two fields deep in a dictionary. *)
Lemma getKeyValue_path2 (x : value) (k1 k2 : string) (v : value) :
  path2 k1 k2 x = Some v ->
  getKeyValue x [KStr k1; KStr k2] None = Ok v.
Proof.
  unfold path2, lookup, getKeyValue. simpl.
  destruct x; try discriminate. simpl.
  rewrite dict_mem_get.
  destruct (dict_get k1 d) as [inner|]; try discriminate. simpl.
  destruct inner; try discriminate. simpl.
  rewrite dict_mem_get. intros ->. reflexivity.
Qed.

(** A null where an object is expected makes the membership test raise. *)
Lemma getKeyValue_null_parent :
  getKeyValue (VDict [("temperature", VNone)])
    [KStr "temperature"; KStr "value"] None = Raise TypeError.
Proof. reflexivity. Qed.

(** C7 (the code departs from the claim): the bound check of [getKeyValue]
    is [key < len(...)] only, so an integer key below the lower bound of a
    list is not answered with the absent value: [getKeyValue([1, 2], [-3])]
    raises [IndexError], with or without a transform. *)
Theorem getKeyValue_negative_index_raises :
  forall func : option (value -> result value),
    getKeyValue (VList [VInt 1; VInt 2]) [KInt (-3)] func = Raise IndexError.
Proof. intros func. reflexivity. Qed.

(** ** Icon mappers *)

(** The primary mapper answers every string: it never raises. *)
Lemma noaa_mapIcons_returns (icon : string) (flask_app : bool) :
  exists v, snd (NOAAWeatherAPI._mapIcons icon flask_app) = Ok v.
Proof.
  unfold NOAAWeatherAPI._mapIcons. cbv zeta.
  destruct (match NOAAWeatherAPI.re_search "," icon with
            | Some m => Some m
            | None => NOAAWeatherAPI.re_search "?" icon
            end) as [m|].
  - destruct (table_get m NOAAWeatherAPI.noaa_icon_list);
      simpl; eexists; reflexivity.
  - simpl. eexists; reflexivity.
Qed.

(** An icon URL without a token degrades to the empty string and is
    reported. *)
Lemma noaa_mapIcons_unparsed (icon : string) (flask_app : bool) :
  NOAAWeatherAPI.re_search "," icon = None ->
  NOAAWeatherAPI.re_search "?" icon = None ->
  exists log,
    NOAAWeatherAPI._mapIcons icon flask_app = (log, Ok EmptyString) /\
    In (Printed "Unable to parse the icon URL: {}" icon) log /\
    (flask_app = true ->
     In (LogWarning "Unable to parse icon URL: {}" icon) log).
Proof.
  intros H1 H2. unfold NOAAWeatherAPI._mapIcons. rewrite H1, H2.
  cbv zeta. eexists. split; [reflexivity|].
  split.
  - apply in_or_app. right. now left.
  - intros ->. now left.
Qed.

(** A token that the primary table does not list degrades to the empty
    string and is reported. *)
Lemma noaa_mapIcons_unknown (icon m : string) (flask_app : bool) :
  match NOAAWeatherAPI.re_search "," icon with
  | Some t => Some t
  | None => NOAAWeatherAPI.re_search "?" icon
  end = Some m ->
  table_get m NOAAWeatherAPI.noaa_icon_list = None ->
  exists log,
    NOAAWeatherAPI._mapIcons icon flask_app = (log, Ok EmptyString) /\
    log <> [].
Proof.
  intros H1 H2. unfold NOAAWeatherAPI._mapIcons. cbv zeta. rewrite H1, H2.
  eexists. split; [reflexivity|].
  destruct flask_app; discriminate.
Qed.

(** C5 (the code departs from the claim): the [else] branch of the
    secondary mapper formats its warning with [noaa_icon], a name that
    nothing binds in [ClimacellWeatherAPI.py].  For every code that the
    Climacell table does not list the mapper therefore raises [NameError]
    before anything is logged, instead of returning the empty string. *)
Theorem climacell_mapIcons_unknown_raises :
  forall (code : string) (flask_app : bool),
    table_get code ClimacellWeatherAPI.climacell_icon_list = None ->
    ClimacellWeatherAPI._mapIcons (VStr code) flask_app = ([], Raise NameError).
Proof.
  intros code flask_app H.
  unfold ClimacellWeatherAPI._mapIcons, ClimacellWeatherAPI.table_find.
  cbv zeta. rewrite H. reflexivity.
Qed.

(** The summary mapper of the secondary adapter has the same defect, with
    the name [flask_app]. *)
Lemma climacell_weather_code_unknown_raises (code : string) :
  code <> EmptyString ->
  table_get code ClimacellWeatherAPI.weather_codes = None ->
  ClimacellWeatherAPI._mapClimacellWeatherCode (VStr code)
  = ([], Raise NameError).
Proof.
  intros Hne H.
  unfold ClimacellWeatherAPI._mapClimacellWeatherCode,
    ClimacellWeatherAPI.table_find, truthy.
  cbv zeta.
  destruct (String.eqb code EmptyString) eqn:E.
  - apply String.eqb_eq in E. contradiction.
  - cbn [negb]. rewrite H. reflexivity.
Qed.

(** ** Unit conversions *)

Lemma celsius_zero :
  NOAAWeatherAPI.celsius_to_fahrenheit (NInt 0) = Ok (NFloat 32).
Proof. reflexivity. Qed.

Lemma mps_ten :
  NOAAWeatherAPI.mps_to_mph (NInt 10) = Ok (NFloat (2237 # 100)).
Proof. reflexivity. Qed.

(** C4 (the code departs from the claim): the humidity that the primary
    adapter writes into [currently] is [round(100 - 5 * (T - Td), 2)], a
    percentage: for 20 degrees Celsius and a dew point of 10 the stored
    value is 50, not 0.5. *)
Theorem noaa_currently_humidity_is_percent :
  forall (parse_datetime : string -> result Q)
         (add_duration : Q -> string -> result Q) (flask_app : bool),
    bind (NOAAWeatherAPI.currently parse_datetime add_duration flask_app
            Sample.mild_observation)
         (fun c => getitem_str c "humidity")
    = Ok (VInt 50).
Proof. intros. reflexivity. Qed.

(** The secondary adapter rounds the current humidity to an integer:
    55 percent is stored as 1. *)
Lemma climacell_currently_humidity_rounded :
  on_number ClimacellWeatherAPI.percent_round (VInt 55) = Ok (VInt 1).
Proof. reflexivity. Qed.

(** Its daily humidity is the last sample over the number of samples, on
    the percent scale: a day between 40 and 80 percent is stored as 40. *)
Lemma climacell_daily_humidity_is_percent :
  bind (getitem_str Sample.cc_day "humidity")
       (fun samples =>
          ClimacellWeatherAPI.mean_of_extremes samples
            "humidity" [("humidity", VNone)])
  = Ok [("humidity", VFloat 40)].
Proof. reflexivity. Qed.

(** Its hourly humidity is the hundredth of the percentage. *)
Lemma climacell_hourly_humidity_fraction :
  on_number ClimacellWeatherAPI.percent_round2 (VInt 55)
  = Ok (VFloat (11 # 20)).
Proof. reflexivity. Qed.

Lemma climacell_mapIcons_unknown_raises_witness :
  table_get "hail" ClimacellWeatherAPI.climacell_icon_list = None /\
  ClimacellWeatherAPI._mapIcons (VStr "hail") true = ([], Raise NameError).
Proof.
  split; [reflexivity|].
  apply (climacell_mapIcons_unknown_raises "hail" true). reflexivity.
Defined.

(** Where the value read is truthy, the field is the converted value. *)
Lemma noaa_field_converted (props v : value) (k : string)
  (f : num -> result num) :
  walk props [KStr k; KStr "value"] = Ok (Some v) -> truthy v = true ->
  getKeyValue props [KStr k; KStr "value"] (Some (on_number f))
  = on_number f v.
Proof.
  intros H Ht. rewrite (getKeyValue_transform _ _ _ _ H). now rewrite Ht.
Qed.

(** C9 (the code departs from the claim): in "currently" the conversions are
    handed to [getKeyValue], which applies a transform to a truthy value
    only.  A reading of 0 degrees Celsius is falsy, so it is stored as 0 and
    not as 32.0, although the conversion itself maps 0 to 32.0; the wind
    speed of 10 m/s of the same observation is stored as 22.37. *)
Theorem noaa_currently_freezing_point_unconverted :
  forall (parse_datetime : string -> result Q)
         (add_duration : Q -> string -> result Q) (flask_app : bool),
    let c := NOAAWeatherAPI.currently parse_datetime add_duration flask_app
               Sample.freezing_observation in
    bind c (fun c => getitem_str c "temperature") = Ok (VInt 0) /\
    bind c (fun c => getitem_str c "windSpeed") = Ok (VFloat (2237 # 100)) /\
    on_number NOAAWeatherAPI.celsius_to_fahrenheit (VInt 0) = Ok (VFloat 32).
Proof. intros. repeat split; reflexivity. Qed.

(** ** The route handler *)

Import darksky_api.

Lemma outside_rejected (x : pyfloat) (lo hi : Z) :
  outside x lo hi -> float_gtb x hi || float_ltb x lo = true.
Proof.
  destruct x as [q| | |]; unfold outside, float_gtb, float_ltb;
    auto; try contradiction.
  intros [H|H].
  - assert (E : Qcompare q (inject_Z lo) = Lt) by now apply Qlt_alt.
    rewrite E. apply orb_true_r.
  - assert (E : Qcompare q (inject_Z hi) = Gt) by now apply Qgt_alt.
    now rewrite E.
Qed.

Lemma within_accepted (x : pyfloat) (lo hi : Z) :
  within x lo hi -> float_gtb x hi || float_ltb x lo = false.
Proof.
  destruct x as [q| | |]; unfold within, float_gtb, float_ltb;
    try contradiction.
  intros [H1 H2].
  assert (E1 : Qcompare q (inject_Z hi) <> Gt) by now apply Qle_alt.
  assert (E2 : Qcompare q (inject_Z lo) <> Lt) by now apply Qge_alt.
  destruct (Qcompare q (inject_Z hi)); try contradiction;
    destruct (Qcompare q (inject_Z lo)); try reflexivity; contradiction.
Qed.

(** A response with status 400 is a rejection at the door: nothing was
    called. *)
Lemma reject_run (text : string) (cached : option value) :
  outcome (reject text cached) = Ok (Plain text 400) /\
  calls (reject text cached) = [].
Proof. split; reflexivity. Qed.

(** [nan] is ordered with nothing: it is neither inside nor outside the
    bounds, and both checks of the handler let it through. *)
Lemma nan_passes_validation : passes_validation NaN NaN.
Proof. split; reflexivity. Qed.

Section Handler.

Variable parse_float : string -> option pyfloat.
Variable noaa_get : pyfloat -> pyfloat -> result value.
Variable climacell_get : pyfloat -> pyfloat -> string -> value -> result value.

(** On coordinates that are ordered with the bounds (finite or infinite)
    the two checks do what the bounds say: below or above the interval the
    answer is a 400 and no adapter, hence no upstream fetch, is called;
    inside the closed bounds the request is let through to the primary
    adapter. *)
Theorem forecast_bounds :
  forall (apikey geolocation : string) (cached : option value)
         (latitude longitude : pyfloat),
    parsed parse_float geolocation latitude longitude ->
    let r := forecast parse_float noaa_get climacell_get
               apikey geolocation cached in
    (outside latitude 19 65 \/ outside longitude (-162) (-67) ->
     (exists text, outcome r = Ok (Plain text 400)) /\
     existsb is_fetch (calls r) = false) /\
    (within latitude 19 65 -> within longitude (-162) (-67) ->
     exists rest, calls r = CallNOAA latitude longitude :: rest).
Proof.
  intros apikey geolocation cached latitude longitude (a & b & Hs & Ha & Hb).
  unfold forecast. rewrite Hs. cbn [List.length Nat.eqb negb nth].
  rewrite Ha, Hb.
  split.
  - intros [H|H].
    + rewrite (outside_rejected _ _ _ H). simpl. eauto.
    + destruct (float_gtb latitude 65 || float_ltb latitude 19);
        [simpl; eauto|].
      rewrite (outside_rejected _ _ _ H). simpl. eauto.
  - intros H1 H2.
    rewrite (within_accepted _ _ _ H1), (within_accepted _ _ _ H2).
    destruct (noaa_get latitude longitude) as [o|e]; [|simpl; eauto].
    destruct (climacell_get latitude longitude apikey o) as [o'|e];
      [|simpl; eauto].
    unfold respond.
    destruct (truthy o').
    + destruct (strip_alerts o'); simpl; eauto.
    + destruct cached; simpl; eauto.
Qed.

(** C1: for a request that passes validation, when the document left by the
    two adapters is absent the handler answers with the stored snapshot and
    status 200 if there is one, and with a plain text and status 502 if
    there is none. *)
Theorem forecast_fallback :
  forall (apikey geolocation : string) (cached : option value)
         (latitude longitude : pyfloat) (primary output : value),
    parsed parse_float geolocation latitude longitude ->
    passes_validation latitude longitude ->
    noaa_get latitude longitude = Ok primary ->
    climacell_get latitude longitude apikey primary = Ok output ->
    truthy output = false ->
    outcome (forecast parse_float noaa_get climacell_get
               apikey geolocation cached)
    = match cached with
      | Some stored => Ok (Json stored 200)
      | None => Ok (Plain "Failed to obtain any weather data." 502)
      end.
Proof.
  intros apikey geolocation cached latitude longitude primary output
    (a & b & Hs & Ha & Hb) [H1 H2] Hn Hc Ht.
  unfold forecast. rewrite Hs. cbn [List.length Nat.eqb negb nth].
  rewrite Ha, Hb, H1, H2, Hn, Hc.
  unfold respond. rewrite Ht. destruct cached; reflexivity.
Qed.

(** C2: the bound checks miss [nan].  A request of which a coordinate is
    [nan], hence not within its bounds, the other being [nan] too or within
    its own bounds, is not answered with a 400: the primary adapter is called
    with the coordinates as they are. *)
Theorem forecast_nan_not_rejected :
  forall (apikey geolocation : string) (cached : option value)
         (latitude longitude : pyfloat),
    parsed parse_float geolocation latitude longitude ->
    (latitude = NaN /\ (longitude = NaN \/ within longitude (-162) (-67))) \/
    (within latitude 19 65 /\ longitude = NaN) ->
    let r := forecast parse_float noaa_get climacell_get
               apikey geolocation cached in
    (~ within latitude 19 65 \/ ~ within longitude (-162) (-67)) /\
    (exists rest, calls r = CallNOAA latitude longitude :: rest) /\
    (forall text, outcome r <> Ok (Plain text 400)).
Proof.
  intros apikey geolocation cached latitude longitude (a & b & Hs & Ha & Hb) H.
  assert (Hlat : float_gtb latitude 65 || float_ltb latitude 19 = false).
  { destruct H as [[-> _]|[H _]]; [reflexivity|now apply within_accepted]. }
  assert (Hlon : float_gtb longitude (-67) || float_ltb longitude (-162)
                 = false).
  { destruct H as [[_ [->|H]]|[_ ->]];
      [reflexivity|now apply within_accepted|reflexivity]. }
  split.
  { destruct H as [[-> _]|[_ ->]]; [left|right]; intros W; exact W. }
  unfold forecast. rewrite Hs. cbn [List.length Nat.eqb negb nth].
  rewrite Ha, Hb, Hlat, Hlon.
  destruct (noaa_get latitude longitude) as [o|e];
    [|split; [simpl; eauto|intros text; discriminate]].
  destruct (climacell_get latitude longitude apikey o) as [o'|e];
    [|split; [simpl; eauto|intros text; discriminate]].
  unfold respond.
  destruct (truthy o').
  - destruct (strip_alerts o');
      (split; [simpl; eauto|intros text; discriminate]).
  - destruct cached;
      (split; [simpl; eauto|intros text; discriminate]).
Qed.

End Handler.

Lemma forecast_nan_not_rejected_witness :
  (~ within NaN 19 65 \/ ~ within NaN (-162) (-67)) /\
  (exists rest,
     calls (forecast Sample.float_of Sample.noaa_get_down
              Sample.climacell_get_down "key" "nan,nan" None)
     = CallNOAA NaN NaN :: rest) /\
  (forall text,
     outcome (forecast Sample.float_of Sample.noaa_get_down
                Sample.climacell_get_down "key" "nan,nan" None)
     <> Ok (Plain text 400)).
Proof.
  apply (forecast_nan_not_rejected Sample.float_of Sample.noaa_get_down
           Sample.climacell_get_down "key" "nan,nan" None NaN NaN).
  - exists "nan", "nan". repeat split; reflexivity.
  - left. split; [reflexivity|left; reflexivity].
Defined.

Lemma forecast_bounds_witness :
  ((exists text,
      outcome (forecast Sample.float_of Sample.noaa_get_down
                 Sample.climacell_get_down "key" "18.99,-75" None)
      = Ok (Plain text 400)) /\
   existsb is_fetch
     (calls (forecast Sample.float_of Sample.noaa_get_down
               Sample.climacell_get_down "key" "18.99,-75" None)) = false) /\
  (exists rest,
     calls (forecast Sample.float_of Sample.noaa_get_down
              Sample.climacell_get_down "key" "40,-75" None)
     = CallNOAA (Finite 40) (Finite (-75)) :: rest).
Proof.
  split.
  - refine (proj1 (forecast_bounds Sample.float_of Sample.noaa_get_down
                     Sample.climacell_get_down "key" "18.99,-75" None
                     (Finite (1899 # 100)) (Finite (-75)) _) _).
    + exists "18.99", "-75". repeat split; reflexivity.
    + left. left. reflexivity.
  - refine (proj2 (forecast_bounds Sample.float_of Sample.noaa_get_down
                     Sample.climacell_get_down "key" "40,-75" None
                     (Finite 40) (Finite (-75)) _) _ _).
    + exists "40", "-75". repeat split; reflexivity.
    + split; discriminate.
    + split; discriminate.
Defined.

Lemma forecast_fallback_witness :
  outcome (forecast Sample.float_of Sample.noaa_get_down
             Sample.climacell_get_down "key" "40,-75"
             (Some Sample.stored))
  = Ok (Json Sample.stored 200)
  /\
  outcome (forecast Sample.float_of Sample.noaa_get_down
             Sample.climacell_get_down "key" "40,-75" None)
  = Ok (Plain "Failed to obtain any weather data." 502).
Proof.
  split.
  - apply (forecast_fallback Sample.float_of Sample.noaa_get_down
             Sample.climacell_get_down "key" "40,-75" (Some Sample.stored)
             (Finite 40) (Finite (-75)) (VBool false) (VBool false)).
    + exists "40", "-75". repeat split; reflexivity.
    + split; reflexivity.
    + reflexivity.
    + reflexivity.
    + reflexivity.
  - apply (forecast_fallback Sample.float_of Sample.noaa_get_down
             Sample.climacell_get_down "key" "40,-75" None
             (Finite 40) (Finite (-75)) (VBool false) (VBool false)).
    + exists "40", "-75". repeat split; reflexivity.
    + split; reflexivity.
    + reflexivity.
    + reflexivity.
    + reflexivity.
Defined.

(** ** The secondary adapter: what each section leaves alone *)

Ltac inv_binds H :=
  repeat match type of H with
         | bind _ _ = Ok _ => inv_bind H; cbv beta zeta in H
         end.

(** Rewrites [lookup k x'] into [lookup k x] across the assignments in the
    context that do not touch the key [k]. *)
Ltac lookup_frame :=
  repeat match goal with
         | H : setitem_str2 ?x _ _ _ = Ok ?y |- context [lookup ?k ?y] =>
             rewrite (setitem_str2_other x _ _ k _ y H)
               by (assumption || discriminate)
         | H : setitem_str ?x _ _ = Ok ?y |- context [lookup ?k ?y] =>
             rewrite (setitem_str_other x _ k _ y H)
               by (assumption || discriminate)
         end.

Import ClimacellWeatherAPI.

Lemma truthy_len_positive (v : value) (n : Z) :
  truthy v = true -> len v = Ok n -> n <> 0.
Proof.
  destruct v; simpl; try discriminate;
    intros Ht Hl; inversion Hl; subst; clear Hl.
  - destruct s; simpl in *; [discriminate | lia].
  - destruct l; simpl in *; [discriminate | lia].
  - destruct l; simpl in *; [discriminate | lia].
  - destruct d; simpl in *; [discriminate | lia].
Qed.

(** [not data or len(data) == 0] holds of falsy data only. *)
Lemma no_data_true (data : value) :
  no_data data = Ok true -> truthy data = false.
Proof.
  unfold no_data. destruct (truthy data) eqn:E; auto. simpl.
  intros H. inv_bind H. inversion H as [H'].
  apply Z.eqb_eq in H'. now apply (truthy_len_positive _ _ E) in Hx.
Qed.

Lemma no_data_false (data : value) :
  truthy data = true ->
  no_data data = Ok false \/ exists e, no_data data = Raise e.
Proof.
  intros E. unfold no_data. rewrite E. simpl.
  destruct (len data) as [n|e] eqn:Hl; simpl; [|eauto].
  left. f_equal. apply Z.eqb_neq. eapply truthy_len_positive; eauto.
Qed.

Section SecondarySections.

Variable strptime : string -> result Q.
Variable strptime_day : string -> result Q.
Variable parse_datetime : string -> result Q.
Variable moon_phase : Q -> result Q.
Variable flask_app : bool.
Variable up : upstream.

Lemma currently_section_frame (output output' : value) (k : string) :
  currently_section strptime flask_app up output = Ok output' ->
  k <> "currently" -> lookup k output' = lookup k output.
Proof.
  unfold currently_section. intros H Hk.
  destruct (truthy (cc_current_obj up)).
  - inv_binds H. now lookup_frame.
  - now inversion H.
Qed.

Lemma minutely_section_frame (output output' : value) (k : string) :
  minutely_section strptime up output = Ok output' ->
  k <> "minutely" -> lookup k output' = lookup k output.
Proof.
  unfold minutely_section. intros H Hk.
  destruct (truthy (cc_minutely_obj up)); [|now inversion H].
  inv_binds H. destruct x0.
  - inv_binds H. now lookup_frame.
  - now inversion H.
Qed.

(** Minute data that is already there is not replaced. *)
Lemma minutely_section_keeps (output output' data : value) :
  minutely_section strptime up output = Ok output' ->
  path2 "minutely" "data" output = Some data -> truthy data = true ->
  output' = output.
Proof.
  unfold minutely_section. intros H Hd Ht.
  destruct (truthy (cc_minutely_obj up)); [|now inversion H].
  rewrite (getKeyValue_path2 _ _ _ _ Hd) in H. simpl in H.
  destruct (no_data_false _ Ht) as [E|[e E]]; rewrite E in H; simpl in H.
  - now inversion H.
  - discriminate.
Qed.

(** Minute data is written only over falsy (absent or empty) data. *)
Lemma minutely_section_writes (output output' : value) :
  minutely_section strptime up output = Ok output' ->
  output' = output \/
  exists data,
    getKeyValue output [KStr "minutely"; KStr "data"] None = Ok data /\
    truthy data = false.
Proof.
  unfold minutely_section. intros H.
  destruct (truthy (cc_minutely_obj up)); [|left; now inversion H].
  inv_binds H. destruct x0.
  - right. exists x. split; auto. now apply no_data_true.
  - left. now inversion H.
Qed.

(** *** Hourly *)

Lemma hourly_step_frame (output hourly_data output' hourly_data' : value)
  (i : Z) (k : string) :
  hourly_step strptime flask_app up (output, hourly_data) i
  = Ok (output', hourly_data') ->
  k <> "hourly" -> k <> "minutely" -> lookup k output' = lookup k output.
Proof.
  unfold hourly_step. intros H Hh Hm.
  inv_binds H. inversion H; subst. now lookup_frame.
Qed.

(** Of the [minutely] block, an iteration writes [summary] and [icon]
    only. *)
Lemma hourly_step_minutely (output hourly_data output' hourly_data' : value)
  (i : Z) (b : string) :
  hourly_step strptime flask_app up (output, hourly_data) i
  = Ok (output', hourly_data') ->
  b <> "summary" -> b <> "icon" ->
  path2 "minutely" b output' = path2 "minutely" b output.
Proof.
  unfold hourly_step. intros H Hs Hi.
  inv_binds H. inversion H; subst.
  repeat match goal with
         | H : setitem_str2 ?x _ _ _ = Ok ?y |- context [path2 _ _ ?y] =>
             rewrite (setitem_str2_path2 x _ _ "minutely" b _ y H)
               by (right; assumption) || (left; discriminate)
         end.
  reflexivity.
Qed.

(** Every iteration ends with the summary and the icon of the first hour
    written to the [minutely] block. *)
Lemma hourly_step_summary (st st' : value * value) (i : Z) :
  hourly_step strptime flask_app up st i = Ok st' ->
  exists s c,
    first_field (snd st') "summary" = Ok s /\
    first_field (snd st') "icon" = Ok c /\
    path2 "minutely" "summary" (fst st') = Some s /\
    path2 "minutely" "icon" (fst st') = Some c.
Proof.
  destruct st as [output hourly_data]. unfold hourly_step. intros H.
  inv_binds H. inversion H; subst. simpl.
  match goal with
  | H1 : setitem_str2 _ "minutely" "summary" ?s = Ok ?y,
    H2 : setitem_str2 ?y "minutely" "icon" ?c = Ok _ |- _ =>
      exists s, c; repeat split; auto;
      [ rewrite (setitem_str2_path2 _ _ _ "minutely" "summary" _ _ H2)
          by (right; discriminate);
        apply (setitem_str2_same _ _ _ _ _ H1)
      | apply (setitem_str2_same _ _ _ _ _ H2) ]
  end.
Qed.

Lemma py_range_nonempty (n : Z) : 0 < n -> py_range 0 n <> [].
Proof.
  intros H. unfold py_range.
  destruct (Z.to_nat (n - 0)) eqn:E; [lia | discriminate].
Qed.

Lemma hourly_section_frame (output output' : value) (k : string) :
  hourly_section strptime flask_app up output = Ok output' ->
  k <> "hourly" -> k <> "minutely" -> lookup k output' = lookup k output.
Proof.
  unfold hourly_section. intros H Hh Hm.
  destruct (truthy (cc_hourly_obj up)); [|now inversion H].
  inv_binds H.
  lookup_frame.
  apply (foldM_invariant (hourly_step strptime flask_app up)
           (fun st => lookup k (fst st) = lookup k output)) in Hx2; auto.
  intros [o h] i [o' h'] Hstep. simpl. intros <-.
  eapply hourly_step_frame; eauto.
Qed.

Lemma hourly_section_minutely (output output' : value) (b : string) :
  hourly_section strptime flask_app up output = Ok output' ->
  b <> "summary" -> b <> "icon" ->
  path2 "minutely" b output' = path2 "minutely" b output.
Proof.
  unfold hourly_section. intros H Hs Hi.
  destruct (truthy (cc_hourly_obj up)); [|now inversion H].
  inv_binds H.
  rewrite (setitem_str2_path2 _ _ _ "minutely" b _ _ H)
    by (left; discriminate).
  apply (foldM_invariant (hourly_step strptime flask_app up)
           (fun st => path2 "minutely" b (fst st) = path2 "minutely" b output))
    in Hx2; auto.
  intros [o h] i [o' h'] Hstep. simpl. intros <-.
  eapply hourly_step_minutely; eauto.
Qed.

(** With an hourly skeleton in place, the section leaves the summary and
    the icon of the first hour in the [minutely] block. *)
Lemma hourly_section_summary (output output' first : value)
  (rest : list value) :
  truthy (cc_hourly_obj up) = true ->
  path2 "hourly" "data" output = Some (VList (first :: rest)) ->
  hourly_section strptime flask_app up output = Ok output' ->
  exists hourly_data s c,
    path2 "hourly" "data" output' = Some hourly_data /\
    first_field hourly_data "summary" = Ok s /\
    first_field hourly_data "icon" = Ok c /\
    path2 "minutely" "summary" output' = Some s /\
    path2 "minutely" "icon" output' = Some c.
Proof.
  unfold hourly_section. intros Ht Hd H. rewrite Ht in H.
  rewrite (getKeyValue_path2 _ _ _ _ Hd) in H.
  assert (E : no_data (VList (first :: rest)) = Ok false) by reflexivity.
  cbn [bind] in H. rewrite E in H. cbn [bind] in H.
  inv_binds H.
  match goal with
  | Hl : len _ = Ok ?n |- _ =>
      assert (Hn : 0 < n) by (inversion Hl; simpl; lia)
  end.
  match goal with
  | Hf : foldM _ _ _ = Ok _ |- _ => rename Hf into Hloop
  end.
  apply (foldM_last (hourly_step strptime flask_app up)
           (fun st => exists s c,
                first_field (snd st) "summary" = Ok s /\
                first_field (snd st) "icon" = Ok c /\
                path2 "minutely" "summary" (fst st) = Some s /\
                path2 "minutely" "icon" (fst st) = Some c)) in Hloop.
  - destruct Hloop as (s & c & Hs & Hc & Hms & Hmc).
    eexists _, s, c. repeat split; eauto.
    + eapply setitem_str2_same; eauto.
    + rewrite (setitem_str2_path2 _ _ _ "minutely" "summary" _ _ H)
        by (left; discriminate). auto.
    + rewrite (setitem_str2_path2 _ _ _ "minutely" "icon" _ _ H)
        by (left; discriminate). auto.
  - intros a i a'. apply hourly_step_summary.
  - now apply py_range_nonempty.
Qed.

(** *** Daily and the source flag *)

Lemma daily_section_frame (output output' : value) (k : string) :
  daily_section strptime_day parse_datetime moon_phase flask_app up output
  = Ok output' ->
  k <> "daily" -> lookup k output' = lookup k output.
Proof.
  unfold daily_section. intros H Hk.
  destruct (truthy (cc_daily_obj up)); [|now inversion H].
  inv_binds H. now lookup_frame.
Qed.

Lemma sources_section_frame (input_dictionary output output' : value)
  (k : string) :
  sources_section input_dictionary output = Ok output' ->
  k <> "flags" -> lookup k output' = lookup k output.
Proof.
  unfold sources_section. intros H Hk.
  inv_binds H. now lookup_frame.
Qed.

(** The names already in the document are copied and ['climacell'] is
    appended, whether or not it is among them. *)
Lemma sources_section_appends (input_dictionary output output' v : value) :
  truthy input_dictionary = true ->
  path2 "flags" "sources" output = Some v ->
  sources_section input_dictionary output = Ok output' ->
  exists items,
    (if truthy v then iterate v = Ok items else items = []) /\
    path2 "flags" "sources" output'
    = Some (VList (items ++ [VStr "climacell"])).
Proof.
  unfold sources_section. intros Ht Hv H. rewrite Ht in H.
  rewrite (getKeyValue_path2 _ _ _ _ Hv) in H. cbn [bind] in H.
  inv_binds H. exists x. split.
  - destruct (truthy v); [|now inversion Hx].
    cbn [bind] in Hx. exact Hx.
  - eapply setitem_str2_same; eauto.
Qed.

End SecondarySections.

(** ** The secondary adapter as a whole *)

Lemma lookup_truthy (k : string) (x v : value) :
  lookup k x = Some v -> truthy x = true.
Proof.
  destruct x; simpl; try discriminate. destruct d; simpl; [discriminate|auto].
Qed.

Lemma path2_truthy (a b : string) (x v : value) :
  path2 a b x = Some v -> truthy x = true.
Proof.
  unfold path2. destruct (lookup a x) eqn:E; [|discriminate].
  intros _. eapply lookup_truthy; eauto.
Qed.

Lemma lookup_path2 (a b : string) (x y : value) :
  lookup a x = lookup a y -> path2 a b x = path2 a b y.
Proof. unfold path2. now intros ->. Qed.

Section Secondary.

Variable strptime : string -> result Q.
Variable strptime_day : string -> result Q.
Variable parse_datetime : string -> result Q.
Variable moon_phase : Q -> result Q.
Variable flask_app : bool.

(** A call that returns either gave up and handed back its input (or
    [False]), or went through the five sections in order. *)
Lemma get_inversion (latitude longitude : value) (up : upstream)
  (input_dictionary out : value) :
  get strptime strptime_day parse_datetime moon_phase flask_app
    latitude longitude up input_dictionary = Ok out ->
  (out = input_dictionary /\ truthy input_dictionary = true) \/
  (out = VBool false /\ truthy input_dictionary = false) \/
  (fetched up /\
   exists o0 o1 o2 o3 o4,
     (if truthy input_dictionary then Ok input_dictionary
      else fresh_output latitude longitude up) = Ok o0 /\
     currently_section strptime flask_app up o0 = Ok o1 /\
     minutely_section strptime up o1 = Ok o2 /\
     hourly_section strptime flask_app up o2 = Ok o3 /\
     daily_section strptime_day parse_datetime moon_phase flask_app up o3
     = Ok o4 /\
     sources_section input_dictionary o4 = Ok out).
Proof.
  unfold get, hand_back, fetched. intros H.
  destruct (truthy (cc_current_obj up)); cbn [negb] in H;
    [|destruct (truthy input_dictionary); inversion H; auto].
  destruct (truthy (cc_minutely_obj up)); cbn [negb] in H;
    [|destruct (truthy input_dictionary); inversion H; auto].
  destruct (truthy (cc_hourly_obj up)); cbn [negb] in H;
    [|destruct (truthy input_dictionary); inversion H; auto].
  destruct (truthy (cc_daily_obj up)); cbn [negb] in H;
    [|destruct (truthy input_dictionary); inversion H; auto].
  right. right. split; [auto|].
  inv_binds H. exists x, x0, x1, x2, x3. repeat split; assumption.
Qed.

(** Minute data that is truthy survives a call. *)
Lemma get_keeps_minutely (latitude longitude : value) (up : upstream)
  (input_dictionary out data : value) :
  path2 "minutely" "data" input_dictionary = Some data ->
  truthy data = true ->
  get strptime strptime_day parse_datetime moon_phase flask_app
    latitude longitude up input_dictionary = Ok out ->
  path2 "minutely" "data" out = Some data.
Proof.
  intros Hd Ht H.
  pose proof (path2_truthy _ _ _ _ Hd) as Hin.
  apply get_inversion in H.
  destruct H as [[-> _]|[[_ Hf]|[_ H]]]; auto; [congruence|].
  destruct H as (o0 & o1 & o2 & o3 & o4 & H0 & H1 & H2 & H3 & H4 & H5).
  rewrite Hin in H0. inversion H0; subst o0; clear H0.
  assert (E1 : path2 "minutely" "data" o1 = Some data).
  { rewrite <- Hd. apply lookup_path2.
    eapply currently_section_frame; eauto. discriminate. }
  assert (E2 : o2 = o1) by (eapply minutely_section_keeps; eauto).
  subst o2.
  rewrite <- E1.
  rewrite <- (hourly_section_minutely _ _ _ _ _ "data" H3)
    by discriminate.
  transitivity (path2 "minutely" "data" o4).
  - apply lookup_path2. eapply sources_section_frame; eauto. discriminate.
  - apply lookup_path2. eapply daily_section_frame; eauto. discriminate.
Qed.

(** C3: minute data that is already a non-empty list is unchanged by a call
    of the secondary adapter and by a second call on its result; a call
    changes [minutely.data] only where the input had no minute data (the
    key absent, or a falsy value such as the empty list). *)
Theorem minutely_data_protected :
  forall (latitude longitude : value) (up up' : upstream)
         (input_dictionary out out' : value),
    get strptime strptime_day parse_datetime moon_phase flask_app
      latitude longitude up input_dictionary = Ok out ->
    get strptime strptime_day parse_datetime moon_phase flask_app
      latitude longitude up' out = Ok out' ->
    (forall (minute : value) (minutes : list value),
       path2 "minutely" "data" input_dictionary
       = Some (VList (minute :: minutes)) ->
       path2 "minutely" "data" out = Some (VList (minute :: minutes)) /\
       path2 "minutely" "data" out' = Some (VList (minute :: minutes))) /\
    (path2 "minutely" "data" out <> path2 "minutely" "data" input_dictionary ->
     forall data,
       path2 "minutely" "data" input_dictionary = Some data ->
       truthy data = false).
Proof.
  intros latitude longitude up up' input_dictionary out out' H H'.
  split.
  - intros minute minutes Hd.
    assert (E : path2 "minutely" "data" out = Some (VList (minute :: minutes)))
      by (eapply get_keeps_minutely; eauto).
    split; auto.
    eapply get_keeps_minutely; eauto.
  - intros Hne data Hd.
    destruct (truthy data) eqn:Ht; auto.
    exfalso. apply Hne. rewrite Hd.
    eapply get_keeps_minutely; eauto.
Qed.

(** The source flag after a full run: the names found, then ['climacell']. *)
Lemma get_appends_source (latitude longitude : value) (up : upstream)
  (input_dictionary out v : value) :
  fetched up ->
  path2 "flags" "sources" input_dictionary = Some v ->
  get strptime strptime_day parse_datetime moon_phase flask_app
    latitude longitude up input_dictionary = Ok out ->
  exists items,
    (if truthy v then iterate v = Ok items else items = []) /\
    path2 "flags" "sources" out = Some (VList (items ++ [VStr "climacell"])).
Proof.
  intros (F1 & F2 & F3 & F4) Hv H.
  pose proof (path2_truthy _ _ _ _ Hv) as Hin.
  unfold get in H. rewrite F1, F2, F3, F4, Hin in H. cbn [negb] in H.
  inv_binds H. inversion Hx; subst x; clear Hx.
  assert (E : path2 "flags" "sources" x3 = Some v).
  { rewrite <- Hv.
    transitivity (path2 "flags" "sources" x2).
    { apply lookup_path2. eapply daily_section_frame; eauto. discriminate. }
    transitivity (path2 "flags" "sources" x1).
    { apply lookup_path2. eapply hourly_section_frame; eauto; discriminate. }
    transitivity (path2 "flags" "sources" x0).
    { apply lookup_path2. eapply minutely_section_frame; eauto.
      discriminate. }
    apply lookup_path2. eapply currently_section_frame; eauto.
    discriminate. }
  exact (sources_section_appends _ _ _ _ Hin E H).
Qed.

(** When all four fetches succeed and the document has an hourly skeleton,
    a call that returns has written the summary and the icon of the first
    hour of the output into the [minutely] block, while minute data that was
    already there is unchanged. *)
Theorem minutely_summary_overwritten :
  forall (latitude longitude : value) (up : upstream)
         (input_dictionary out first : value) (rest : list value),
    fetched up ->
    path2 "hourly" "data" input_dictionary = Some (VList (first :: rest)) ->
    get strptime strptime_day parse_datetime moon_phase flask_app
      latitude longitude up input_dictionary = Ok out ->
    (exists hourly_data s c,
       path2 "hourly" "data" out = Some hourly_data /\
       first_field hourly_data "summary" = Ok s /\
       first_field hourly_data "icon" = Ok c /\
       path2 "minutely" "summary" out = Some s /\
       path2 "minutely" "icon" out = Some c) /\
    (forall data,
       path2 "minutely" "data" input_dictionary = Some data ->
       truthy data = true ->
       path2 "minutely" "data" out = Some data).
Proof.
  intros latitude longitude up input_dictionary out first rest
    F Hd H.
  split; [|intros data Hm Ht; eapply get_keeps_minutely; eauto].
  destruct F as (F1 & F2 & F3 & F4).
  pose proof (path2_truthy _ _ _ _ Hd) as Hin.
  unfold get in H. rewrite F1, F2, F3, F4, Hin in H. cbn [negb] in H.
  inv_binds H. inversion Hx; subst x; clear Hx.
  assert (E : path2 "hourly" "data" x1 = Some (VList (first :: rest))).
  { rewrite <- Hd.
    transitivity (path2 "hourly" "data" x0).
    - apply lookup_path2. eapply minutely_section_frame; eauto. discriminate.
    - apply lookup_path2. eapply currently_section_frame; eauto.
      discriminate. }
  destruct (hourly_section_summary _ _ _ _ _ _ _ F3 E Hx2)
    as (hourly_data & s & c & Hh & Hs & Hc & Hms & Hmc).
  assert (K : forall a b, a <> "daily" -> a <> "flags" ->
                          path2 a b out = path2 a b x2).
  { intros a b Ha Hb.
    transitivity (path2 a b x3).
    - apply lookup_path2. eapply sources_section_frame; eauto.
    - apply lookup_path2. eapply daily_section_frame; eauto. }
  exists hourly_data, s, c.
  rewrite !K by discriminate. auto.
Qed.

End Secondary.

(** ** The primary adapter: alerts and source flag *)

Lemma py_gt_true (a : value) (q : Q) :
  py_gt a (VFloat q) = Ok true ->
  exists t, to_num a = Ok t /\ (q < num_Q t)%Q.
Proof.
  unfold py_gt. intros H. inv_binds H.
  match goal with
  | Hq : to_num (VFloat q) = Ok _ |- _ => inversion Hq; subst; clear Hq
  end.
  exists x. split; auto.
  inversion H as [E]. unfold num_ltb in E. cbn [num_Q] in E.
  destruct (Qcompare q (num_Q x)) eqn:C; try discriminate.
  now apply Qlt_alt.
Qed.

Section Primary.

Variable parse_datetime : string -> result Q.
Variable add_duration : Q -> string -> result Q.
Variable flask_app : bool.
Variable now : nat -> Q.

Lemma alert_step_unexpired (noaa_county_list : list (value * value))
  (i : nat) (alert_data alert_data' : list value) (alert : value) :
  NOAAWeatherAPI.alert_step parse_datetime add_duration now
    noaa_county_list i alert_data alert = Ok alert_data' ->
  Forall (unexpired now) alert_data -> Forall (unexpired now) alert_data'.
Proof.
  unfold NOAAWeatherAPI.alert_step. intros H Hall.
  inv_binds H.
  match goal with
  | Hgt : py_gt _ _ = Ok ?b |- _ =>
      destruct b; [apply py_gt_true in Hgt; destruct Hgt as (t & Ht & Hlt)
                  |inversion H; subst; assumption]
  end.
  inv_binds H. inversion H; subst; clear H.
  apply Forall_app. split; auto.
  constructor; [|constructor].
  exists i. eexists. exists t. split; [reflexivity|].
  split; [congruence|assumption].
Qed.

Lemma alerts_loop_unexpired (noaa_county_list : list (value * value))
  (alerts : list value) :
  forall (i : nat) (alert_data alert_data' : list value),
    NOAAWeatherAPI.alerts_loop parse_datetime add_duration now
      noaa_county_list i alert_data alerts = Ok alert_data' ->
    Forall (unexpired now) alert_data -> Forall (unexpired now) alert_data'.
Proof.
  induction alerts as [|alert rest IH]; simpl; intros i acc acc' H Hall.
  - inversion H. now subst.
  - inv_bind H. eapply IH; eauto.
    eapply alert_step_unexpired; eauto.
Qed.

Lemma alerts_section_unexpired (noaa_county_list : list (value * value))
  (noaa_alerts_obj output output' : value) :
  NOAAWeatherAPI.alerts_section parse_datetime add_duration now
    noaa_county_list noaa_alerts_obj output = Ok output' ->
  lookup "alerts" output = Some (VList []) ->
  (exists alerts,
     lookup "alerts" output' = Some (VList alerts) /\
     Forall (unexpired now) alerts) /\
  (forall k, k <> "alerts" -> lookup k output' = lookup k output).
Proof.
  unfold NOAAWeatherAPI.alerts_section. intros H Hl.
  destruct (truthy noaa_alerts_obj);
    [|inversion H; subst; split; eauto].
  inv_binds H.
  destruct (truthy x); [|inversion H; subst; split; eauto].
  inv_binds H. split.
  - exists x1. split.
    + eapply setitem_str_same; eauto.
    + eapply alerts_loop_unexpired; eauto.
  - intros k Hk. now lookup_frame.
Qed.

(** A document returned by the primary adapter carries a list of unexpired
    alerts and the source flag [('noaa',)]. *)
Lemma noaa_get_document (latitude longitude : value)
  (up : NOAAWeatherAPI.upstream) (output : value) :
  NOAAWeatherAPI.get parse_datetime add_duration flask_app now
    latitude longitude up = Ok output ->
  truthy output = true ->
  (exists alerts,
     lookup "alerts" output = Some (VList alerts) /\
     Forall (unexpired now) alerts) /\
  path2 "flags" "sources" output = Some (VTuple [VStr "noaa"]).
Proof.
  unfold NOAAWeatherAPI.get. intros H Ht.
  destruct (NOAAWeatherAPI.is_False (NOAAWeatherAPI.noaa_points_obj up)).
  { destruct flask_app; inversion H; subst. discriminate. }
  inv_binds H.
  match goal with
  | Hn : NOAAWeatherAPI.nearest_station up = Ok ?n |- _ =>
      destruct n as [miles|]; [|discriminate]
  end.
  inv_binds H.
  repeat match type of H with
         | (if negb ?b then _ else _) = _ =>
             destruct b; cbn [negb] in H;
             [|inversion H; subst; discriminate]
         end.
  inv_binds H.
  match goal with
  | Ha : NOAAWeatherAPI.alerts_section _ _ _ _ _ ?o = Ok ?o' |- _ =>
      assert (E : lookup "alerts" o = Some (VList []));
      [|destruct (alerts_section_unexpired _ _ _ _ Ha E)
          as [(alerts & Hl & Hall) _]]
  end.
  - unfold NOAAWeatherAPI.assign_block in *.
    repeat match goal with
           | Hb : match ?b with Some _ => _ | None => _ end = Ok _ |- _ =>
               destruct b; [|inversion Hb; subst; clear Hb]
           | Hc : (if ?c then _ else Ok _) = Ok _ |- _ =>
               destruct c; [inv_binds Hc|inversion Hc; subst; clear Hc]
           end;
      lookup_frame; reflexivity.
  - split.
    + exists alerts. split; auto. now lookup_frame.
    + eapply setitem_str2_same; eauto.
Qed.

End Primary.

(** ** The two adapters in sequence and the final document *)

Lemma setitem_str_dict (x : value) (k : string) (v y : value) :
  setitem_str x k v = Ok y -> exists d, y = VDict d /\ truthy y = true.
Proof.
  destruct x; simpl; try discriminate.
  intros H. inversion H. eexists. split; [reflexivity|].
  simpl. destruct d as [|[k' v'] d]; simpl; auto.
  destruct (String.eqb k k'); reflexivity.
Qed.

Lemma setitem_str2_dict (x : value) (k1 k2 : string) (v y : value) :
  setitem_str2 x k1 k2 v = Ok y -> exists d, y = VDict d /\ truthy y = true.
Proof.
  unfold setitem_str2. intros H. inv_binds H.
  eapply setitem_str_dict; eauto.
Qed.

(** The handler drops an empty [alerts] and nothing else. *)
Lemma strip_alerts_cases (output : list (string * value)) :
  match dict_get "alerts" output with
  | None => strip_alerts (VDict output) = Ok (VDict output)
  | Some (VList []) =>
      strip_alerts (VDict output) = Ok (VDict (dict_del "alerts" output))
  | Some (VList (_ :: _)) => strip_alerts (VDict output) = Ok (VDict output)
  | Some _ => True
  end.
Proof.
  unfold strip_alerts. cbn [contains_str bind getitem_str delitem_str].
  rewrite dict_mem_get.
  destruct (dict_get "alerts" output) as [v|]; auto.
  destruct v; auto. destruct l; reflexivity.
Qed.

Section Pipeline.

Variable strptime : string -> result Q.
Variable strptime_day : string -> result Q.
Variable parse_datetime : string -> result Q.
Variable add_duration : Q -> string -> result Q.
Variable moon_phase : Q -> result Q.
Variable flask_app : bool.
Variable now : nat -> Q.

Lemma sections_frame (up : upstream) (input_dictionary o0 o1 o2 o3 o4 out : value)
  (k : string) :
  untouched k ->
  currently_section strptime flask_app up o0 = Ok o1 ->
  minutely_section strptime up o1 = Ok o2 ->
  hourly_section strptime flask_app up o2 = Ok o3 ->
  daily_section strptime_day parse_datetime moon_phase flask_app up o3
  = Ok o4 ->
  sources_section input_dictionary o4 = Ok out ->
  lookup k out = lookup k o0.
Proof.
  intros (K1 & K2 & K3 & K4 & K5) H1 H2 H3 H4 H5.
  rewrite (sources_section_frame _ _ _ _ H5 K5).
  rewrite (daily_section_frame _ _ _ _ _ _ _ _ H4 K4).
  rewrite (hourly_section_frame _ _ _ _ _ _ H3 K3 K2).
  rewrite (minutely_section_frame _ _ _ _ _ H2 K2).
  apply (currently_section_frame _ _ _ _ _ _ H1 K1).
Qed.

(** C6, as amended: after a run of the primary adapter and a full run of
    the secondary one, [flags.sources] is [['noaa', 'climacell']]; in
    general the secondary adapter copies the names it finds, in order, and
    appends ['climacell'] to them without looking for duplicates. *)
Theorem sources_in_call_order :
  (forall (latitude longitude : value) (nup : NOAAWeatherAPI.upstream)
          (cup : upstream) (primary output : value),
     NOAAWeatherAPI.get parse_datetime add_duration flask_app now
       latitude longitude nup = Ok primary ->
     truthy primary = true ->
     fetched cup ->
     get strptime strptime_day parse_datetime moon_phase flask_app
       latitude longitude cup primary = Ok output ->
     path2 "flags" "sources" output
     = Some (VList [VStr "noaa"; VStr "climacell"])) /\
  (forall (latitude longitude : value) (cup : upstream)
          (input_dictionary output : value) (names : list value),
     fetched cup ->
     path2 "flags" "sources" input_dictionary = Some (VList names) ->
     get strptime strptime_day parse_datetime moon_phase flask_app
       latitude longitude cup input_dictionary = Ok output ->
     path2 "flags" "sources" output
     = Some (VList (names ++ [VStr "climacell"]))).
Proof.
  split.
  - intros latitude longitude nup cup primary output Hn Ht F Hc.
    destruct (noaa_get_document _ _ _ _ _ _ _ _ Hn Ht) as [_ Hs].
    destruct (get_appends_source _ _ _ _ _ _ _ _ _ _ _ F Hs Hc)
      as (items & Hi & Ho).
    cbn [truthy iterate] in Hi. inversion Hi; subst. exact Ho.
  - intros latitude longitude cup input_dictionary output names F Hs Hc.
    destruct (get_appends_source _ _ _ _ _ _ _ _ _ _ _ F Hs Hc)
      as (items & Hi & Ho).
    rewrite Ho. destruct names as [|n names]; cbn [truthy iterate] in Hi.
    + now subst.
    + now inversion Hi.
Qed.

(** C8: in every document that the two adapters assemble and the handler
    sends, [alerts] is either absent or a non-empty list, and each alert in
    it expires later than the reading of the clock taken when the alert was
    examined; the handler answers with that document and status 200, and
    stores the same document as the snapshot. *)
Theorem alerts_unexpired_or_absent :
  forall (latitude longitude : value) (nup : NOAAWeatherAPI.upstream)
         (cup : upstream) (primary output : value)
         (trace : list call) (cached : option value),
    NOAAWeatherAPI.get parse_datetime add_duration flask_app now
      latitude longitude nup = Ok primary ->
    get strptime strptime_day parse_datetime moon_phase flask_app
      latitude longitude cup primary = Ok output ->
    truthy output = true ->
    exists final,
      outcome (respond trace cached output) = Ok (Json final 200) /\
      snapshot (respond trace cached output) = Some final /\
      (lookup "alerts" final = None \/
       exists alert alerts,
         lookup "alerts" final = Some (VList (alert :: alerts)) /\
         Forall (unexpired now) (alert :: alerts)).
Proof.
  intros latitude longitude nup cup primary output trace cached Hn Hc Ht.
  assert (Hdict : exists d, output = VDict d /\
            (dict_get "alerts" d = None \/
             exists alerts, dict_get "alerts" d = Some (VList alerts) /\
                            Forall (unexpired now) alerts)).
  { assert (U : untouched "alerts") by (repeat split; discriminate).
    destruct (truthy primary) eqn:Hp.
    - destruct (noaa_get_document _ _ _ _ _ _ _ _ Hn Hp)
        as [(alerts & Hl & Hall) _].
      assert (E : lookup "alerts" output = lookup "alerts" primary).
      { apply get_inversion in Hc.
        destruct Hc as [[-> _]|[[-> _]|[_ H]]]; auto; [discriminate|].
        destruct H as (o0 & o1 & o2 & o3 & o4 & H0 & H1 & H2 & H3 & H4 & H5).
        rewrite Hp in H0. inversion H0; subst o0.
        eapply sections_frame; eauto. }
      rewrite Hl in E. destruct output; try discriminate.
      exists d. split; auto. right. exists alerts. auto.
    - apply get_inversion in Hc.
      destruct Hc as [[-> _]|[[-> _]|[_ H]]]; try congruence;
        [discriminate|].
      destruct H as (o0 & o1 & o2 & o3 & o4 & H0 & H1 & H2 & H3 & H4 & H5).
      rewrite Hp in H0.
      assert (E : lookup "alerts" output = lookup "alerts" o0)
        by (eapply sections_frame; eauto).
      unfold fresh_output in H0. inv_binds H0.
      rewrite (setitem_str_other _ _ "alerts" _ _ H0) in E by discriminate.
      cbn in E.
      unfold sources_section in H5. inv_binds H5.
      destruct (setitem_str2_dict _ _ _ _ _ H5) as (d & -> & _).
      exists d. split; auto. }
  destruct Hdict as (d & -> & Hd).
  unfold respond. rewrite Ht.
  pose proof (strip_alerts_cases d) as Hs.
  destruct Hd as [Hd|(alerts & Hd & Hall)]; rewrite Hd in Hs.
  - rewrite Hs. eexists. do 2 (split; [reflexivity|]). left. exact Hd.
  - destruct alerts as [|alert alerts]; rewrite Hs.
    + eexists. do 2 (split; [reflexivity|]). left. apply dict_get_del_same.
    + eexists. do 2 (split; [reflexivity|]).
      right. exists alert, alerts. auto.
Qed.

End Pipeline.

(** ** Runs on the fixtures *)

Lemma minutely_data_protected_witness :
  Sample.run_climacell Sample.climacell Sample.with_minute
  = Ok Sample.after_one_call /\
  Sample.run_climacell Sample.climacell Sample.after_one_call
  = Ok Sample.after_two_calls /\
  path2 "minutely" "data" Sample.after_one_call
  = Some (VList [VDict [("time", VInt 1586534460)]]) /\
  path2 "minutely" "data" Sample.after_two_calls
  = Some (VList [VDict [("time", VInt 1586534460)]]).
Proof.
  assert (H1 : Sample.run_climacell Sample.climacell Sample.with_minute
               = Ok Sample.after_one_call) by (vm_compute; reflexivity).
  assert (H2 : Sample.run_climacell Sample.climacell Sample.after_one_call
               = Ok Sample.after_two_calls) by (vm_compute; reflexivity).
  split; [exact H1|]. split; [exact H2|].
  refine (proj1 (minutely_data_protected Sample.clock Sample.clock
                   Sample.clock Sample.new_moon true (VFloat 40)
                   (VFloat (-75)) Sample.climacell Sample.climacell
                   Sample.with_minute Sample.after_one_call
                   Sample.after_two_calls H1 H2)
            (VDict [("time", VInt 1586534460)]) [] _).
  reflexivity.
Defined.

(** A run on the fixtures: with a non-empty hourly payload but no hourly
    skeleton in the document, the loop that writes the summary never runs;
    the call returns with [minutely.summary] as it was and with no first
    hour to take a summary from. *)
Lemma minutely_summary_not_overwritten :
  exists out,
    Sample.run_climacell Sample.climacell Sample.without_hours = Ok out /\
    fetched Sample.climacell /\
    path2 "minutely" "summary" out = Some (VStr "Dry") /\
    path2 "hourly" "data" out = Some (VList []) /\
    ~ (exists hourly_data s,
         path2 "hourly" "data" out = Some hourly_data /\
         first_field hourly_data "summary" = Ok s /\
         path2 "minutely" "summary" out = Some s).
Proof.
  eexists. split; [vm_compute; reflexivity|].
  split; [repeat split; reflexivity|].
  split; [reflexivity|]. split; [reflexivity|].
  intros (hourly_data & s & Hh & Hs & _).
  vm_compute in Hh. inversion Hh; subst. discriminate.
Qed.

Lemma minutely_summary_overwritten_witness :
  (exists hourly_data s c,
     path2 "hourly" "data" Sample.after_one_call = Some hourly_data /\
     first_field hourly_data "summary" = Ok s /\
     first_field hourly_data "icon" = Ok c /\
     path2 "minutely" "summary" Sample.after_one_call = Some s /\
     path2 "minutely" "icon" Sample.after_one_call = Some c) /\
  path2 "minutely" "data" Sample.after_one_call
  = Some (VList [VDict [("time", VInt 1586534460)]]).
Proof.
  assert (F : fetched Sample.climacell) by (repeat split; reflexivity).
  assert (H : Sample.run_climacell Sample.climacell Sample.with_minute
              = Ok Sample.after_one_call) by (vm_compute; reflexivity).
  pose proof (minutely_summary_overwritten Sample.clock Sample.clock
                Sample.clock Sample.new_moon true (VFloat 40)
                (VFloat (-75)) Sample.climacell Sample.with_minute
                Sample.after_one_call
                (VDict [ ("time", VInt 1586534400);
                         ("summary", VStr "Sunny");
                         ("icon", VStr "clear-day") ]) [] F eq_refl H)
    as [Hsummary Hdata].
  split; [exact Hsummary|].
  apply Hdata; reflexivity.
Defined.

(** C6, the claim as stated fails: a document that already names
    ['climacell'] comes back with the name twice. *)
Lemma sources_not_deduplicated :
  exists out,
    Sample.run_climacell Sample.climacell Sample.seen_before = Ok out /\
    path2 "flags" "sources" out
    = Some (VList [VStr "climacell"; VStr "climacell"]) /\
    ~ NoDup [VStr "climacell"; VStr "climacell"].
Proof.
  eexists. split; [vm_compute; reflexivity|].
  split; [reflexivity|].
  intros H. inversion H as [|x l Hin _]; subst. apply Hin. now left.
Qed.

Lemma sources_in_call_order_witness :
  path2 "flags" "sources" Sample.enriched
  = Some (VList [VStr "noaa"; VStr "climacell"]) /\
  path2 "flags" "sources" Sample.seen_twice
  = Some (VList ([VStr "climacell"] ++ [VStr "climacell"])).
Proof.
  split.
  - refine (proj1 (sources_in_call_order Sample.clock Sample.clock
                     Sample.clock Sample.one_hour_later Sample.new_moon true
                     Sample.five_pm)
              (VFloat 40) (VFloat (-75)) Sample.two_alerts Sample.climacell
              Sample.primary Sample.enriched _ _ _ _).
    + vm_compute; reflexivity.
    + reflexivity.
    + repeat split; reflexivity.
    + vm_compute; reflexivity.
  - refine (proj2 (sources_in_call_order Sample.clock Sample.clock
                     Sample.clock Sample.one_hour_later Sample.new_moon true
                     Sample.five_pm)
              (VFloat 40) (VFloat (-75)) Sample.climacell
              Sample.seen_before Sample.seen_twice [VStr "climacell"] _ _ _).
    + repeat split; reflexivity.
    + reflexivity.
    + vm_compute; reflexivity.
Defined.

Lemma alerts_unexpired_or_absent_witness :
  exists final,
    outcome (respond [] None Sample.enriched) = Ok (Json final 200) /\
    snapshot (respond [] None Sample.enriched) = Some final /\
    (lookup "alerts" final = None \/
     exists alert alerts,
       lookup "alerts" final = Some (VList (alert :: alerts)) /\
       Forall (unexpired Sample.five_pm) (alert :: alerts)).
Proof.
  refine (alerts_unexpired_or_absent Sample.clock Sample.clock Sample.clock
            Sample.one_hour_later Sample.new_moon true Sample.five_pm
            (VFloat 40) (VFloat (-75)) Sample.two_alerts Sample.climacell
            Sample.primary Sample.enriched [] None _ _ _).
  - vm_compute; reflexivity.
  - vm_compute; reflexivity.
  - reflexivity.
Defined.

(** * Further properties of the code *)

(** ** getKeyValue against plain subscripting *)

Lemma chars_length (s : string) :
  List.length (chars s) = String.length s.
Proof. induction s; simpl; auto. Qed.

Lemma seq_index_Ok {A : Type} (l : list A) (i : Z) (a : A) :
  seq_index l i = Ok a -> i < Z.of_nat (List.length l).
Proof.
  unfold seq_index. intros H.
  destruct (i <? 0) eqn:E.
  - apply Z.ltb_lt in E. lia.
  - destruct ((0 <=? i) && (i <? Z.of_nat (List.length l))) eqn:B;
      [|discriminate].
    apply andb_true_iff in B. destruct B as [_ B]. now apply Z.ltb_lt in B.
Qed.

Lemma seq_index_natural {A : Type} (l : list A) (i : Z) :
  0 <= i -> i < Z.of_nat (List.length l) -> exists a, seq_index l i = Ok a.
Proof.
  intros H0 H1. unfold seq_index.
  destruct (i <? 0) eqn:E; [apply Z.ltb_lt in E; lia|].
  assert (B : (0 <=? i) && (i <? Z.of_nat (List.length l)) = true).
  { apply andb_true_iff. split; [apply Z.leb_le|apply Z.ltb_lt]; lia. }
  rewrite B.
  destruct (nth_error l (Z.to_nat i)) as [a|] eqn:N; [eauto|].
  apply nth_error_None in N. lia.
Qed.

Lemma getitem_int_Ok (x : value) (i : Z) (e : value) :
  getitem_int x i = Ok e -> exists n, len x = Ok n /\ i < n.
Proof.
  destruct x; simpl; try discriminate; intros H.
  - inv_bind H. apply seq_index_Ok in Hx. rewrite chars_length in Hx. eauto.
  - apply seq_index_Ok in H. eauto.
  - apply seq_index_Ok in H. eauto.
Qed.

Lemma getitem_str_Ok (x : value) (k : string) (e : value) :
  getitem_str x k = Ok e -> contains_str k x = Ok true.
Proof.
  destruct x; simpl; try discriminate.
  rewrite dict_mem_get. destruct (dict_get k d); [reflexivity|discriminate].
Qed.

(** X1: [getKeyValue] reaches an element exactly when plain subscripting
    along the same path succeeds, and it is the same element. *)
Theorem walk_agrees_with_subscripting :
  forall (key_list : list key) (x v : value),
    walk x key_list = Ok (Some v) <-> index_path x key_list = Ok v.
Proof.
  induction key_list as [|k rest IH]; intros x v; simpl.
  - split; intros H; inversion H; reflexivity.
  - destruct k as [i|s]; simpl.
    + split; intros H.
      * inv_bind H. destruct (i <? x0); [|discriminate].
        inv_bind H. rewrite Hx0. simpl. now apply IH.
      * inv_bind H. destruct (getitem_int_Ok _ _ _ Hx) as (n & Hn & Hlt).
        rewrite Hn. simpl. apply Z.ltb_lt in Hlt. rewrite Hlt, Hx. simpl.
        now apply IH.
    + split; intros H.
      * inv_bind H. destruct x0; [|discriminate].
        inv_bind H. rewrite Hx0. simpl. now apply IH.
      * inv_bind H. rewrite (getitem_str_Ok _ _ _ Hx). simpl.
        rewrite Hx. simpl. now apply IH.
Qed.

Lemma walk_agrees_with_subscripting_witness :
  walk Sample.cc_hour [KStr "humidity"; KStr "value"] = Ok (Some (VInt 55)).
Proof.
  apply (walk_agrees_with_subscripting
           [KStr "humidity"; KStr "value"] Sample.cc_hour (VInt 55)).
  reflexivity.
Defined.

(** X2: along a key path without negative indices the walk of
    [getKeyValue] never raises [IndexError]: it returns, or raises
    [TypeError] (a value that is no container) or [KeyError] (an integer
    key on a dictionary). *)
Theorem walk_natural_keys_no_IndexError :
  forall (key_list : list key) (x : value),
    Forall natural_key key_list ->
    (exists r, walk x key_list = Ok r) \/
    walk x key_list = Raise TypeError \/
    walk x key_list = Raise KeyError.
Proof.
  induction key_list as [|k rest IH]; intros x Hall; simpl.
  - left. eauto.
  - inversion Hall as [|? ? Hk Hrest]; subst.
    destruct k as [i|s]; simpl in Hk.
    + destruct (len x) as [n|e] eqn:Hl.
      * simpl. destruct (i <? n) eqn:Hlt; [|left; eauto].
        apply Z.ltb_lt in Hlt.
        destruct x; simpl in Hl; try discriminate;
          inversion Hl; subst; simpl.
        -- destruct (seq_index_natural (chars s) i Hk) as (a & Ha);
             [rewrite chars_length; lia|].
           rewrite Ha. simpl. auto.
        -- destruct (seq_index_natural l i Hk Hlt) as (a & Ha).
           rewrite Ha. simpl. auto.
        -- destruct (seq_index_natural l i Hk Hlt) as (a & Ha).
           rewrite Ha. simpl. auto.
        -- auto.
      * destruct x; simpl in Hl; try discriminate; inversion Hl; auto.
    + destruct x; simpl; auto.
      * destruct (is_substring s s0); simpl; auto. left. eauto.
      * destruct (existsb (is_str s) l); simpl; auto. left. eauto.
      * destruct (existsb (is_str s) l); simpl; auto. left. eauto.
      * rewrite dict_mem_get.
        destruct (dict_get s d) as [e|]; simpl; auto. left. eauto.
Qed.

Lemma walk_natural_keys_no_IndexError_witness :
  (exists r, walk (VList [VInt 1; VInt 2]) [KInt 5] = Ok r) \/
  walk (VList [VInt 1; VInt 2]) [KInt 5] = Raise TypeError \/
  walk (VList [VInt 1; VInt 2]) [KInt 5] = Raise KeyError.
Proof.
  apply (walk_natural_keys_no_IndexError [KInt 5] (VList [VInt 1; VInt 2])).
  repeat constructor. simpl. lia.
Defined.

(** ** Splitting, intervals and the request text *)

Lemma split_on_nonempty (c : ascii) (s : string) : split_on c s <> [].
Proof.
  destruct s as [|a s]; simpl; [discriminate|].
  destruct (Ascii.eqb a c); [discriminate|].
  destruct (split_on c s); discriminate.
Qed.

(** [split] yields one more piece than there are separators. *)
Lemma split_on_length (c : ascii) (s : string) :
  List.length (split_on c s) = S (count_char c s).
Proof.
  induction s as [|a s IH]; simpl; auto.
  destruct (Ascii.eqb a c); simpl; [now rewrite IH|].
  destruct (split_on c s) as [|h t] eqn:E; simpl in *; [discriminate|].
  exact IH.
Qed.

(** X3: an interval text always yields a [start]; it yields an [end],
    computed from the start and the duration, exactly when the text holds
    one slash; with no slash or with several there is no [end]. *)
Theorem parseInterval_start_and_end :
  forall (parse_datetime : string -> result Q)
         (add_duration : Q -> string -> result Q)
         (time_str : string) (interval : value),
    parseInterval parse_datetime add_duration (VStr time_str) = Ok interval ->
    exists start,
      parse_datetime (hd EmptyString (split_on "/" time_str)) = Ok start /\
      lookup "start" interval = Some (VInt (int_of_Q start)) /\
      if (count_char "/" time_str =? 1)%nat then
        exists e,
          add_duration start (nth 1 (split_on "/" time_str) EmptyString)
          = Ok e /\
          lookup "end" interval = Some (VInt (int_of_Q e))
      else lookup "end" interval = None.
Proof.
  intros pd ad s iv H. unfold parseInterval in H.
  inv_binds H. exists x. split; auto.
  rewrite split_on_length in H.
  change (S (count_char "/" s) =? 2)%nat with (count_char "/" s =? 1)%nat in H.
  destruct (count_char "/" s =? 1)%nat.
  - inv_binds H. inversion H; subst. split; [reflexivity|].
    exists x0. split; auto.
  - inversion H; subst. split; reflexivity.
Qed.

Lemma parseInterval_start_and_end_witness :
  exists start,
    Sample.clock (hd EmptyString (split_on "/" "2020-04-10T16:00:00+00:00/PT1H"))
    = Ok start /\
    lookup "start"
      (VDict [("start", VInt 1586534400); ("end", VInt 1586538000)])
    = Some (VInt (int_of_Q start)) /\
    exists e,
      Sample.one_hour_later start
        (nth 1 (split_on "/" "2020-04-10T16:00:00+00:00/PT1H") EmptyString)
      = Ok e /\
      lookup "end"
        (VDict [("start", VInt 1586534400); ("end", VInt 1586538000)])
      = Some (VInt (int_of_Q e)).
Proof.
  apply (parseInterval_start_and_end Sample.clock Sample.one_hour_later
           "2020-04-10T16:00:00+00:00/PT1H"
           (VDict [("start", VInt 1586534400); ("end", VInt 1586538000)])).
  reflexivity.
Defined.

Section Requests.

Variable parse_float : string -> option pyfloat.
Variable noaa_get : pyfloat -> pyfloat -> result value.
Variable climacell_get : pyfloat -> pyfloat -> string -> value -> result value.

(** X4: a request text with no comma, or with more than one, is answered
    with status 400 before anything is parsed or called, and the snapshot
    file is left as it was. *)
Theorem forecast_comma_count :
  forall (apikey geolocation : string) (cached : option value),
    count_char "," geolocation <> 1%nat ->
    forecast parse_float noaa_get climacell_get apikey geolocation cached
    = reject "URL must include a valid latitude,longitude" cached.
Proof.
  intros apikey geolocation cached H. unfold forecast.
  rewrite split_on_length.
  change (S (count_char "," geolocation) =? 2)%nat
    with (count_char "," geolocation =? 1)%nat.
  destruct (count_char "," geolocation =? 1)%nat eqn:E; [|reflexivity].
  apply Nat.eqb_eq in E. contradiction.
Qed.

End Requests.

Lemma forecast_comma_count_witness :
  forecast Sample.float_of Sample.noaa_get_down Sample.climacell_get_down
    "key" "40,-75,3" None
  = reject "URL must include a valid latitude,longitude" None.
Proof.
  apply (forecast_comma_count Sample.float_of Sample.noaa_get_down
           Sample.climacell_get_down "key" "40,-75,3" None).
  discriminate.
Defined.

(** ** The handler: responses and the snapshot file *)

Lemma delitem_str_spec (x : value) (k : string) (y : value) :
  delitem_str x k = Ok y ->
  lookup k y = None /\ forall k', k' <> k -> lookup k' y = lookup k' x.
Proof.
  destruct x; simpl; try discriminate.
  destruct (dict_mem k d); [|discriminate].
  intros H. inversion H; subst. simpl. split.
  - apply dict_get_del_same.
  - intros k' Hk. now apply dict_get_del_other.
Qed.

Lemma strip_alerts_unchanged_or_deleted (output final : value) :
  strip_alerts output = Ok final ->
  (final = output /\ lookup "alerts" output <> Some (VList [])) \/
  delitem_str output "alerts" = Ok final.
Proof.
  unfold strip_alerts. intros H. inv_binds H.
  destruct x.
  - inv_binds H. destruct (x0 =? 0) eqn:E; [now right|].
    left. inversion H; subst. split; auto.
    apply getitem_str_lookup in Hx0. rewrite Hx0. intros C.
    inversion C; subst. simpl in Hx1. inversion Hx1; subst. discriminate.
  - left. inversion H; subst. split; auto.
    destruct final; simpl in *; try discriminate.
    rewrite dict_mem_get in Hx.
    destruct (dict_get "alerts" d); discriminate.
Qed.

(** X5: the handler removes an empty [alerts] and nothing else: every other
    key of the document is kept, the result never holds an empty list of
    alerts, and stripping it again changes nothing. *)
Theorem strip_alerts_removes_only_empty_alerts :
  forall output final : value,
    strip_alerts output = Ok final ->
    (forall k, k <> "alerts" -> lookup k final = lookup k output) /\
    lookup "alerts" final <> Some (VList []) /\
    strip_alerts final = Ok final.
Proof.
  intros output final H.
  destruct (strip_alerts_unchanged_or_deleted _ _ H) as [[-> Hne]|Hd].
  - repeat split; auto.
  - destruct (delitem_str_spec _ _ _ Hd) as [Hnone Hother].
    split; [exact Hother|]. split; [rewrite Hnone; discriminate|].
    destruct output; simpl in Hd; try discriminate.
    destruct (dict_mem "alerts" d); [|discriminate].
    inversion Hd; subst.
    unfold strip_alerts. cbn [contains_str bind].
    rewrite dict_mem_get, dict_get_del_same. reflexivity.
Qed.

Lemma strip_alerts_removes_only_empty_alerts_witness :
  (forall k, k <> "alerts" ->
             lookup k (VDict (dict_del "alerts"
                                [("alerts", VList []); ("flags", VDict [])]))
             = lookup k (VDict [("alerts", VList []); ("flags", VDict [])])) /\
  lookup "alerts"
    (VDict (dict_del "alerts" [("alerts", VList []); ("flags", VDict [])]))
  <> Some (VList []) /\
  strip_alerts
    (VDict (dict_del "alerts" [("alerts", VList []); ("flags", VDict [])]))
  = Ok (VDict (dict_del "alerts" [("alerts", VList []); ("flags", VDict [])])).
Proof.
  apply (strip_alerts_removes_only_empty_alerts
           (VDict [("alerts", VList []); ("flags", VDict [])])).
  reflexivity.
Defined.

Section Runs.

Variable parse_float : string -> option pyfloat.
Variable noaa_get : pyfloat -> pyfloat -> result value.
Variable climacell_get : pyfloat -> pyfloat -> string -> value -> result value.

(** The ways a run of the handler can end. *)
Lemma forecast_cases (apikey geolocation : string) (cached : option value) :
  let r := forecast parse_float noaa_get climacell_get
             apikey geolocation cached in
  (exists text, r = reject text cached) \/
  (exists e, outcome r = Raise e /\ snapshot r = cached) \/
  (exists final,
     outcome r = Ok (Json final 200) /\ snapshot r = Some final /\
     In (WriteSnapshot final) (calls r)) \/
  (exists stored,
     cached = Some stored /\ outcome r = Ok (Json stored 200) /\
     snapshot r = cached /\ existsb is_fetch (calls r) = true) \/
  (cached = None /\
   outcome r = Ok (Plain "Failed to obtain any weather data." 502) /\
   snapshot r = None /\ existsb is_fetch (calls r) = true).
Proof.
  unfold forecast.
  destruct (negb (List.length (split_on "," geolocation) =? 2)%nat);
    [left; eauto|].
  destruct (parse_float (nth 0 (split_on "," geolocation) EmptyString))
    as [latitude|]; [|left; eauto].
  destruct (parse_float (nth 1 (split_on "," geolocation) EmptyString))
    as [longitude|]; [|left; eauto].
  destruct (float_gtb latitude 65 || float_ltb latitude 19); [left; eauto|].
  destruct (float_gtb longitude (-67) || float_ltb longitude (-162));
    [left; eauto|].
  destruct (noaa_get latitude longitude) as [primary|e];
    [|right; left; simpl; eauto].
  destruct (climacell_get latitude longitude apikey primary) as [output|e];
    [|right; left; simpl; eauto].
  unfold respond. destruct (truthy output).
  - destruct (strip_alerts output) as [final|e];
      [|right; left; simpl; eauto].
    right; right; left. exists final. simpl. repeat split; auto.
  - destruct cached as [stored|].
    + right; right; right; left. exists stored. simpl. auto.
    + right; right; right; right. simpl. auto.
Qed.

(** X6: whenever the handler answers with a document, the status is 200
    and the snapshot file holds that very document afterwards. *)
Theorem served_document_is_the_snapshot :
  forall (apikey geolocation : string) (cached : option value)
         (document : value) (status : Z),
    outcome (forecast parse_float noaa_get climacell_get
               apikey geolocation cached) = Ok (Json document status) ->
    status = 200 /\
    snapshot (forecast parse_float noaa_get climacell_get
                apikey geolocation cached) = Some document.
Proof.
  intros apikey geolocation cached document status H.
  destruct (forecast_cases apikey geolocation cached)
    as [(text & E)|[(e & E & _)|[(final & E & S & _)|
        [(stored & C & E & S & _)|(_ & E & _)]]]];
    try (rewrite E in H; simpl in H; inversion H; subst); auto;
    try (split; [reflexivity|now rewrite S]).
Qed.

(** X7: the snapshot file changes only when a freshly assembled document is
    served: then the new content is the document of the response, written
    by the run. *)
Theorem snapshot_rewritten_only_on_success :
  forall (apikey geolocation : string) (cached : option value),
    snapshot (forecast parse_float noaa_get climacell_get
                apikey geolocation cached) <> cached ->
    exists final,
      outcome (forecast parse_float noaa_get climacell_get
                 apikey geolocation cached) = Ok (Json final 200) /\
      snapshot (forecast parse_float noaa_get climacell_get
                  apikey geolocation cached) = Some final /\
      In (WriteSnapshot final)
         (calls (forecast parse_float noaa_get climacell_get
                   apikey geolocation cached)).
Proof.
  intros apikey geolocation cached H.
  destruct (forecast_cases apikey geolocation cached)
    as [(text & E)|[(e & _ & S)|[(final & E & S & W)|
        [(stored & C & E & S & _)|(C & _ & S & _)]]]].
  - rewrite E in H. now elim H.
  - now elim H.
  - eauto.
  - now elim H.
  - subst cached. now elim H.
Qed.

(** X8: a plain-text answer is a 400, given before any call, or a 502,
    given only when no snapshot file exists and after both adapters were
    called, the primary one first and the secondary one on its result, which
    left no document; nothing else was called. *)
Theorem plain_answers :
  forall (apikey geolocation : string) (cached : option value)
         (text : string) (status : Z),
    outcome (forecast parse_float noaa_get climacell_get
               apikey geolocation cached) = Ok (Plain text status) ->
    (status = 400 /\
     calls (forecast parse_float noaa_get climacell_get
              apikey geolocation cached) = []) \/
    (status = 502 /\ cached = None /\
     exists (latitude longitude : pyfloat) (primary output : value),
       parsed parse_float geolocation latitude longitude /\
       noaa_get latitude longitude = Ok primary /\
       climacell_get latitude longitude apikey primary = Ok output /\
       truthy output = false /\
       calls (forecast parse_float noaa_get climacell_get
                apikey geolocation cached)
       = [ CallNOAA latitude longitude;
           CallClimacell latitude longitude apikey primary ]).
Proof.
  intros apikey geolocation cached text status. unfold forecast.
  destruct (split_on "," geolocation) as [|a [|b [|c rest]]] eqn:Hs;
    cbn [List.length Nat.eqb negb nth];
    try (intros H; inversion H; subst; left; split; reflexivity).
  destruct (parse_float a) as [latitude|] eqn:Ha;
    [|intros H; inversion H; subst; left; split; reflexivity].
  destruct (parse_float b) as [longitude|] eqn:Hb;
    [|intros H; inversion H; subst; left; split; reflexivity].
  destruct (float_gtb latitude 65 || float_ltb latitude 19);
    [intros H; inversion H; subst; left; split; reflexivity|].
  destruct (float_gtb longitude (-67) || float_ltb longitude (-162));
    [intros H; inversion H; subst; left; split; reflexivity|].
  destruct (noaa_get latitude longitude) as [primary|e] eqn:Hn;
    [|discriminate].
  destruct (climacell_get latitude longitude apikey primary)
    as [output|e] eqn:Hc; [|discriminate].
  unfold respond. destruct (truthy output) eqn:Ht.
  - destruct (strip_alerts output); discriminate.
  - destruct cached as [stored|]; [discriminate|].
    intros H. inversion H; subst. right.
    split; [reflexivity|]. split; [reflexivity|].
    exists latitude, longitude, primary, output.
    split; [exists a, b; auto|]. auto.
Qed.

(** X9: a document that was served once is served again, unchanged and
    with status 200, by a later valid request during which both providers
    are down. *)
Theorem snapshot_round_trip :
  forall (noaa_get' : pyfloat -> pyfloat -> result value)
         (climacell_get' : pyfloat -> pyfloat -> string -> value
                           -> result value)
         (apikey geolocation apikey' geolocation' : string)
         (cached : option value) (document : value) (status : Z)
         (latitude longitude : pyfloat) (primary output : value),
    outcome (forecast parse_float noaa_get climacell_get
               apikey geolocation cached) = Ok (Json document status) ->
    parsed parse_float geolocation' latitude longitude ->
    passes_validation latitude longitude ->
    noaa_get' latitude longitude = Ok primary ->
    climacell_get' latitude longitude apikey' primary = Ok output ->
    truthy output = false ->
    outcome (forecast parse_float noaa_get' climacell_get'
               apikey' geolocation'
               (snapshot (forecast parse_float noaa_get climacell_get
                            apikey geolocation cached)))
    = Ok (Json document 200).
Proof.
  intros noaa_get' climacell_get' apikey geolocation apikey' geolocation'
    cached document status latitude longitude primary output
    H (a & b & Hs & Ha & Hb) [H1 H2] Hn Hc Ht.
  assert (S : snapshot (forecast parse_float noaa_get climacell_get
                          apikey geolocation cached) = Some document).
  { destruct (forecast_cases apikey geolocation cached)
      as [(text & E)|[(e & E & _)|[(final & E & S & _)|
          [(stored & C & E & S & _)|(_ & E & _)]]]];
      try (rewrite E in H; simpl in H; inversion H; subst); auto;
      try (now rewrite S). }
  rewrite S. unfold forecast at 1. rewrite Hs.
  cbn [List.length Nat.eqb negb nth].
  rewrite Ha, Hb, H1, H2, Hn, Hc. unfold respond. now rewrite Ht.
Qed.

End Runs.

Lemma served_document_is_the_snapshot_witness :
  200 = 200 /\
  snapshot (forecast Sample.float_of Sample.noaa_get_up
              Sample.climacell_get_up "key" "40,-75" None)
  = Some Sample.enriched.
Proof.
  apply (served_document_is_the_snapshot Sample.float_of Sample.noaa_get_up
           Sample.climacell_get_up "key" "40,-75" None Sample.enriched 200).
  vm_compute. reflexivity.
Defined.

Lemma snapshot_rewritten_only_on_success_witness :
  exists final,
    outcome (forecast Sample.float_of Sample.noaa_get_up
               Sample.climacell_get_up "key" "40,-75" None)
    = Ok (Json final 200) /\
    snapshot (forecast Sample.float_of Sample.noaa_get_up
                Sample.climacell_get_up "key" "40,-75" None) = Some final /\
    In (WriteSnapshot final)
       (calls (forecast Sample.float_of Sample.noaa_get_up
                 Sample.climacell_get_up "key" "40,-75" None)).
Proof.
  apply (snapshot_rewritten_only_on_success Sample.float_of
           Sample.noaa_get_up Sample.climacell_get_up "key" "40,-75" None).
  intros C. vm_compute in C. discriminate C.
Defined.

Lemma plain_answers_witness :
  (502 = 400 /\
   calls (forecast Sample.float_of Sample.noaa_get_down
            Sample.climacell_get_down "key" "40,-75" None) = []) \/
  (502 = 502 /\ @None value = None /\
   exists (latitude longitude : pyfloat) (primary output : value),
     parsed Sample.float_of "40,-75" latitude longitude /\
     Sample.noaa_get_down latitude longitude = Ok primary /\
     Sample.climacell_get_down latitude longitude "key" primary = Ok output /\
     truthy output = false /\
     calls (forecast Sample.float_of Sample.noaa_get_down
              Sample.climacell_get_down "key" "40,-75" None)
     = [ CallNOAA latitude longitude;
         CallClimacell latitude longitude "key" primary ]).
Proof.
  apply (plain_answers Sample.float_of Sample.noaa_get_down
           Sample.climacell_get_down "key" "40,-75" None
           "Failed to obtain any weather data." 502).
  reflexivity.
Defined.

Lemma snapshot_round_trip_witness :
  outcome (forecast Sample.float_of Sample.noaa_get_down
             Sample.climacell_get_down "key" "40,-75"
             (snapshot (forecast Sample.float_of Sample.noaa_get_up
                          Sample.climacell_get_up "key" "40,-75" None)))
  = Ok (Json Sample.enriched 200).
Proof.
  apply (snapshot_round_trip Sample.float_of Sample.noaa_get_up
           Sample.climacell_get_up Sample.noaa_get_down
           Sample.climacell_get_down "key" "40,-75" "key" "40,-75" None
           Sample.enriched 200 (Finite 40) (Finite (-75))
           (VBool false) (VBool false)).
  - vm_compute. reflexivity.
  - exists "40", "-75". repeat split; reflexivity.
  - split; reflexivity.
  - reflexivity.
  - reflexivity.
  - reflexivity.
Defined.

(** ** Icons, tokens and descriptions *)

Lemma table_get_In (k v : string) (t : list (string * string)) :
  table_get k t = Some v -> In v (map snd t).
Proof.
  induction t as [|[k' v'] t IH]; simpl; [discriminate|].
  destruct (String.eqb k k'); intros H; [inversion H; auto|auto].
Qed.

Lemma listed_icons (t : list (string * string)) :
  forallb (fun v => existsb (String.eqb v) darksky_icons) (map snd t) = true ->
  forall k v, table_get k t = Some v -> In v darksky_icons.
Proof.
  intros H k v Hg. apply table_get_In in Hg.
  rewrite forallb_forall in H. specialize (H v Hg).
  apply existsb_exists in H. destruct H as (w & Hw & E).
  apply String.eqb_eq in E. now subst.
Qed.

(** X10: the primary mapper answers every text with the empty string or a
    name of the DarkSky icon set; whatever the secondary mapper returns is
    a name of that set. *)
Theorem mapped_icons_are_darksky_icons :
  (forall (icon : string) (flask_app : bool),
     exists v,
       snd (NOAAWeatherAPI._mapIcons icon flask_app) = Ok v /\
       (v = EmptyString \/ In v darksky_icons)) /\
  (forall (icon : value) (flask_app : bool) (v : value),
     snd (ClimacellWeatherAPI._mapIcons icon flask_app) = Ok v ->
     exists s, v = VStr s /\ In s darksky_icons).
Proof.
  split.
  - intros icon flask_app. unfold NOAAWeatherAPI._mapIcons. cbv zeta.
    destruct (match NOAAWeatherAPI.re_search "," icon with
              | Some m => Some m
              | None => NOAAWeatherAPI.re_search "?" icon
              end) as [m|]; [|simpl; eauto].
    destruct (table_get m NOAAWeatherAPI.noaa_icon_list) as [v|] eqn:E;
      simpl; [|eauto].
    exists v. split; auto. right.
    exact (listed_icons NOAAWeatherAPI.noaa_icon_list eq_refl _ _ E).
  - intros icon flask_app v. unfold ClimacellWeatherAPI._mapIcons. cbv zeta.
    destruct (table_find icon climacell_icon_list) as [[s|]|e] eqn:E;
      simpl; try discriminate.
    intros H. inversion H; subst. exists s. split; auto.
    unfold table_find in E. destruct icon; try discriminate;
      try (destruct (hashable _); discriminate).
    inversion E as [E'].
    exact (listed_icons climacell_icon_list eq_refl _ _ E').
Qed.

Lemma mapped_icons_are_darksky_icons_witness :
  exists s, VStr "snow" = VStr s /\ In s darksky_icons.
Proof.
  apply (proj2 mapped_icons_are_darksky_icons (VStr "flurries") true).
  reflexivity.
Defined.

Lemma prefix_split (p s : string) :
  String.prefix p s = true ->
  s = (p ++ NOAAWeatherAPI.drop (String.length p) s)%string.
Proof.
  revert s. induction p as [|a p IH]; intros s.
  - destruct s; reflexivity.
  - destruct s as [|b s]; simpl; [discriminate|].
    destruct (ascii_dec a b) as [->|]; [|discriminate].
    intros H. f_equal. now apply IH.
Qed.

Lemma lazy_until_sound (t : ascii) (u m : string) :
  NOAAWeatherAPI.lazy_until t u = Some m ->
  exists post,
    u = (m ++ String t post)%string /\ count_char t m = O /\
    count_char NOAAWeatherAPI.newline m = O.
Proof.
  revert m. induction u as [|c u IH]; intros m; simpl; [discriminate|].
  destruct (Ascii.eqb c t) eqn:E.
  - intros H. inversion H; subst. apply Ascii.eqb_eq in E. subst.
    exists u. auto.
  - destruct (Ascii.eqb c NOAAWeatherAPI.newline) eqn:N; [discriminate|].
    destruct (NOAAWeatherAPI.lazy_until t u) as [m'|]; [|discriminate].
    intros H. inversion H; subst.
    destruct (IH m' eq_refl) as (post & -> & C1 & C2).
    exists post. simpl. rewrite E, N. auto.
Qed.

(** X11: the token that the primary mapper extracts from an icon URL is a
    non-empty piece of the URL that follows [icons/] and is followed by the
    terminator; it holds no line break and is the shortest such piece (the
    terminator does not occur in it after its first character). *)
Theorem re_search_sound :
  forall (t : ascii) (s m : string),
    NOAAWeatherAPI.re_search t s = Some m ->
    exists c m' before after,
      m = String c m' /\
      s = (before ++ "icons/" ++ m ++ String t after)%string /\
      count_char t m' = O /\
      count_char NOAAWeatherAPI.newline m = O.
Proof.
  intros t s. induction s as [|a s IH]; intros m; [discriminate|].
  assert (Step : NOAAWeatherAPI.re_search t s = Some m ->
                 exists c m' before after,
                   m = String c m' /\
                   String a s = (before ++ "icons/" ++ m ++ String t after)%string /\
                   count_char t m' = O /\
                   count_char NOAAWeatherAPI.newline m = O).
  { intros H. destruct (IH m H) as (c & m' & before & after & E1 & E2 & C1 & C2).
    exists c, m', (String a before), after. repeat split; auto.
    rewrite E2 at 1. reflexivity. }
  cbn [NOAAWeatherAPI.re_search].
  destruct (String.prefix "icons/" (String a s)) eqn:P; [|exact Step].
  destruct (NOAAWeatherAPI.match_here t
              (NOAAWeatherAPI.drop 6 (String a s))) as [m0|] eqn:M;
    [|exact Step].
  intros H. inversion H; subst m0; clear H Step IH.
  apply prefix_split in P. change (String.length "icons/") with 6%nat in P.
  remember (NOAAWeatherAPI.drop 6 (String a s)) as r eqn:D. clear D.
  unfold NOAAWeatherAPI.match_here in M.
  destruct r as [|c u]; [discriminate|].
  destruct (Ascii.eqb c NOAAWeatherAPI.newline) eqn:N; [discriminate|].
  destruct (NOAAWeatherAPI.lazy_until t u) as [m'|] eqn:L; [|discriminate].
  inversion M; subst m; clear M.
  destruct (lazy_until_sound _ _ _ L) as (post & -> & C1 & C2).
  exists c, m', EmptyString, post. repeat split; auto.
  cbn [count_char]. now rewrite N.
Qed.

Lemma re_search_sound_witness :
  exists c m' before after,
    "land/day/tsra" = String c m' /\
    "https://api.weather.gov/icons/land/day/tsra,40?size=medium"
    = (before ++ "icons/" ++ "land/day/tsra" ++ String "," after)%string /\
    count_char "," m' = O /\
    count_char NOAAWeatherAPI.newline "land/day/tsra" = O.
Proof.
  apply (re_search_sound ","
           "https://api.weather.gov/icons/land/day/tsra,40?size=medium"
           "land/day/tsra").
  reflexivity.
Defined.

Lemma collapse_ws_tidy (s : string) :
  forall b, tidy b (collapse_ws b s) = true.
Proof.
  induction s as [|c s IH]; intros b; simpl; auto.
  destruct (is_space c) eqn:E.
  - destruct b; [apply IH|]. simpl. apply IH.
  - simpl. destruct (Ascii.eqb c " ") eqn:B.
    + apply Ascii.eqb_eq in B. subst. discriminate.
    + rewrite E. simpl. apply IH.
Qed.

Lemma collapse_ws_fixed (s : string) :
  forall b, tidy b s = true -> collapse_ws b s = s.
Proof.
  induction s as [|c s IH]; intros b; simpl; auto.
  destruct (Ascii.eqb c " ") eqn:B.
  - apply Ascii.eqb_eq in B. subst. intros H.
    apply andb_true_iff in H. destruct H as [Hb H].
    destruct b; [discriminate|]. simpl. f_equal. now apply IH.
  - intros H. apply andb_true_iff in H. destruct H as [Hs H].
    destruct (is_space c); [discriminate|]. f_equal. now apply IH.
Qed.

(** X12: the description of an alert is normalised: in the text that is
    stored, white space (every character that [\s] matches, the separator
    controls and the no-break space included) occurs only as single blanks,
    and normalising it again gives the same text. *)
Theorem description_is_normalised :
  forall s : string,
    exists s',
      NOAAWeatherAPI.normalized (VStr s) = Ok (VStr s') /\
      tidy false s' = true /\
      NOAAWeatherAPI.normalized (VStr s') = Ok (VStr s').
Proof.
  intros s. exists (collapse_ws false s). split; [reflexivity|].
  split; [apply collapse_ws_tidy|].
  unfold NOAAWeatherAPI.normalized.
  now rewrite (collapse_ws_fixed _ _ (collapse_ws_tidy s false)).
Qed.

(** ** Lists updated by index *)

Lemma getitem_int_position (l : list value) (i : Z) (h : value) :
  getitem_int (VList l) i = Ok h <->
  exists j, position (List.length l) i = Some j /\ nth_error l j = Some h.
Proof.
  unfold getitem_int, seq_index, position.
  destruct ((0 <=? (if i <? 0 then i + Z.of_nat (List.length l) else i)) &&
            ((if i <? 0 then i + Z.of_nat (List.length l) else i)
             <? Z.of_nat (List.length l))) eqn:B.
  - destruct (nth_error l _) as [a|] eqn:N.
    + split.
      * intros H. inversion H; subst. eauto.
      * intros (j & Hj & Hn). inversion Hj; subst. congruence.
    + split; [discriminate|].
      intros (j & Hj & Hn). inversion Hj; subst. congruence.
  - split; [discriminate|]. intros (j & Hj & _). discriminate.
Qed.

Lemma setitem_int_position (l : list value) (i : Z) (e : value) :
  setitem_int (VList l) i e =
  match position (List.length l) i with
  | Some j => Ok (VList (list_set l j e))
  | None => Raise IndexError
  end.
Proof.
  unfold setitem_int, position.
  destruct ((0 <=? _) && _); reflexivity.
Qed.

Lemma list_set_length {A : Type} (l : list A) (j : nat) (a : A) :
  List.length (list_set l j a) = List.length l.
Proof.
  revert j. induction l as [|x l IH]; intros [|j]; simpl; auto.
Qed.

Lemma list_set_twice {A : Type} (l : list A) (j : nat) (a b : A) :
  list_set (list_set l j a) j b = list_set l j b.
Proof.
  revert j. induction l as [|x l IH]; intros [|j]; simpl; auto.
  now rewrite IH.
Qed.

(** Replacing an element by one with the same image keeps the images. *)
Lemma map_list_set {A B : Type} (g : A -> B) (l : list A) (j : nat)
  (h e : A) :
  nth_error l j = Some h -> g e = g h -> map g (list_set l j e) = map g l.
Proof.
  revert j. induction l as [|x l IH]; intros [|j]; simpl; try discriminate.
  - intros H E. inversion H; subst. now rewrite E.
  - intros H E. f_equal. eapply IH; eauto.
Qed.

Lemma py_range_empty (start stop : Z) : stop <= start -> py_range start stop = [].
Proof.
  intros H. unfold py_range.
  replace (Z.to_nat (stop - start)) with O by lia. reflexivity.
Qed.

Lemma py_range_length (start stop : Z) :
  List.length (py_range start stop) = Z.to_nat (stop - start).
Proof. unfold py_range. now rewrite length_map, length_seq. Qed.

(** ** The secondary adapter: failure, fresh documents, whole blocks *)

Lemma getKeyValue_empty_block (x : value) (k1 k2 : string) :
  lookup k1 x = Some (VDict []) ->
  getKeyValue x [KStr k1; KStr k2] None = Ok VNone.
Proof.
  destruct x; simpl; try discriminate. intros H.
  unfold getKeyValue. simpl. rewrite dict_mem_get, H. reflexivity.
Qed.

(** [getKeyValue] two fields deep reads the outer field only. *)
Lemma getKeyValue_same_block (x y : value) (k1 k2 : string)
  (dx dy : list (string * value)) :
  x = VDict dx -> y = VDict dy -> lookup k1 x = lookup k1 y ->
  getKeyValue x [KStr k1; KStr k2] None = getKeyValue y [KStr k1; KStr k2] None.
Proof.
  intros -> -> H. simpl in H. unfold getKeyValue. simpl.
  rewrite !dict_mem_get, H. destruct (dict_get k1 dy); reflexivity.
Qed.

Lemma foldM_collect {A B : Type} (f : A -> result B) (items : list A) :
  forall (acc out : list B),
    foldM (fun acc x => e <- f x ;; Ok (acc ++ [e])%list) acc items = Ok out ->
    exists es, out = (acc ++ es)%list /\ Forall2 (fun x e => f x = Ok e) items es.
Proof.
  induction items as [|x items IH]; simpl; intros acc out H.
  - inversion H; subst. exists []. split; [now rewrite app_nil_r|constructor].
  - inv_binds H. inv_binds Hx. inversion Hx; subst.
    destruct (IH _ _ H) as (es & -> & Hall).
    exists (x1 :: es). split; [now rewrite <- app_assoc|].
    constructor; auto.
Qed.

Section SecondaryMore.

Variable strptime : string -> result Q.
Variable strptime_day : string -> result Q.
Variable parse_datetime : string -> result Q.
Variable moon_phase : Q -> result Q.
Variable flask_app : bool.

(** X13: when one of the four fetches of the secondary adapter fails, the
    call hands back the document it was given, untouched, or [False] when
    it was given none. *)
Theorem get_soft_failure :
  forall (latitude longitude : value) (up : upstream)
         (input_dictionary : value),
    ~ fetched up ->
    get strptime strptime_day parse_datetime moon_phase flask_app
      latitude longitude up input_dictionary
    = Ok (if truthy input_dictionary then input_dictionary else VBool false).
Proof.
  intros latitude longitude up input_dictionary H.
  unfold get, hand_back. unfold fetched in H.
  destruct (truthy (cc_current_obj up));
    [|destruct (truthy input_dictionary); reflexivity].
  destruct (truthy (cc_minutely_obj up));
    [|destruct (truthy input_dictionary); reflexivity].
  destruct (truthy (cc_hourly_obj up));
    [|destruct (truthy input_dictionary); reflexivity].
  destruct (truthy (cc_daily_obj up));
    [|destruct (truthy input_dictionary); reflexivity].
  exfalso. apply H. auto.
Qed.

(** X14: without a document from the primary adapter the secondary adapter
    never produces one: at any time since 1970 the daily skeleton that it
    synthesises is empty, and the padding that follows reads the last
    element of an empty list.  The call returns [False] or raises. *)
Theorem get_alone_builds_nothing :
  forall (latitude longitude : value) (up : upstream)
         (input_dictionary out : value),
    truthy input_dictionary = false ->
    0 <= utc_midnight up ->
    get strptime strptime_day parse_datetime moon_phase flask_app
      latitude longitude up input_dictionary = Ok out ->
    out = VBool false.
Proof.
  intros latitude longitude up input_dictionary out Hin Hclock H.
  apply get_inversion in H.
  destruct H as [[_ C]|[[-> _]|[F H]]]; [congruence|reflexivity|].
  exfalso.
  destruct H as (o0 & o1 & o2 & o3 & o4 & H0 & H1 & H2 & H3 & H4 & _).
  rewrite Hin in H0. unfold fresh_output in H0. inv_binds H0.
  assert (E : lookup "daily" o3 = Some (VDict [])).
  { rewrite (hourly_section_frame _ _ _ _ _ "daily" H3) by discriminate.
    rewrite (minutely_section_frame _ _ _ _ "daily" H2) by discriminate.
    rewrite (currently_section_frame _ _ _ _ _ "daily" H1) by discriminate.
    rewrite (setitem_str_other _ _ "daily" _ _ H0) by discriminate.
    reflexivity. }
  destruct F as (_ & _ & _ & F4).
  unfold daily_section in H4. rewrite F4 in H4.
  rewrite (getKeyValue_empty_block _ _ _ E) in H4.
  cbn [bind no_data truthy negb] in H4.
  rewrite py_range_empty in H4 by lia.
  discriminate H4.
Qed.

(** X15: after a full run the [currently] block is exactly the record
    built from the real-time payload; nothing of an earlier [currently]
    block survives. *)
Theorem currently_is_replaced :
  forall (latitude longitude : value) (up : upstream)
         (input_dictionary out : value),
    fetched up ->
    get strptime strptime_day parse_datetime moon_phase flask_app
      latitude longitude up input_dictionary = Ok out ->
    exists c,
      currently strptime flask_app (cc_current_obj up) = Ok c /\
      lookup "currently" out = Some c.
Proof.
  intros latitude longitude up input_dictionary out F H.
  pose proof F as (F1 & F2 & F3 & F4).
  unfold get in H. rewrite F1, F2, F3, F4 in H. cbn [negb] in H.
  inv_binds H.
  unfold currently_section in Hx0. rewrite F1 in Hx0. inv_binds Hx0.
  exists x4. split; auto.
  rewrite (sources_section_frame _ _ _ _ H) by discriminate.
  rewrite (daily_section_frame _ _ _ _ _ _ _ _ Hx3) by discriminate.
  rewrite (hourly_section_frame _ _ _ _ _ _ Hx2) by discriminate.
  rewrite (minutely_section_frame _ _ _ _ _ Hx1) by discriminate.
  eapply setitem_str_same; eauto.
Qed.

(** X16: when the document holds no minute data (the key absent or its
    value falsy), a full run fills [minutely.data] with one record for each
    item of the nowcast, in order. *)
Theorem minutely_data_from_nowcast :
  forall (latitude longitude : value) (up : upstream)
         (input_dictionary out data : value) (nowcast : list value),
    fetched up ->
    truthy input_dictionary = true ->
    getKeyValue input_dictionary [KStr "minutely"; KStr "data"] None
    = Ok data ->
    truthy data = false ->
    cc_minutely_obj up = VList nowcast ->
    get strptime strptime_day parse_datetime moon_phase flask_app
      latitude longitude up input_dictionary = Ok out ->
    exists records,
      path2 "minutely" "data" out = Some (VList records) /\
      Forall2 (fun minute record => minute_entry strptime minute = Ok record)
        nowcast records.
Proof.
  intros latitude longitude up input_dictionary out data nowcast
    F Hin Hd Ht Hn H.
  pose proof F as (F1 & F2 & F3 & F4).
  unfold get in H. rewrite F1, F2, F3, F4, Hin in H. cbn [negb] in H.
  inv_binds H. inversion Hx; subst x; clear Hx.
  (* the document after "currently" reads the same minute data *)
  assert (E : getKeyValue x0 [KStr "minutely"; KStr "data"] None = Ok data).
  { unfold currently_section in Hx0. rewrite F1 in Hx0. inv_binds Hx0.
    destruct input_dictionary; simpl in Hx0; try discriminate.
    inversion Hx0; subst.
    rewrite <- Hd. eapply getKeyValue_same_block; try reflexivity.
    simpl. apply dict_get_set_other. discriminate. }
  unfold minutely_section in Hx1. rewrite F2, E in Hx1.
  cbn [bind] in Hx1. unfold no_data in Hx1. rewrite Ht in Hx1.
  cbn [negb bind] in Hx1. rewrite Hn in Hx1. cbn [iterate bind] in Hx1.
  inv_binds Hx1.
  destruct (foldM_collect _ _ _ _ Hx) as (records & -> & Hall).
  exists records. split; auto.
  transitivity (path2 "minutely" "data" x3).
  { apply lookup_path2. eapply sources_section_frame; eauto. discriminate. }
  transitivity (path2 "minutely" "data" x2).
  { apply lookup_path2. eapply daily_section_frame; eauto. discriminate. }
  rewrite (hourly_section_minutely _ _ _ _ _ "data" Hx2) by discriminate.
  unfold path2. rewrite (setitem_str_same _ _ _ _ Hx1). reflexivity.
Qed.

End SecondaryMore.

Lemma get_soft_failure_witness :
  Sample.run_climacell Sample.climacell_down Sample.stored = Ok Sample.stored.
Proof.
  apply (get_soft_failure Sample.clock Sample.clock Sample.clock
           Sample.new_moon true (VFloat 40) (VFloat (-75))
           Sample.climacell_down Sample.stored).
  intros (C & _). discriminate C.
Defined.

Lemma get_alone_builds_nothing_witness : VBool false = VBool false.
Proof.
  apply (get_alone_builds_nothing Sample.clock Sample.clock Sample.clock
           Sample.new_moon true (VFloat 40) (VFloat (-75))
           Sample.climacell_down (VBool false) (VBool false)).
  - reflexivity.
  - discriminate.
  - reflexivity.
Defined.

Lemma currently_is_replaced_witness :
  exists c,
    currently Sample.clock true (cc_current_obj Sample.climacell) = Ok c /\
    lookup "currently" Sample.after_one_call = Some c.
Proof.
  apply (currently_is_replaced Sample.clock Sample.clock Sample.clock
           Sample.new_moon true (VFloat 40) (VFloat (-75))
           Sample.climacell Sample.with_minute Sample.after_one_call).
  - repeat split; reflexivity.
  - vm_compute. reflexivity.
Defined.

Lemma minutely_data_from_nowcast_witness :
  exists records,
    path2 "minutely" "data" Sample.enriched = Some (VList records) /\
    Forall2 (fun minute record => minute_entry Sample.clock minute = Ok record)
      [Sample.cc_minute] records.
Proof.
  apply (minutely_data_from_nowcast Sample.clock Sample.clock Sample.clock
           Sample.new_moon true (VFloat 40) (VFloat (-75))
           Sample.climacell Sample.primary Sample.enriched VNone
           [Sample.cc_minute]).
  - repeat split; reflexivity.
  - reflexivity.
  - reflexivity.
  - reflexivity.
  - reflexivity.
  - vm_compute. reflexivity.
Defined.

(** ** The secondary adapter: the hourly and daily lists *)

Section SecondaryLists.

Variable strptime : string -> result Q.
Variable strptime_day : string -> result Q.
Variable parse_datetime : string -> result Q.
Variable moon_phase : Q -> result Q.
Variable flask_app : bool.

Lemma hour_entry_time (hour cc_hour e : value) :
  hour_entry flask_app hour cc_hour = Ok e ->
  lookup "time" e = lookup "time" hour.
Proof.
  unfold hour_entry. intros H. inv_binds H. inversion H; subst. simpl.
  symmetry. now apply getitem_str_lookup.
Qed.

Lemma hourly_step_times (up : upstream) (output output' dd : value)
  (l : list value) (i : Z) :
  hourly_step strptime flask_app up (output, VList l) i = Ok (output', dd) ->
  exists l',
    dd = VList l' /\ map (lookup "time") l' = map (lookup "time") l.
Proof.
  unfold hourly_step. intros H. inv_binds H.
  match goal with
  | Hg : getitem_int (VList l) i = Ok ?h |- _ =>
      apply getitem_int_position in Hg; destruct Hg as (j & Hj & Hn)
  end.
  inversion H; subst; clear H.
  match goal with
  | Hc : (if ?b then _ else _) = Ok _ |- _ =>
      destruct b; [inv_binds Hc|inversion Hc; subst; eauto]
  end.
  rewrite setitem_int_position, Hj in Hx4. inversion Hx4; subst.
  eexists. split; [reflexivity|].
  eapply map_list_set; eauto. eapply hour_entry_time; eauto.
Qed.

(** X17: a full run on a document with an hourly skeleton keeps the
    number of hours and the time of every hour: the secondary adapter
    fills the slots it is given and never adds, drops or moves one. *)
Theorem hourly_times_are_kept :
  forall (latitude longitude : value) (up : upstream)
         (input_dictionary out hour : value) (hours : list value),
    fetched up ->
    path2 "hourly" "data" input_dictionary = Some (VList (hour :: hours)) ->
    get strptime strptime_day parse_datetime moon_phase flask_app
      latitude longitude up input_dictionary = Ok out ->
    exists hours',
      path2 "hourly" "data" out = Some (VList hours') /\
      map (lookup "time") hours' = map (lookup "time") (hour :: hours).
Proof.
  intros latitude longitude up input_dictionary out hour hours F Hd H.
  pose proof F as (F1 & F2 & F3 & F4).
  pose proof (path2_truthy _ _ _ _ Hd) as Hin.
  unfold get in H. rewrite F1, F2, F3, F4, Hin in H. cbn [negb] in H.
  inv_binds H. inversion Hx; subst x; clear Hx.
  assert (E : path2 "hourly" "data" x1 = Some (VList (hour :: hours))).
  { rewrite <- Hd.
    transitivity (path2 "hourly" "data" x0).
    - apply lookup_path2. eapply minutely_section_frame; eauto. discriminate.
    - apply lookup_path2. eapply currently_section_frame; eauto.
      discriminate. }
  assert (K : path2 "hourly" "data" out = path2 "hourly" "data" x2).
  { transitivity (path2 "hourly" "data" x3).
    - apply lookup_path2. eapply sources_section_frame; eauto. discriminate.
    - apply lookup_path2. eapply daily_section_frame; eauto. discriminate. }
  rewrite K. clear K H Hx3 Hx1 Hx0.
  unfold hourly_section in Hx2. rewrite F3 in Hx2.
  rewrite (getKeyValue_path2 _ _ _ _ E) in Hx2.
  assert (N : no_data (VList (hour :: hours)) = Ok false) by reflexivity.
  cbn [bind] in Hx2. rewrite N in Hx2. cbn [bind] in Hx2.
  inv_binds Hx2.
  match goal with
  | Hf : foldM _ _ _ = Ok ?st |- _ =>
      apply (foldM_invariant (hourly_step strptime flask_app up)
               (fun st => exists l',
                    snd st = VList l' /\
                    map (lookup "time") l'
                    = map (lookup "time") (hour :: hours))) in Hf;
      [destruct Hf as (l' & Hl & Hm)| |simpl; eauto]
  end.
  - exists l'. split; auto. rewrite <- Hl.
    eapply setitem_str2_same; eauto.
  - intros [o d] i [o' d'] Hstep (l' & Hl & Hm). simpl in Hl. subst d.
    destruct (hourly_step_times _ _ _ _ _ _ Hstep) as (l2 & -> & Hm2).
    exists l2. split; [reflexivity|]. now rewrite Hm2.
Qed.

End SecondaryLists.

Lemma hourly_times_are_kept_witness :
  exists hours',
    path2 "hourly" "data" Sample.after_one_call = Some (VList hours') /\
    map (lookup "time") hours'
    = map (lookup "time")
        [VDict [ ("time", VInt 1586534400);
                 ("summary", VStr "Sunny");
                 ("icon", VStr "clear-day") ]].
Proof.
  apply (hourly_times_are_kept Sample.clock Sample.clock Sample.clock
           Sample.new_moon true (VFloat 40) (VFloat (-75))
           Sample.climacell Sample.with_minute Sample.after_one_call).
  - repeat split; reflexivity.
  - reflexivity.
  - vm_compute. reflexivity.
Defined.

Lemma fold_dict_set_other (k : string) (v : value) (fields : list string) :
  forall rec,
    ~ In k fields ->
    dict_get k (fold_left (fun r f => dict_set f v r) fields rec)
    = dict_get k rec.
Proof.
  induction fields as [|f fields IH]; simpl; intros rec H; auto.
  rewrite IH by tauto. apply dict_get_set_other. intros ->. tauto.
Qed.

Lemma getitem_str_dict (x : value) (k : string) (v : value) :
  getitem_str x k = Ok v -> exists d, x = VDict d.
Proof. destruct x; simpl; try discriminate. eauto. Qed.

(** [getKeyValue(day, [f])] on a dictionary. *)
Lemma getKeyValue_field (d : list (string * value)) (f : string) :
  getKeyValue (VDict d) [KStr f] None = Ok (field_or_none f (VDict d)).
Proof.
  unfold getKeyValue, field_or_none. simpl. rewrite dict_mem_get.
  destruct (dict_get f d); reflexivity.
Qed.

Ltac not_listed := cbn; intuition discriminate.

Section SecondaryDays.

Variable strptime : string -> result Q.
Variable strptime_day : string -> result Q.
Variable parse_datetime : string -> result Q.
Variable moon_phase : Q -> result Q.
Variable flask_app : bool.

Lemma take_sample_frame (key k : string) (vs ts : list string) (t : value)
  (rec rec' : list (string * value)) :
  take_sample parse_datetime key vs ts t rec = Ok rec' ->
  ~ In k vs -> ~ In k ts -> dict_get k rec' = dict_get k rec.
Proof.
  unfold take_sample. intros H Hv Ht. inv_binds H.
  destruct x; [|now inversion H].
  inv_binds H. inversion H; subst.
  rewrite fold_dict_set_other by assumption.
  now apply fold_dict_set_other.
Qed.

Lemma extremes_frame (samples : value) (prefix k : string)
  (rec rec' : list (string * value)) :
  extremes parse_datetime samples prefix rec = Ok rec' ->
  ~ In k (map (String.append prefix)
            ["Low"; "Min"; "LowTime"; "MinTime";
             "High"; "Max"; "HighTime"; "MaxTime"]) ->
  dict_get k rec' = dict_get k rec.
Proof.
  unfold extremes. intros H Hk. inv_binds H.
  apply (foldM_invariant _ (fun r => dict_get k r = dict_get k rec)) in H;
    auto.
  intros r t r' Hstep Hr. inv_binds Hstep.
  rewrite (take_sample_frame _ k _ _ _ _ _ Hstep), <- Hr;
    [eapply take_sample_frame; eauto| |]; simpl in *; tauto.
Qed.

Lemma mean_of_extremes_frame (samples : value) (name k : string)
  (rec rec' : list (string * value)) :
  mean_of_extremes samples name rec = Ok rec' ->
  k <> name -> dict_get k rec' = dict_get k rec.
Proof.
  unfold mean_of_extremes. intros H Hk. inv_binds H.
  apply (foldM_invariant _ (fun r => dict_get k r = dict_get k rec)) in H;
    auto.
  intros r t r' Hstep Hr. inv_binds Hstep. inversion Hstep; subst.
  now rewrite dict_get_set_other.
Qed.

Lemma gust_frame (samples : value) (k : string)
  (rec rec' : list (string * value)) :
  gust parse_datetime samples rec = Ok rec' ->
  ~ In k ["windGust"; "windGustTime"] ->
  dict_get k rec' = dict_get k rec.
Proof.
  unfold gust. intros H Hk. inv_binds H.
  apply (foldM_invariant _ (fun r => dict_get k r = dict_get k rec)) in H;
    auto.
  intros r t r' Hstep Hr.
  rewrite (take_sample_frame _ k _ _ _ _ _ Hstep); simpl in *; tauto.
Qed.

(** The record of a day starts from the time of the slot and from the four
    carried fields of the entry that was there. *)
Lemma day_entry_fields (day cc_day : value) (rec : list (string * value)) :
  day_entry parse_datetime moon_phase flask_app day cc_day = Ok rec ->
  lookup "time" (VDict rec) = lookup "time" day /\
  forall f, In f carried ->
            field_or_none f (VDict rec) = field_or_none f day.
Proof.
  unfold day_entry. intros H. inv_binds H.
  destruct (getitem_str_dict _ _ _ Hx) as (d & ->).
  rewrite !getKeyValue_field in *.
  inversion H; subst; clear H. split.
  - simpl. symmetry. now apply getitem_str_lookup in Hx.
  - intros f [<-|[<-|[<-|[<-|[]]]]]; unfold field_or_none at 1; simpl;
      congruence.
Qed.

(** One iteration of the daily loop rewrites one slot and keeps its time
    and its carried fields. *)
Lemma daily_step_entry (up : upstream) (l : list value) (ctr ctr' i : Z)
  (dd : value) :
  daily_step parse_datetime moon_phase flask_app up
    (VList l, ctr) i = Ok (dd, ctr') ->
  exists j day new,
    nth_error l j = Some day /\
    dd = VList (list_set l j new) /\
    lookup "time" new = lookup "time" day /\
    forall f, In f carried -> field_or_none f new = field_or_none f day.
Proof.
  unfold daily_step. intros H. inv_binds H.
  match goal with
  | Hg : getitem_int (VList l) i = Ok ?h |- _ =>
      apply getitem_int_position in Hg; destruct Hg as (j & Hj & Hn)
  end.
  inversion H; subst; clear H.
  repeat match goal with
         | Hs : setitem_int (VList _) i _ = Ok _ |- _ =>
             rewrite setitem_int_position in Hs;
             rewrite ?list_set_length, Hj in Hs;
             inversion Hs; subst; clear Hs
         end.
  match goal with
  | Hd : day_entry _ _ _ _ _ = Ok ?r0,
    H1 : extremes _ _ "temperature" ?r0 = Ok ?r1,
    H2 : extremes _ _ "apparentTemperature" ?r1 = Ok ?r2,
    H3 : mean_of_extremes _ "humidity" ?r2 = Ok ?r3,
    H4 : mean_of_extremes _ "pressure" ?r3 = Ok ?r4,
    H5 : gust _ _ ?r4 = Ok ?r5 |- _ =>
      assert (K : forall k, In k ("time" :: carried) ->
                            dict_get k r5 = dict_get k r0);
      [ intros k Hk;
        rewrite (gust_frame _ k _ _ H5),
                (mean_of_extremes_frame _ _ k _ _ H4),
                (mean_of_extremes_frame _ _ k _ _ H3),
                (extremes_frame _ _ k _ _ H2),
                (extremes_frame _ _ k _ _ H1);
        [reflexivity| | | | |];
        destruct Hk as [<-|[<-|[<-|[<-|[<-|[]]]]]]; not_listed
      | destruct (day_entry_fields _ _ _ Hd) as [Ttime Tcarried];
        exists j, x, (VDict r5) ]
  end.
  split; [assumption|]. split; [now rewrite list_set_twice|].
  split.
  - rewrite <- Ttime. simpl. apply K. now left.
  - intros f Hf. rewrite <- (Tcarried f Hf).
    unfold field_or_none. simpl. rewrite K; [reflexivity|now right].
Qed.

(** The loop over the days keeps the number of slots, their times and
    their carried fields. *)
Lemma daily_loop_keeps (up : upstream) (indices : list Z) :
  forall (l : list value) (ctr : Z) (st : value * Z),
    foldM (daily_step parse_datetime moon_phase flask_app up)
      (VList l, ctr) indices = Ok st ->
    exists l',
      fst st = VList l' /\
      List.length l' = List.length l /\
      map (lookup "time") l' = map (lookup "time") l /\
      forall f, In f carried ->
                map (field_or_none f) l' = map (field_or_none f) l.
Proof.
  induction indices as [|i indices IH]; simpl; intros l ctr st H.
  - inversion H; subst. exists l. auto.
  - inv_bind H. destruct x as [dd ctr'].
    destruct (daily_step_entry _ _ _ _ _ _ Hx)
      as (j & day & new & Hn & -> & Ht & Hc).
    destruct (IH _ _ _ H) as (l' & Hl & Hlen & Htime & Hcar).
    exists l'. split; auto.
    split; [now rewrite Hlen, list_set_length|].
    split.
    + rewrite Htime. eapply map_list_set; eauto.
    + intros f Hf. rewrite (Hcar f Hf). eapply map_list_set; eauto.
Qed.

(** *** Padding *)

Lemma padding_S (t : Z) (k : nat) :
  padding t (S k) = (t + 86400) :: padding (t + 86400) k.
Proof.
  unfold padding. cbn [seq map].
  replace (t + 86400 * Z.of_nat 1) with (t + 86400) by lia.
  apply f_equal.
  rewrite <- seq_shift, map_map. apply map_ext. intros j. lia.
Qed.

Lemma pad_loop_any (xs : list Z) :
  forall (timestamp : value) (l : list value) (st : value * value),
    foldM pad_step (timestamp, VList l) xs = Ok st ->
    exists extra,
      snd st = VList (l ++ extra) /\ List.length extra = List.length xs.
Proof.
  induction xs as [|x xs IH]; simpl; intros ts l st H.
  - inversion H; subst. exists []. now rewrite app_nil_r.
  - inv_bind H. unfold pad_step in Hx. inv_binds Hx.
    simpl in Hx. inversion Hx; subst; clear Hx.
    destruct (IH _ _ _ H) as (extra & -> & Hlen).
    eexists (_ :: extra). split; [now rewrite <- app_assoc|].
    simpl. now rewrite Hlen.
Qed.

Lemma pad_loop_int (xs : list Z) :
  forall (t : Z) (l : list value),
    foldM pad_step (VInt t, VList l) xs
    = Ok (VInt (t + 86400 * Z.of_nat (List.length xs)),
          VList (l ++ map time_only (padding t (List.length xs)))).
Proof.
  induction xs as [|x xs IH]; intros t l.
  - cbn [foldM List.length]. unfold padding. cbn [seq map].
    rewrite app_nil_r.
    replace (t + 86400 * Z.of_nat 0) with t by lia. reflexivity.
  - cbn [foldM List.length]. rewrite padding_S.
    change (pad_step (VInt t, VList l) x)
      with (Ok (VInt (t + 86400),
                VList (l ++ [time_only (t + 86400)]))).
    cbn [bind]. rewrite IH. rewrite <- app_assoc.
    replace (t + 86400 + 86400 * Z.of_nat (List.length xs))
      with (t + 86400 * Z.of_nat (S (List.length xs))) by lia.
    reflexivity.
Qed.

Lemma pad_list (l : list value) (dd : value) :
  pad (VList l) = Ok dd ->
  exists extra,
    dd = VList (l ++ extra) /\
    List.length (l ++ extra) = Nat.max 8 (List.length l).
Proof.
  unfold pad. cbn [len bind]. intros H.
  destruct (Z.of_nat (List.length l) <? 8) eqn:E.
  - apply Z.ltb_lt in E. inv_binds H. inversion H; subst.
    destruct (pad_loop_any _ _ _ _ Hx1) as (extra & -> & Hlen).
    exists extra. split; auto.
    rewrite length_app, Hlen, py_range_length. lia.
  - apply Z.ltb_ge in E. inversion H; subst. exists [].
    rewrite app_nil_r. split; auto. lia.
Qed.

Lemma last_default {A : Type} (l : list A) :
  forall a d d' : A, last (a :: l) d = last (a :: l) d'.
Proof.
  induction l as [|b l IH]; intros a d d'; [reflexivity|].
  change (last (b :: l) d = last (b :: l) d'). apply IH.
Qed.

Lemma nth_error_last (day : value) (days : list value) :
  nth_error (day :: days) (List.length days) = Some (last days day).
Proof.
  revert day. induction days as [|d days IH]; intros day; [reflexivity|].
  change (nth_error (day :: d :: days) (List.length (d :: days)))
    with (nth_error (d :: days) (List.length days)).
  rewrite IH. f_equal.
  destruct days as [|v days]; [reflexivity|].
  change (last (v :: days) d = last (v :: days) day). apply last_default.
Qed.

(** After a last day at the integer time [t] the padding continues in
    steps of 86400 seconds up to eight days. *)
Lemma pad_int (day : value) (days : list value) (t : Z) :
  lookup "time" (last days day) = Some (VInt t) ->
  pad (VList (day :: days))
  = Ok (VList ((day :: days)
               ++ map time_only
                    (padding t (8 - List.length (day :: days))))).
Proof.
  intros Ht. unfold pad. cbn [len bind].
  destruct (Z.of_nat (List.length (day :: days)) <? 8) eqn:E.
  - apply Z.ltb_lt in E.
    assert (G : getitem_int (VList (day :: days))
                  (Z.of_nat (List.length (day :: days)) - 1)
                = Ok (last days day)).
    { apply getitem_int_position. exists (List.length days). split.
      - unfold position.
        replace (Z.of_nat (List.length (day :: days)) - 1)
          with (Z.of_nat (List.length days)) by (simpl List.length; lia).
        destruct (Z.of_nat (List.length days) <? 0) eqn:N;
          [apply Z.ltb_lt in N; lia|].
        assert (B : (0 <=? Z.of_nat (List.length days)) &&
                    (Z.of_nat (List.length days)
                     <? Z.of_nat (List.length (day :: days))) = true).
        { apply andb_true_iff.
          split; [apply Z.leb_le|apply Z.ltb_lt]; simpl List.length; lia. }
        rewrite B. now rewrite Nat2Z.id.
      - apply nth_error_last. }
    rewrite G. cbn [bind].
    apply getitem_str_lookup in Ht. rewrite Ht. cbn [bind].
    rewrite pad_loop_int. cbn [bind snd]. rewrite py_range_length.
    repeat f_equal. lia.
  - apply Z.ltb_ge in E.
    replace (8 - List.length (day :: days))%nat with O by lia.
    simpl. now rewrite app_nil_r.
Qed.

(** *** The daily section *)

Lemma daily_section_shape (up : upstream) (output output' day : value)
  (days : list value) :
  truthy (cc_daily_obj up) = true ->
  path2 "daily" "data" output = Some (VList (day :: days)) ->
  daily_section strptime_day parse_datetime moon_phase flask_app up output
  = Ok output' ->
  exists padded days',
    pad (VList (day :: days)) = Ok (VList padded) /\
    path2 "daily" "data" output' = Some (VList days') /\
    List.length days' = List.length padded /\
    map (lookup "time") days' = map (lookup "time") padded /\
    forall f, In f carried ->
              map (field_or_none f) days' = map (field_or_none f) padded.
Proof.
  intros Ht Hd H. unfold daily_section in H. rewrite Ht in H.
  rewrite (getKeyValue_path2 _ _ _ _ Hd) in H.
  assert (N : no_data (VList (day :: days)) = Ok false) by reflexivity.
  cbn [bind] in H. rewrite N in H. cbn [bind] in H.
  inv_binds H.
  destruct (pad_list _ _ Hx) as (extra & -> & _).
  match goal with
  | Hf : foldM (daily_step _ _ _ _) _ _ = Ok ?st |- _ =>
      destruct (daily_loop_keeps _ _ _ _ _ Hf)
        as (days' & Hl & Hlen & Htime & Hcar)
  end.
  exists ((day :: days) ++ extra)%list, days'.
  split; [exact Hx|].
  split; [rewrite <- Hl; eapply setitem_str2_same; eauto|].
  split; [exact Hlen|]. split; [exact Htime|exact Hcar].
Qed.

(** The daily list after a full run, in terms of the padded input list. *)
Lemma get_daily_shape (latitude longitude : value) (up : upstream)
  (input_dictionary out day : value) (days : list value) :
  fetched up ->
  path2 "daily" "data" input_dictionary = Some (VList (day :: days)) ->
  get strptime strptime_day parse_datetime moon_phase flask_app
    latitude longitude up input_dictionary = Ok out ->
  exists padded days',
    pad (VList (day :: days)) = Ok (VList padded) /\
    path2 "daily" "data" out = Some (VList days') /\
    List.length days' = List.length padded /\
    map (lookup "time") days' = map (lookup "time") padded /\
    forall f, In f carried ->
              map (field_or_none f) days' = map (field_or_none f) padded.
Proof.
  intros F Hd H.
  pose proof F as (F1 & F2 & F3 & F4).
  pose proof (path2_truthy _ _ _ _ Hd) as Hin.
  unfold get in H. rewrite F1, F2, F3, F4, Hin in H. cbn [negb] in H.
  inv_binds H. inversion Hx; subst x; clear Hx.
  assert (E : path2 "daily" "data" x2 = Some (VList (day :: days))).
  { rewrite <- Hd.
    transitivity (path2 "daily" "data" x1).
    { apply lookup_path2. eapply hourly_section_frame; eauto; discriminate. }
    transitivity (path2 "daily" "data" x0).
    { apply lookup_path2. eapply minutely_section_frame; eauto.
      discriminate. }
    apply lookup_path2. eapply currently_section_frame; eauto.
    discriminate. }
  destruct (daily_section_shape _ _ _ _ _ F4 E Hx3)
    as (padded & days' & Hp & Hpath & Hrest).
  exists padded, days'. split; [exact Hp|]. split; [|exact Hrest].
  rewrite <- Hpath. apply lookup_path2.
  eapply sources_section_frame; eauto. discriminate.
Qed.

(** X18: a full run on a document with daily entries leaves a daily list
    of eight entries, or as many as it was given if more; the entries it
    was given keep their place and their time, and after a last day at the
    integer time [t] the added days follow at [t + 86400], [t + 2 * 86400]
    and so on. *)
Theorem daily_slots :
  forall (latitude longitude : value) (up : upstream)
         (input_dictionary out day : value) (days : list value),
    fetched up ->
    path2 "daily" "data" input_dictionary = Some (VList (day :: days)) ->
    get strptime strptime_day parse_datetime moon_phase flask_app
      latitude longitude up input_dictionary = Ok out ->
    exists days',
      path2 "daily" "data" out = Some (VList days') /\
      List.length days' = Nat.max 8 (List.length (day :: days)) /\
      firstn (List.length (day :: days)) (map (lookup "time") days')
      = map (lookup "time") (day :: days) /\
      forall t,
        lookup "time" (last days day) = Some (VInt t) ->
        skipn (List.length (day :: days)) (map (lookup "time") days')
        = map (fun z => Some (VInt z))
            (padding t (8 - List.length (day :: days))).
Proof.
  intros latitude longitude up input_dictionary out day days F Hd H.
  destruct (get_daily_shape _ _ _ _ _ _ _ F Hd H)
    as (padded & days' & Hp & Hpath & Hlen & Htime & _).
  exists days'. split; [exact Hpath|].
  destruct (pad_list _ _ Hp) as (extra & Hpad & Hmax).
  assert (Hp' : padded = ((day :: days) ++ extra)%list) by congruence.
  subst padded; clear Hpad.
  split; [now rewrite Hlen|].
  split.
  - rewrite Htime, map_app.
    rewrite <- (length_map (lookup "time") (day :: days)) at 1.
    rewrite firstn_app, firstn_all, Nat.sub_diag. cbn [firstn].
    now rewrite app_nil_r.
  - intros t Ht. rewrite (pad_int _ _ _ Ht) in Hp.
    assert (Hp' : map time_only (padding t (8 - List.length (day :: days)))
                  = extra).
    { apply (app_inv_head (day :: days)). congruence. }
    subst extra.
    rewrite Htime, map_app.
    rewrite <- (length_map (lookup "time") (day :: days)) at 1.
    rewrite skipn_app, skipn_all, Nat.sub_diag. cbn [skipn app].
    rewrite map_map. reflexivity.
Qed.

(** X19: merge precedence for the fields that Climacell does not provide:
    after a full run every daily entry that was in the document has the
    [windSpeed], [windBearing], [cloudCover] and [visibility] it had
    before, and [None] where it had none. *)
Theorem daily_carried_fields :
  forall (latitude longitude : value) (up : upstream)
         (input_dictionary out day : value) (days : list value),
    fetched up ->
    path2 "daily" "data" input_dictionary = Some (VList (day :: days)) ->
    get strptime strptime_day parse_datetime moon_phase flask_app
      latitude longitude up input_dictionary = Ok out ->
    exists days',
      path2 "daily" "data" out = Some (VList days') /\
      forall f,
        In f carried ->
        firstn (List.length (day :: days)) (map (field_or_none f) days')
        = map (field_or_none f) (day :: days).
Proof.
  intros latitude longitude up input_dictionary out day days F Hd H.
  destruct (get_daily_shape _ _ _ _ _ _ _ F Hd H)
    as (padded & days' & Hp & Hpath & _ & _ & Hcar).
  exists days'. split; [exact Hpath|].
  destruct (pad_list _ _ Hp) as (extra & Hpad & _).
  assert (Hp' : padded = ((day :: days) ++ extra)%list) by congruence.
  subst padded; clear Hpad.
  intros f Hf. rewrite (Hcar f Hf), map_app.
  rewrite <- (length_map (field_or_none f) (day :: days)) at 1.
  rewrite firstn_app, firstn_all, Nat.sub_diag. cbn [firstn].
  now rewrite app_nil_r.
Qed.

End SecondaryDays.

Lemma daily_slots_witness :
  exists days',
    path2 "daily" "data" Sample.after_one_call = Some (VList days') /\
    List.length days' = 8%nat /\
    firstn 1 (map (lookup "time") days') = [Some (VInt 1586476800)] /\
    forall t,
      Some (VInt 1586476800) = Some (VInt t) ->
      skipn 1 (map (lookup "time") days')
      = map (fun z => Some (VInt z)) (padding t 7).
Proof.
  apply (daily_slots Sample.clock Sample.clock Sample.clock Sample.new_moon
           true (VFloat 40) (VFloat (-75)) Sample.climacell
           Sample.with_minute Sample.after_one_call
           (VDict [("time", VInt 1586476800); ("windSpeed", VFloat 5)]) []).
  - repeat split; reflexivity.
  - reflexivity.
  - vm_compute. reflexivity.
Defined.

Lemma daily_carried_fields_witness :
  exists days',
    path2 "daily" "data" Sample.after_one_call = Some (VList days') /\
    forall f,
      In f carried ->
      firstn 1 (map (field_or_none f) days')
      = map (field_or_none f)
          [VDict [("time", VInt 1586476800); ("windSpeed", VFloat 5)]].
Proof.
  apply (daily_carried_fields Sample.clock Sample.clock Sample.clock
           Sample.new_moon true (VFloat 40) (VFloat (-75)) Sample.climacell
           Sample.with_minute Sample.after_one_call
           (VDict [("time", VInt 1586476800); ("windSpeed", VFloat 5)]) []).
  - repeat split; reflexivity.
  - reflexivity.
  - vm_compute. reflexivity.
Defined.

(** ** The primary adapter: area names, optional and mandatory fetches *)

Lemma regions_loop (table : list (value * value)) (ids names : list value) :
  Forall2 (fun id name => hashable id = true /\ kv_get id table = Some name)
    ids names ->
  forall acc,
    foldM (fun regions county_id =>
             if hashable county_id then
               match kv_get county_id table with
               | Some name => Ok (regions ++ [name])%list
               | None => Raise KeyError
               end
             else Raise TypeError) acc ids
    = Ok (acc ++ names)%list.
Proof.
  induction 1 as [|id name ids names [Hh Hg] _ IH]; intros acc; simpl.
  - now rewrite app_nil_r.
  - rewrite Hh, Hg. simpl. rewrite IH. now rewrite <- app_assoc.
Qed.

Lemma regions_loop_missing (table : list (value * value))
    (ids names : list value) (id : value) (rest : list value) :
  Forall2 (fun id name => hashable id = true /\ kv_get id table = Some name)
    ids names ->
  hashable id = true -> kv_get id table = None ->
  forall acc,
    foldM (fun regions county_id =>
             if hashable county_id then
               match kv_get county_id table with
               | Some name => Ok (regions ++ [name])%list
               | None => Raise KeyError
               end
             else Raise TypeError) acc (ids ++ id :: rest)
    = Raise KeyError.
Proof.
  intros H Hh Hg.
  induction H as [|i n ids names [Hi Hn] _ IH]; intros acc; simpl.
  - now rewrite Hh, Hg.
  - rewrite Hi, Hn. simpl. apply IH.
Qed.

(** X20: the area codes of an alert are resolved through the table of
    county and zone names, in order; a code that the table does not hold
    is not skipped: the lookup raises [KeyError]. *)
Theorem regions_of_codes :
  forall (table : list (value * value)) (ids names : list value),
    Forall2 (fun id name => hashable id = true /\ kv_get id table = Some name)
      ids names ->
    NOAAWeatherAPI.regions_of table (VList ids) = Ok names /\
    forall (id : value) (rest : list value),
      hashable id = true -> kv_get id table = None ->
      NOAAWeatherAPI.regions_of table (VList (ids ++ id :: rest))
      = Raise KeyError.
Proof.
  intros table ids names H. unfold NOAAWeatherAPI.regions_of.
  cbn [iterate bind]. split.
  - apply (regions_loop _ _ _ H []).
  - intros id rest Hh Hg.
    apply (regions_loop_missing _ _ _ _ _ H Hh Hg).
Qed.

Lemma regions_of_codes_witness :
  NOAAWeatherAPI.regions_of [(VStr "PAC101", VStr "Philadelphia")]
    (VList [VStr "PAC101"]) = Ok [VStr "Philadelphia"] /\
  forall (id : value) (rest : list value),
    hashable id = true ->
    kv_get id [(VStr "PAC101", VStr "Philadelphia")] = None ->
    NOAAWeatherAPI.regions_of [(VStr "PAC101", VStr "Philadelphia")]
      (VList ([VStr "PAC101"] ++ id :: rest)) = Raise KeyError.
Proof.
  apply (regions_of_codes [(VStr "PAC101", VStr "Philadelphia")]
           [VStr "PAC101"] [VStr "Philadelphia"]).
  apply Forall2_cons; [split; reflexivity | apply Forall2_nil].
Defined.

Section PrimaryMore.

Variable parse_datetime : string -> result Q.
Variable add_duration : Q -> string -> result Q.
Variable flask_app : bool.
Variable now : nat -> Q.

Lemma add_features_nothing (obj : value) (table : list (value * value)) :
  truthy obj = false -> NOAAWeatherAPI.add_features obj table = Ok table.
Proof. unfold NOAAWeatherAPI.add_features. now intros ->. Qed.

(** X21: when neither the county nor the zone document could be fetched the
    table of area names is empty, and an alert that has not expired and names
    an area then stops the alerts section with [KeyError]: no alert list is
    written. *)
Theorem live_alert_without_area_names :
  forall (counties zones alert props expires id : value)
         (others rest : list value) (output : value),
    truthy counties = false ->
    truthy zones = false ->
    getKeyValue alert [KStr "properties"] None = Ok props ->
    getKeyValue props [KStr "expires"]
      (Some (NOAAWeatherAPI.interval_start parse_datetime add_duration))
    = Ok expires ->
    py_gt expires (VFloat (now 0%nat)) = Ok true ->
    getKeyValue props [KStr "geocode"; KStr "UGC"] None
    = Ok (VList (id :: rest)) ->
    hashable id = true ->
    (noaa_county_list <- NOAAWeatherAPI.add_features counties [] ;;
     noaa_county_list <- NOAAWeatherAPI.add_features zones noaa_county_list ;;
     NOAAWeatherAPI.alerts_section parse_datetime add_duration now
       noaa_county_list (VDict [("features", VList (alert :: others))]) output)
    = Raise KeyError.
Proof.
  intros counties zones alert props expires id others rest output
    Hc Hz Hp He Hgt Hu Hh.
  rewrite (add_features_nothing _ _ Hc). cbn [bind].
  rewrite (add_features_nothing _ _ Hz). cbn [bind].
  unfold NOAAWeatherAPI.alerts_section.
  change (truthy (VDict [("features", VList (alert :: others))])) with true.
  cbv iota.
  change (getKeyValue (VDict [("features", VList (alert :: others))])
            [KStr "features"] None) with (Ok (VList (alert :: others))).
  cbn [bind]. change (truthy (VList (alert :: others))) with true.
  cbv iota. cbn [iterate bind NOAAWeatherAPI.alerts_loop].
  unfold NOAAWeatherAPI.alert_step.
  rewrite Hp. cbn [bind]. rewrite He. cbn [bind]. rewrite Hgt. cbn [bind].
  rewrite Hu. cbn [bind].
  unfold NOAAWeatherAPI.regions_of. cbn [iterate bind foldM].
  rewrite Hh. reflexivity.
Qed.

Lemma alerts_section_frame (noaa_county_list : list (value * value))
  (noaa_alerts_obj output output' : value) (k : string) :
  NOAAWeatherAPI.alerts_section parse_datetime add_duration now
    noaa_county_list noaa_alerts_obj output = Ok output' ->
  k <> "alerts" -> lookup k output' = lookup k output.
Proof.
  unfold NOAAWeatherAPI.alerts_section. intros H Hk.
  destruct (truthy noaa_alerts_obj); [|inversion H; subst; reflexivity].
  inv_binds H.
  destruct (truthy x); [|inversion H; subst; reflexivity].
  inv_binds H. now lookup_frame.
Qed.

Lemma alerts_section_skipped (noaa_county_list : list (value * value))
  (noaa_alerts_obj output : value) :
  truthy noaa_alerts_obj = false ->
  NOAAWeatherAPI.alerts_section parse_datetime add_duration now
    noaa_county_list noaa_alerts_obj output = Ok output.
Proof. unfold NOAAWeatherAPI.alerts_section. now intros ->. Qed.

Lemma assign_block_frame (output output' : value) (k k' : string)
  (block : option value) :
  NOAAWeatherAPI.assign_block output k block = Ok output' ->
  k' <> k -> lookup k' output' = lookup k' output.
Proof.
  unfold NOAAWeatherAPI.assign_block. intros H Hk.
  destruct block; [|inversion H; subst; reflexivity].
  eapply setitem_str_other; eauto.
Qed.

(** The stages of a call of the primary adapter that returns a document. *)
Lemma noaa_get_stages (latitude longitude : value)
  (up : NOAAWeatherAPI.upstream) (output : value) :
  NOAAWeatherAPI.get parse_datetime add_duration flask_app now
    latitude longitude up = Ok output ->
  truthy output = true ->
  (NOAAWeatherAPI.is_False (NOAAWeatherAPI.noaa_points_obj up) = false /\
   truthy (NOAAWeatherAPI.noaa_current_obj up) = true /\
   truthy (NOAAWeatherAPI.noaa_hourly_obj up) = true /\
   truthy (NOAAWeatherAPI.noaa_griddata_obj up) = true /\
   truthy (NOAAWeatherAPI.noaa_daily_obj up) = true) /\
  exists (timezone offset miles o0 o1 ob oa : value)
         (table : list (value * value)),
    getKeyValue (NOAAWeatherAPI.noaa_points_obj up)
      [KStr "properties"; KStr "timeZone"] None = Ok timezone /\
    NOAAWeatherAPI.utc_offset up = Ok offset /\
    NOAAWeatherAPI.nearest_station up = Ok (Some miles) /\
    setitem_str
      (VDict [ ("latitude", latitude);
               ("longitude", longitude);
               ("timezone", timezone);
               ("currently", VDict []);
               ("minutely", VDict []);
               ("hourly", VDict []);
               ("daily", VDict []);
               ("alerts", VList []);
               ("flags", VDict [("sources", VList []); ("units", VStr "us")]) ])
      "offset" offset = Ok o0 /\
    setitem_str2 o0 "flags" "nearest-station" miles = Ok o1 /\
    (forall k, k <> "currently" -> k <> "hourly" -> k <> "daily" ->
               lookup k ob = lookup k o1) /\
    NOAAWeatherAPI.alerts_section parse_datetime add_duration now
      table (NOAAWeatherAPI.noaa_alerts_obj up) ob = Ok oa /\
    setitem_str2 oa "flags" "sources" (VTuple [VStr "noaa"]) = Ok output.
Proof.
  unfold NOAAWeatherAPI.get. intros H Ht.
  destruct (NOAAWeatherAPI.is_False (NOAAWeatherAPI.noaa_points_obj up)).
  { destruct flask_app; inversion H; subst. discriminate. }
  inv_binds H.
  match goal with
  | Hn : NOAAWeatherAPI.nearest_station up = Ok ?n |- _ =>
      destruct n as [miles|]; [|discriminate]
  end.
  inv_binds H.
  repeat match type of H with
         | (if negb ?b then _ else _) = _ =>
             destruct b; cbn [negb] in H;
             [|inversion H; subst; discriminate]
         end.
  inv_binds H.
  split; [repeat split|].
  match goal with
  | Ha : NOAAWeatherAPI.alerts_section _ _ _ ?t _ ?o = Ok ?o',
    H0 : setitem_str _ "offset" ?off = Ok ?o0,
    H1 : setitem_str2 ?o0 "flags" "nearest-station" _ = Ok ?o1 |- _ =>
      exists x, off, miles, o0, o1, o, o', t
  end.
  repeat split; try assumption.
  intros k Hc Hh Hd.
  repeat match goal with
         | Hb : NOAAWeatherAPI.assign_block _ ?key _ = Ok ?y
           |- context [lookup k ?y] =>
             rewrite (assign_block_frame _ _ key k _ Hb) by assumption
         end.
  match goal with
  | Hc' : (if ?c then _ else Ok _) = Ok _ |- _ =>
      destruct c; [inv_binds Hc'|inversion Hc'; subst; clear Hc']
  end; lookup_frame; reflexivity.
Qed.

(** X22: when the alerts document could not be fetched, a document that
    the primary adapter returns carries the empty alert list it started
    with. *)
Theorem no_alert_feed_no_alerts :
  forall (latitude longitude : value) (up : NOAAWeatherAPI.upstream)
         (output : value),
    NOAAWeatherAPI.get parse_datetime add_duration flask_app now
      latitude longitude up = Ok output ->
    truthy output = true ->
    truthy (NOAAWeatherAPI.noaa_alerts_obj up) = false ->
    lookup "alerts" output = Some (VList []).
Proof.
  intros latitude longitude up output H Ht Ha.
  destruct (noaa_get_stages _ _ _ _ H Ht)
    as (_ & tz & off & miles & o0 & o1 & ob & oa & table
        & _ & _ & _ & H0 & H1 & Hf & Hs & Hfin).
  rewrite (alerts_section_skipped _ _ _ Ha) in Hs.
  inversion Hs; subst oa; clear Hs.
  lookup_frame. rewrite Hf by discriminate.
  lookup_frame. reflexivity.
Qed.

(** X23: the primary adapter returns a document only when the points lookup
    and the four forecast documents (current observation, hourly forecast,
    grid data, daily forecast) were all obtained. *)
Theorem document_needs_every_forecast :
  forall (latitude longitude : value) (up : NOAAWeatherAPI.upstream)
         (output : value),
    NOAAWeatherAPI.get parse_datetime add_duration flask_app now
      latitude longitude up = Ok output ->
    truthy output = true ->
    NOAAWeatherAPI.noaa_points_obj up <> VBool false /\
    truthy (NOAAWeatherAPI.noaa_current_obj up) = true /\
    truthy (NOAAWeatherAPI.noaa_hourly_obj up) = true /\
    truthy (NOAAWeatherAPI.noaa_griddata_obj up) = true /\
    truthy (NOAAWeatherAPI.noaa_daily_obj up) = true.
Proof.
  intros latitude longitude up output H Ht.
  destruct (noaa_get_stages _ _ _ _ H Ht) as ((Hp & Hrest) & _).
  split; [|exact Hrest].
  intros E. rewrite E in Hp. discriminate.
Qed.

(** X24: a document returned by the primary adapter has the coordinates it
    was called with, the time zone of the points lookup, the offset and the
    distance to the nearest station that were computed, US units and an
    empty [minutely] block: no later section overwrites them. *)
Theorem document_head :
  forall (latitude longitude : value) (up : NOAAWeatherAPI.upstream)
         (output : value),
    NOAAWeatherAPI.get parse_datetime add_duration flask_app now
      latitude longitude up = Ok output ->
    truthy output = true ->
    lookup "latitude" output = Some latitude /\
    lookup "longitude" output = Some longitude /\
    (exists timezone,
       getKeyValue (NOAAWeatherAPI.noaa_points_obj up)
         [KStr "properties"; KStr "timeZone"] None = Ok timezone /\
       lookup "timezone" output = Some timezone) /\
    (exists offset,
       NOAAWeatherAPI.utc_offset up = Ok offset /\
       lookup "offset" output = Some offset) /\
    (exists miles,
       NOAAWeatherAPI.nearest_station up = Ok (Some miles) /\
       path2 "flags" "nearest-station" output = Some miles) /\
    path2 "flags" "units" output = Some (VStr "us") /\
    lookup "minutely" output = Some (VDict []).
Proof.
  intros latitude longitude up output H Ht.
  destruct (noaa_get_stages _ _ _ _ H Ht)
    as (_ & tz & off & miles & o0 & o1 & ob & oa & table
        & Htz & Hoff & Hm & H0 & H1 & Hf & Hs & Hfin).
  assert (Hflags : forall b, b <> "sources" ->
                     path2 "flags" b output = path2 "flags" b o1).
  { intros b Hb.
    rewrite (setitem_str2_path2 _ _ _ "flags" b _ _ Hfin) by (now right).
    apply lookup_path2.
    rewrite (alerts_section_frame _ _ _ _ "flags" Hs) by discriminate.
    apply Hf; discriminate. }
  assert (Htop : forall k, k <> "flags" -> k <> "alerts" ->
                   k <> "currently" -> k <> "hourly" -> k <> "daily" ->
                   lookup k output = lookup k o0).
  { intros k K1 K2 K3 K4 K5.
    rewrite (setitem_str2_other _ _ _ k _ _ Hfin) by assumption.
    rewrite (alerts_section_frame _ _ _ _ k Hs) by assumption.
    rewrite Hf by assumption.
    now rewrite (setitem_str2_other _ _ _ k _ _ H1) by assumption. }
  repeat split.
  - rewrite Htop by discriminate.
    now rewrite (setitem_str_other _ _ "latitude" _ _ H0) by discriminate.
  - rewrite Htop by discriminate.
    now rewrite (setitem_str_other _ _ "longitude" _ _ H0) by discriminate.
  - exists tz. split; [assumption|].
    rewrite Htop by discriminate.
    now rewrite (setitem_str_other _ _ "timezone" _ _ H0) by discriminate.
  - exists off. split; [assumption|].
    rewrite Htop by discriminate.
    eapply setitem_str_same; eauto.
  - exists miles. split; [assumption|].
    rewrite Hflags by discriminate.
    eapply setitem_str2_same; eauto.
  - rewrite Hflags by discriminate.
    rewrite (setitem_str2_path2 _ _ _ "flags" "units" _ _ H1) by (now right).
    rewrite (setitem_str_path2 _ _ "flags" "units" _ _ H0) by discriminate.
    reflexivity.
  - rewrite Htop by discriminate.
    now rewrite (setitem_str_other _ _ "minutely" _ _ H0) by discriminate.
Qed.

End PrimaryMore.

Lemma live_alert_without_area_names_witness :
  (noaa_county_list <- NOAAWeatherAPI.add_features VNone [] ;;
   noaa_county_list <- NOAAWeatherAPI.add_features VNone noaa_county_list ;;
   NOAAWeatherAPI.alerts_section Sample.clock Sample.one_hour_later
     Sample.five_pm noaa_county_list
     (VDict [("features", VList [Sample.live_alert])])
     (VDict [("alerts", VList [])]))
  = Raise KeyError.
Proof.
  apply (live_alert_without_area_names Sample.clock Sample.one_hour_later
           Sample.five_pm VNone VNone Sample.live_alert
           (Sample.value_of
              (getKeyValue Sample.live_alert [KStr "properties"] None))
           (VInt 1586620800) (VStr "PAC101") [] []
           (VDict [("alerts", VList [])]));
    vm_compute; reflexivity.
Defined.

Lemma no_alert_feed_no_alerts_witness :
  lookup "alerts" Sample.quiet = Some (VList []).
Proof.
  apply (no_alert_feed_no_alerts Sample.clock Sample.one_hour_later true
           Sample.five_pm (VFloat 40) (VFloat (-75)) Sample.no_alert_feed
           Sample.quiet);
    vm_compute; reflexivity.
Defined.

Lemma document_needs_every_forecast_witness :
  NOAAWeatherAPI.noaa_points_obj Sample.no_alert_feed <> VBool false /\
  truthy (NOAAWeatherAPI.noaa_current_obj Sample.no_alert_feed) = true /\
  truthy (NOAAWeatherAPI.noaa_hourly_obj Sample.no_alert_feed) = true /\
  truthy (NOAAWeatherAPI.noaa_griddata_obj Sample.no_alert_feed) = true /\
  truthy (NOAAWeatherAPI.noaa_daily_obj Sample.no_alert_feed) = true.
Proof.
  apply (document_needs_every_forecast Sample.clock Sample.one_hour_later true
           Sample.five_pm (VFloat 40) (VFloat (-75)) Sample.no_alert_feed
           Sample.quiet);
    vm_compute; reflexivity.
Defined.

Lemma document_head_witness :
  lookup "latitude" Sample.primary = Some (VFloat 40) /\
  lookup "longitude" Sample.primary = Some (VFloat (-75)) /\
  (exists timezone,
     getKeyValue (NOAAWeatherAPI.noaa_points_obj Sample.two_alerts)
       [KStr "properties"; KStr "timeZone"] None = Ok timezone /\
     lookup "timezone" Sample.primary = Some timezone) /\
  (exists offset,
     NOAAWeatherAPI.utc_offset Sample.two_alerts = Ok offset /\
     lookup "offset" Sample.primary = Some offset) /\
  (exists miles,
     NOAAWeatherAPI.nearest_station Sample.two_alerts = Ok (Some miles) /\
     path2 "flags" "nearest-station" Sample.primary = Some miles) /\
  path2 "flags" "units" Sample.primary = Some (VStr "us") /\
  lookup "minutely" Sample.primary = Some (VDict []).
Proof.
  apply (document_head Sample.clock Sample.one_hour_later true
           Sample.five_pm (VFloat 40) (VFloat (-75)) Sample.two_alerts
           Sample.primary);
    vm_compute; reflexivity.
Defined.

(** ** The primary adapter: the hourly block *)

Lemma Forall2_same {A : Type} (R : A -> A -> Prop) :
  (forall a, R a a) -> forall l, Forall2 R l l.
Proof. intros HR l. induction l; constructor; auto. Qed.

Lemma Forall2_through {A : Type} (R : A -> A -> Prop) :
  (forall a b c, R a b -> R b c -> R a c) ->
  forall l1 l2 l3, Forall2 R l1 l2 -> Forall2 R l2 l3 -> Forall2 R l1 l3.
Proof.
  intros HR l1 l2 l3 H. revert l3.
  induction H as [|a b l1 l2 Hab _ IH]; intros l3 H23.
  - inversion H23. constructor.
  - inversion H23; subst. constructor; eauto.
Qed.

Lemma Forall_across {A : Type} (P Q : A -> Prop) (R : A -> A -> Prop) :
  (forall a b, P a -> R a b -> Q b) ->
  forall l l', Forall P l -> Forall2 R l l' -> Forall Q l'.
Proof.
  intros HPQ l l' HP HR.
  induction HR as [|a b l l' Hab _ IH]; constructor.
  - inversion HP; subst. eauto.
  - inversion HP; subst. auto.
Qed.

Lemma differs_within_same (keys : list string) (h : value) :
  differs_within keys h h.
Proof. intros k _. reflexivity. Qed.

Lemma differs_within_through (keys : list string) (a b c : value) :
  differs_within keys a b -> differs_within keys b c ->
  differs_within keys a c.
Proof. intros Hab Hbc k Hk. rewrite (Hbc k Hk). apply Hab, Hk. Qed.

Lemma setitem_differs (keys : list string) (h : value) (key : string)
  (v h' : value) :
  setitem_str h key v = Ok h' -> In key keys -> differs_within keys h h'.
Proof.
  intros H Hin k Hk. eapply setitem_str_other; eauto.
  intros ->. contradiction.
Qed.

Lemma keys_within_grown (base keys : list string) (h h' : value) :
  keys_within base h -> differs_within keys h h' ->
  keys_within (base ++ keys) h'.
Proof.
  intros Hb Hd k v Hl. apply in_or_app.
  destruct (in_dec string_dec k keys) as [Hin|Hout]; [now right|left].
  rewrite (Hd k Hout) in Hl. eapply Hb; eauto.
Qed.

Section PrimaryHours.

Variable parse_datetime : string -> result Q.
Variable add_duration : Q -> string -> result Q.
Variable flask_app : bool.
Variable now : nat -> Q.

Lemma spread_related (R : value -> value -> Prop) (interval : value)
  (write : value -> result value) :
  (forall h, R h h) ->
  (forall h h', write h = Ok h' -> R h h') ->
  forall hourly_data hourly_data',
    NOAAWeatherAPI.spread interval write hourly_data = Ok hourly_data' ->
    Forall2 R hourly_data hourly_data'.
Proof.
  intros Hrefl Hw hourly_data.
  induction hourly_data as [|h rest IH]; intros out H; simpl in H.
  - inversion H. constructor.
  - inv_binds H.
    match goal with
    | Hi : (if ?b then write h else Ok h) = Ok ?y |- _ =>
        assert (Hh : R h y)
          by (destruct b;
              [apply Hw; exact Hi | inversion Hi; subst; apply Hrefl])
    end.
    match type of H with
    | (if ?b then _ else _) = _ => destruct b
    end.
    + inversion H; subst. constructor; [assumption|].
      now apply Forall2_same.
    + inv_binds H. inversion H; subst. constructor; auto.
Qed.

Lemma grid_values_related (R : value -> value -> Prop)
  (noaa_griddata_obj : value) (name : string)
  (step : list value -> value -> value -> result (list value)) :
  (forall h, R h h) ->
  (forall a b c, R a b -> R b c -> R a c) ->
  (forall hourly_data x interval hourly_data',
     step hourly_data x interval = Ok hourly_data' ->
     Forall2 R hourly_data hourly_data') ->
  forall hourly_data hourly_data',
    NOAAWeatherAPI.grid_values parse_datetime add_duration
      noaa_griddata_obj name step hourly_data = Ok hourly_data' ->
    Forall2 R hourly_data hourly_data'.
Proof.
  intros Hrefl Htrans Hstep hourly_data out H.
  unfold NOAAWeatherAPI.grid_values in H. inv_binds H.
  destruct (truthy x);
    [|inversion H; subst; now apply Forall2_same].
  inv_binds H.
  refine (foldM_invariant _ (fun l => Forall2 R hourly_data l) _ _ _ _ H _);
    [|now apply Forall2_same].
  intros a item a' Hf Ha. inv_binds Hf.
  eapply Forall2_through; eauto.
Qed.

Lemma rain_related (noaa_griddata_obj : value)
  (hourly_data hourly_data' : list value) :
  NOAAWeatherAPI.rain parse_datetime add_duration noaa_griddata_obj
    hourly_data = Ok hourly_data' ->
  Forall2 (differs_within grid_keys) hourly_data hourly_data'.
Proof.
  unfold NOAAWeatherAPI.rain.
  apply grid_values_related.
  - apply differs_within_same.
  - apply differs_within_through.
  - intros l x interval l' H. inv_binds H. revert H.
    apply spread_related; [apply differs_within_same|].
    intros h h' Hs. eapply setitem_differs; eauto. cbn. auto.
Qed.

Lemma snowfall_related (noaa_griddata_obj : value)
  (hourly_data hourly_data' : list value) :
  NOAAWeatherAPI.snowfall parse_datetime add_duration noaa_griddata_obj
    hourly_data = Ok hourly_data' ->
  Forall2 (differs_within grid_keys) hourly_data hourly_data'.
Proof.
  unfold NOAAWeatherAPI.snowfall.
  apply grid_values_related.
  - apply differs_within_same.
  - apply differs_within_through.
  - intros l x interval l' H. inv_binds H. revert H.
    apply spread_related; [apply differs_within_same|].
    intros h h' Hs. inv_binds Hs.
    assert (Hset : forall y, setitem_str h "precipIntensity" x0 = Ok y ->
                             differs_within grid_keys h y).
    { intros y Hy. eapply setitem_differs; eauto. cbn. auto. }
    match type of Hs with
    | (if ?b then _ else _) = _ => destruct b
    end; [|now apply Hset].
    inv_binds Hs.
    match type of Hs with
    | (if ?b then _ else _) = _ => destruct b
    end; [now apply Hset|].
    inversion Hs; subst. apply differs_within_same.
Qed.

Lemma overlay_related (noaa_griddata_obj : value) (name key : string)
  (f : value -> result value) (hourly_data hourly_data' : list value) :
  In key grid_keys ->
  NOAAWeatherAPI.overlay parse_datetime add_duration noaa_griddata_obj
    name key f hourly_data = Ok hourly_data' ->
  Forall2 (differs_within grid_keys) hourly_data hourly_data'.
Proof.
  intros Hin. unfold NOAAWeatherAPI.overlay.
  apply grid_values_related.
  - apply differs_within_same.
  - apply differs_within_through.
  - intros l x interval l'.
    apply spread_related; [apply differs_within_same|].
    intros h h' Hs. inv_binds Hs. eapply setitem_differs; eauto.
Qed.

Lemma periods_loop_length (hours : list value) :
  forall (i : nat) (hourly_data hourly_data' : list value),
    NOAAWeatherAPI.periods_loop parse_datetime add_duration flask_app now
      i hourly_data hours = Ok hourly_data' ->
    (List.length hourly_data <= 48)%nat ->
    (List.length hourly_data' <= 48)%nat.
Proof.
  induction hours as [|hour rest IH]; intros i acc out H Hacc; simpl in H.
  - inversion H. now subst.
  - destruct (48 <=? Z.of_nat (List.length acc)) eqn:E.
    + inversion H. now subst.
    + apply Z.leb_gt in E. inv_binds H.
      eapply IH; [exact H|].
      match goal with
      | Hi : (if ?b then _ else Ok acc) = Ok _ |- _ =>
          destruct b; [inv_binds Hi; inversion Hi; subst
                      |inversion Hi; subst; assumption]
      end.
      rewrite length_app. simpl. lia.
Qed.

Lemma periods_loop_entries (P : value -> Prop) (periods : list value) :
  (forall hour i endTime e startTime time summary icon t,
     nth_error periods i = Some hour ->
     getitem_str hour "endTime" = Ok endTime ->
     NOAAWeatherAPI.interval_start parse_datetime add_duration endTime
     = Ok e ->
     to_num e = Ok t -> (now i < num_Q t)%Q ->
     getitem_str hour "startTime" = Ok startTime ->
     NOAAWeatherAPI.interval_start parse_datetime add_duration startTime
     = Ok time ->
     P (VDict [("time", time); ("summary", summary); ("icon", icon)])) ->
  forall (hours : list value) (i : nat) (hourly_data hourly_data' : list value),
    (forall j hour, nth_error hours j = Some hour ->
                    nth_error periods (i + j) = Some hour) ->
    NOAAWeatherAPI.periods_loop parse_datetime add_duration flask_app now
      i hourly_data hours = Ok hourly_data' ->
    Forall P hourly_data -> Forall P hourly_data'.
Proof.
  intros HP hours.
  induction hours as [|hour rest IH]; intros i acc out Hat H Hacc;
    simpl in H.
  - inversion H. now subst.
  - destruct (48 <=? Z.of_nat (List.length acc)).
    + inversion H. now subst.
    + inv_binds H.
      eapply IH; [|exact H|].
      { intros j h Hj. replace (S i + j)%nat with (i + S j)%nat by lia.
        apply Hat. exact Hj. }
      match goal with
      | Hg : py_gt _ _ = Ok ?b, Hi : (if ?b then _ else Ok acc) = Ok _ |- _ =>
          destruct b;
          [apply py_gt_true in Hg; destruct Hg as (t & Ht & Hlt);
           inv_binds Hi; inversion Hi; subst
          |inversion Hi; subst; assumption]
      end.
      apply Forall_app. split; [assumption|].
      constructor; [|constructor].
      eapply HP; eauto.
      specialize (Hat 0%nat hour eq_refl).
      now rewrite Nat.add_0_r in Hat.
Qed.

(** What a call of the hourly section that produces a block went through. *)
Lemma hourly_section_stages (noaa_hourly_obj noaa_griddata_obj block : value) :
  NOAAWeatherAPI.hourly_section parse_datetime add_duration flask_app now
    noaa_hourly_obj noaa_griddata_obj = Ok (Some block) ->
  exists (hours : value) (periods skeleton : list value)
         (first : value) (rest : list value) (summary icon : value),
    getKeyValue noaa_hourly_obj [KStr "properties"; KStr "periods"] None
    = Ok hours /\
    iterate hours = Ok periods /\
    NOAAWeatherAPI.periods_loop parse_datetime add_duration flask_app now
      0 [] periods = Ok skeleton /\
    Forall2 (differs_within grid_keys) skeleton (first :: rest) /\
    lookup "summary" first = Some summary /\
    lookup "icon" first = Some icon /\
    block = VDict [ ("summary", summary);
                    ("icon", icon);
                    ("data", VList (first :: rest)) ].
Proof.
  unfold NOAAWeatherAPI.hourly_section. intros H.
  inv_binds H.
  match type of H with
  | (if ?b then _ else _) = _ => destruct b; [|discriminate]
  end.
  inv_binds H.
  match type of H with
  | match ?l with [] => _ | _ :: _ => _ end = _ =>
      destruct l as [|first rest]; [discriminate|]
  end.
  inv_binds H. inversion H; subst; clear H.
  match goal with
  | Hk : getKeyValue noaa_hourly_obj _ None = Ok ?hours,
    Hp : NOAAWeatherAPI.periods_loop _ _ _ _ _ _ ?periods = Ok ?sk,
    Hs : getitem_str first "summary" = Ok ?s,
    Hc : getitem_str first "icon" = Ok ?c |- _ =>
      exists hours, periods, sk, first, rest, s, c
  end.
  repeat split; try assumption; try (now apply getitem_str_lookup).
  repeat match goal with
         | Hr : NOAAWeatherAPI.rain _ _ _ _ = Ok _ |- _ =>
             apply rain_related in Hr
         | Hs : NOAAWeatherAPI.snowfall _ _ _ _ = Ok _ |- _ =>
             apply snowfall_related in Hs
         | Ho : NOAAWeatherAPI.overlay _ _ _ _ _ _ _ = Ok _ |- _ =>
             apply overlay_related in Ho; [|cbn; tauto]
         end.
  repeat match goal with
         | Ha : Forall2 _ ?a ?b, Hb : Forall2 _ ?b ?c |- _ =>
             pose proof (Forall2_through _ (differs_within_through grid_keys)
                           _ _ _ Ha Hb);
             clear Ha Hb
         end.
  assumption.
Qed.

End PrimaryHours.

Section PrimaryHourly.

Variable parse_datetime : string -> result Q.
Variable add_duration : Q -> string -> result Q.
Variable flask_app : bool.
Variable now : nat -> Q.

(** X25: an hourly block of the primary adapter holds between one and 48
    hours, and its summary and icon are those of its first hour. *)
Theorem hourly_block_size :
  forall (noaa_hourly_obj noaa_griddata_obj block : value),
    NOAAWeatherAPI.hourly_section parse_datetime add_duration flask_app now
      noaa_hourly_obj noaa_griddata_obj = Ok (Some block) ->
    exists (first : value) (rest : list value),
      lookup "data" block = Some (VList (first :: rest)) /\
      (List.length (first :: rest) <= 48)%nat /\
      lookup "summary" block = lookup "summary" first /\
      lookup "icon" block = lookup "icon" first.
Proof.
  intros noaa_hourly_obj noaa_griddata_obj block H.
  destruct (hourly_section_stages _ _ _ _ _ _ _ H)
    as (hours & periods & skeleton & first & rest & summary & icon
        & _ & _ & Hp & Hd & Hs & Hi & ->).
  exists first, rest. repeat split.
  - rewrite <- (Forall2_length Hd).
    eapply periods_loop_length; [exact Hp|]. simpl. lia.
  - now rewrite Hs.
  - now rewrite Hi.
Qed.

(** X26: the keys of an hour of the primary adapter's hourly block are
    [time], [summary], [icon] and those written from the grid forecast,
    among them [humdity] and [dewpoint]; no hour has a [humidity] or a
    [dewPoint]. *)
Theorem hourly_entry_keys :
  forall (noaa_hourly_obj noaa_griddata_obj block : value),
    NOAAWeatherAPI.hourly_section parse_datetime add_duration flask_app now
      noaa_hourly_obj noaa_griddata_obj = Ok (Some block) ->
    exists data : list value,
      lookup "data" block = Some (VList data) /\
      Forall (fun h => keys_within hourly_keys h /\
                       lookup "humidity" h = None /\
                       lookup "dewPoint" h = None) data.
Proof.
  intros noaa_hourly_obj noaa_griddata_obj block H.
  destruct (hourly_section_stages _ _ _ _ _ _ _ H)
    as (hours & periods & skeleton & first & rest & summary & icon
        & _ & _ & Hp & Hd & _ & _ & ->).
  exists (first :: rest). split; [reflexivity|].
  assert (Hsk : Forall (keys_within ["time"; "summary"; "icon"]) skeleton).
  { refine (periods_loop_entries _ _ _ _ _ periods _ periods 0%nat [] skeleton
              (fun j hour Hj => Hj) Hp (Forall_nil _)).
    intros hour i endTime e startTime time s c t _ _ _ _ _ _ _ k v Hl.
    cbn in Hl.
    repeat match type of Hl with
           | (if String.eqb k ?key then _ else _) = _ =>
               destruct (String.eqb_spec k key); [subst; cbn; tauto|]
           end.
    discriminate. }
  refine (Forall_across _ _ _ _ _ _ Hsk Hd).
  intros a b Ha Hab.
  assert (Hk : keys_within hourly_keys b)
    by exact (keys_within_grown _ _ _ _ Ha Hab).
  split; [exact Hk|].
  split.
  - destruct (lookup "humidity" b) eqn:E; [|reflexivity].
    apply Hk in E. cbn in E. intuition discriminate.
  - destruct (lookup "dewPoint" b) eqn:E; [|reflexivity].
    apply Hk in E. cbn in E. intuition discriminate.
Qed.

(** X27: every hour of the primary adapter's hourly block comes from a
    period of the hourly forecast whose end was later than the clock reading
    taken for it, the reading of the loop's turn at that period's position
    in the forecast, and carries the start of that period as its time. *)
Theorem hourly_entries_from_live_periods :
  forall (noaa_hourly_obj noaa_griddata_obj block : value),
    NOAAWeatherAPI.hourly_section parse_datetime add_duration flask_app now
      noaa_hourly_obj noaa_griddata_obj = Ok (Some block) ->
    exists (hours : value) (periods data : list value),
      getKeyValue noaa_hourly_obj [KStr "properties"; KStr "periods"] None
      = Ok hours /\
      iterate hours = Ok periods /\
      lookup "data" block = Some (VList data) /\
      Forall (from_live_period parse_datetime add_duration now periods) data.
Proof.
  intros noaa_hourly_obj noaa_griddata_obj block H.
  destruct (hourly_section_stages _ _ _ _ _ _ _ H)
    as (hours & periods & skeleton & first & rest & summary & icon
        & Hh & Hit & Hp & Hd & _ & _ & ->).
  exists hours, periods, (first :: rest).
  repeat split; try assumption.
  assert (Hsk : Forall (from_live_period parse_datetime add_duration now
                          periods) skeleton).
  { refine (periods_loop_entries _ _ _ _ _ periods _ periods 0%nat [] skeleton
              (fun j hour Hj => Hj) Hp (Forall_nil _)).
    intros hour i endTime e startTime time s c t Hin He Hie Ht Hlt Hs His.
    exists hour, i, endTime, e, startTime, time, t.
    repeat split; assumption || reflexivity. }
  refine (Forall_across _ _ _ _ _ _ Hsk Hd).
  intros a b (hour & i & endTime & e & startTime & time & t
              & Hin & He & Hie & Ht & Hlt & Hs & His & Hl) Hab.
  exists hour, i, endTime, e, startTime, time, t.
  repeat split; try assumption.
  rewrite (Hab "time"); [assumption|].
  cbn. intuition discriminate.
Qed.

End PrimaryHourly.

Lemma hourly_block_size_witness :
  exists (first : value) (rest : list value),
    lookup "data" Sample.hourly_result = Some (VList (first :: rest)) /\
    (List.length (first :: rest) <= 48)%nat /\
    lookup "summary" Sample.hourly_result = lookup "summary" first /\
    lookup "icon" Sample.hourly_result = lookup "icon" first.
Proof.
  apply (hourly_block_size Sample.clock Sample.one_hour_later true
           Sample.five_pm Sample.hourly_forecast Sample.grid_forecast
           Sample.hourly_result).
  vm_compute. reflexivity.
Defined.

Lemma hourly_entry_keys_witness :
  exists data : list value,
    lookup "data" Sample.hourly_result = Some (VList data) /\
    Forall (fun h => keys_within hourly_keys h /\
                     lookup "humidity" h = None /\
                     lookup "dewPoint" h = None) data.
Proof.
  apply (hourly_entry_keys Sample.clock Sample.one_hour_later true
           Sample.five_pm Sample.hourly_forecast Sample.grid_forecast
           Sample.hourly_result).
  vm_compute. reflexivity.
Defined.

Lemma hourly_entries_from_live_periods_witness :
  exists (hours : value) (periods data : list value),
    getKeyValue Sample.hourly_forecast [KStr "properties"; KStr "periods"] None
    = Ok hours /\
    iterate hours = Ok periods /\
    lookup "data" Sample.hourly_result = Some (VList data) /\
    Forall (from_live_period Sample.clock Sample.one_hour_later Sample.five_pm
              periods) data.
Proof.
  apply (hourly_entries_from_live_periods Sample.clock Sample.one_hour_later
           true Sample.five_pm Sample.hourly_forecast Sample.grid_forecast
           Sample.hourly_result).
  vm_compute. reflexivity.
Defined.

(** ** The primary adapter: a grid value over hours in time order *)

Lemma num_ltb_int (a b : Z) : num_ltb (NInt a) (NInt b) = (a <? b).
Proof.
  unfold num_ltb, num_Q, Qcompare, inject_Z. cbn [Qnum Qden].
  rewrite !Z.mul_1_r. unfold Z.ltb. reflexivity.
Qed.

Lemma time_of_lookup (h : value) (t : Z) :
  time_of h = Some t -> lookup "time" h = Some (VInt t).
Proof.
  unfold time_of. destruct (lookup "time" h) as [[]|]; try discriminate.
  now intros [= ->].
Qed.

Lemma spread_untouched (interval : value) (write : value -> result value)
  (s e : Z) (times : list Z) :
  lookup "start" interval = Some (VInt s) ->
  lookup "end" interval = Some (VInt e) ->
  Forall (fun t => e < t) times ->
  forall hourly_data,
    map time_of hourly_data = map Some times ->
    Forall2 (fun h h' =>
               exists t, time_of h = Some t /\
                 if (s <=? t) && (t <? e) then write h = Ok h' else h' = h)
      hourly_data hourly_data.
Proof.
  intros Hs He Hall. induction Hall as [|t times Ht _ IH];
    intros [|h rest] Hm; try discriminate; constructor.
  - injection Hm as Hh Hrest. exists t. split; [assumption|].
    replace (t <? e) with false by (symmetry; apply Z.ltb_ge; lia).
    now rewrite andb_false_r.
  - injection Hm as Hh Hrest. now apply IH.
Qed.

(** X28: hours being in time order, one grid value reaches every hour that
    starts within its interval, the early exit of the loop notwithstanding:
    each such hour is assigned to, and every other hour is left as it
    was. *)
Theorem spread_reaches_every_hour :
  forall (interval : value) (write : value -> result value) (s e : Z)
         (times : list Z) (hourly_data hourly_data' : list value),
    lookup "start" interval = Some (VInt s) ->
    lookup "end" interval = Some (VInt e) ->
    map time_of hourly_data = map Some times ->
    StronglySorted Z.le times ->
    (forall h h', write h = Ok h' -> time_of h' = time_of h) ->
    NOAAWeatherAPI.spread interval write hourly_data = Ok hourly_data' ->
    Forall2 (fun h h' =>
               exists t, time_of h = Some t /\
                 if (s <=? t) && (t <? e) then write h = Ok h' else h' = h)
      hourly_data hourly_data'.
Proof.
  intros interval write s e times hourly_data hourly_data' Hs He Hm Hsorted Hw.
  revert hourly_data hourly_data' Hm.
  induction Hsorted as [|t times Hsorted IH Hle];
    intros [|h rest] out Hm H; try discriminate.
  - simpl in H. inversion H. constructor.
  - injection Hm as Hh Hrest.
    pose proof (time_of_lookup _ _ Hh) as Hl.
    simpl in H.
    rewrite (proj2 (getitem_str_lookup _ _ _) Hl) in H. cbn [bind] in H.
    rewrite (proj2 (getitem_str_lookup _ _ _) Hs) in H. cbn [bind] in H.
    rewrite (proj2 (getitem_str_lookup _ _ _) He) in H.
    unfold py_ge, py_lt, py_gt in H. cbn [to_num bind] in H.
    rewrite !num_ltb_int in H.
    replace (negb (t <? s)) with (s <=? t) in H
      by (rewrite Z.leb_antisym; reflexivity).
    assert (Hin : (if s <=? t then Ok (t <? e) else Ok false)
                  = Ok ((s <=? t) && (t <? e)))
      by (destruct (s <=? t); reflexivity).
    rewrite Hin in H. cbn [bind] in H. clear Hin.
    inv_bind H.
    assert (Hx' : time_of x = Some t).
    { destruct ((s <=? t) && (t <? e)).
      - rewrite (Hw _ _ Hx). assumption.
      - inversion Hx; subst. assumption. }
    rewrite (proj2 (getitem_str_lookup _ _ _) (time_of_lookup _ _ Hx')) in H.
    cbn [bind to_num] in H. rewrite num_ltb_int in H.
    assert (Hhead : exists t0, time_of h = Some t0 /\
              if (s <=? t0) && (t0 <? e) then write h = Ok x else x = h).
    { exists t. split; [assumption|].
      destruct ((s <=? t) && (t <? e)); [assumption|].
      inversion Hx. reflexivity. }
    destruct (e <? t) eqn:Epast.
    + inversion H; subst out. constructor; [assumption|].
      apply Z.ltb_lt in Epast.
      apply (spread_untouched interval write s e times Hs He); [|assumption].
      eapply Forall_impl; [|exact Hle]. simpl. intros a Ha. lia.
    + inv_bind H. inversion H; subst out. constructor; [assumption|].
      now apply IH.
Qed.

(** ** The primary adapter: daily averages *)

Lemma num_Q_add (a b : num) : (num_Q (num_add a b) == num_Q a + num_Q b)%Q.
Proof.
  destruct a, b; unfold num_add; cbn [num_Q];
    try apply Qred_correct.
  rewrite inject_Z_plus. reflexivity.
Qed.

Lemma num_Q_mul (a b : num) : (num_Q (num_mul a b) == num_Q a * num_Q b)%Q.
Proof.
  destruct a, b; unfold num_mul; cbn [num_Q];
    try apply Qred_correct.
  rewrite inject_Z_mult. reflexivity.
Qed.

Lemma num_ltb_lt (a b : num) : num_ltb a b = true <-> (num_Q a < num_Q b)%Q.
Proof.
  unfold num_ltb. rewrite Qlt_alt.
  destruct (Qcompare (num_Q a) (num_Q b)); split; congruence.
Qed.

Section PrimaryDays.

Variable parse_datetime : string -> result Q.
Variable add_duration : Q -> string -> result Q.

(** One turn of an averaging loop at a grid value that holds the integer
    [z]: the state grows by [z] times the hours of the value, and by these
    hours, which the loop for the wind speed adds twice. *)
Lemma average_step_whole (wind : bool) (start end_ value : value) (z : Z)
  (k : option Z) (total total_hours : num) :
  getKeyValue value [KStr "value"] None = Ok (VInt z) ->
  covers parse_datetime add_duration start end_ value k ->
  exists total' total_hours',
    NOAAWeatherAPI.average_step parse_datetime add_duration wind start end_
      (total, total_hours) value = Ok (total', total_hours') /\
    (num_Q total'
     == num_Q total + inject_Z z * inject_Z (whole_hours [k]))%Q /\
    (num_Q total_hours'
     == num_Q total_hours
        + (if wind then 2 else 1) * inject_Z (whole_hours [k]))%Q.
Proof.
  intros Hv Hk. unfold NOAAWeatherAPI.average_step.
  destruct k as [k|]; cbn [covers whole_hours] in *.
  - destruct Hk as (_ & hours & Hh & Eh).
    rewrite Hh. cbn [bind]. rewrite Hv. cbn [bind to_num fst snd].
    rewrite Z.add_0_r.
    destruct wind; eexists _, _; (split; [reflexivity|]);
      rewrite !num_Q_add, ?num_Q_mul, Eh; cbn [num_Q]; split; ring.
  - rewrite Hk. cbn [bind]. exists total, total_hours.
    split; [reflexivity|].
    change (inject_Z 0) with 0%Q. split; ring.
Qed.

Lemma average_loop_whole (wind : bool) (start end_ : value) (z : Z)
  (values : list value) (ks : list (option Z)) :
  Forall (fun value => getKeyValue value [KStr "value"] None = Ok (VInt z))
    values ->
  Forall2 (covers parse_datetime add_duration start end_) values ks ->
  exists total total_hours,
    NOAAWeatherAPI.average_loop parse_datetime add_duration wind start end_
      values = Ok (total, total_hours) /\
    (num_Q total == inject_Z z * inject_Z (whole_hours ks))%Q /\
    (num_Q total_hours
     == (if wind then 2 else 1) * inject_Z (whole_hours ks))%Q.
Proof.
  intros Hall Hks. unfold NOAAWeatherAPI.average_loop.
  assert (G : forall total total_hours,
             exists total' total_hours',
               foldM (NOAAWeatherAPI.average_step parse_datetime add_duration
                        wind start end_) (total, total_hours) values
               = Ok (total', total_hours') /\
               (num_Q total'
                == num_Q total + inject_Z z * inject_Z (whole_hours ks))%Q /\
               (num_Q total_hours'
                == num_Q total_hours
                   + (if wind then 2 else 1) * inject_Z (whole_hours ks))%Q).
  { revert Hall.
    induction Hks as [|value k values ks Hk _ IH]; intros Hall total th.
    - exists total, th. split; [reflexivity|].
      cbn [whole_hours]. change (inject_Z 0) with 0%Q. split; ring.
    - inversion Hall as [|? ? Hv Hrest]; subst.
      destruct (average_step_whole wind start end_ value z k total th Hv Hk)
        as (t1 & h1 & Hstep & Et & Eh).
      destruct (IH Hrest t1 h1) as (t2 & h2 & Hloop & Et2 & Eh2).
      exists t2, h2. cbn [foldM]. rewrite Hstep. cbn [bind].
      split; [exact Hloop|].
      assert (Ek : (inject_Z (whole_hours (k :: ks))
                    == inject_Z (whole_hours [k]) + inject_Z (whole_hours ks))%Q).
      { rewrite <- inject_Z_plus. destruct k; cbn [whole_hours];
          apply inject_Z_injective; lia. }
      rewrite Et2, Eh2, Et, Eh, Ek. split; ring. }
  destruct (G (NInt 0) (NInt 0)) as (total & th & Hl & Et & Eh).
  exists total, th. split; [exact Hl|].
  rewrite Et, Eh. cbn [num_Q]. change (inject_Z 0) with 0%Q. split; ring.
Qed.

(** The mean of a state whose parts are [a * k] and [c * k], [c] and [k]
    positive, is [a / c]. *)
Lemma day_mean_ratio (total total_hours : num) (a c k : Q) :
  (0 < c)%Q -> (0 < k)%Q ->
  (num_Q total == a * k)%Q -> (num_Q total_hours == c * k)%Q ->
  exists mean,
    NOAAWeatherAPI.day_mean (total, total_hours) = Ok (Some mean) /\
    (num_Q mean == a / c)%Q.
Proof.
  intros Hc Hk Et Eh. unfold NOAAWeatherAPI.day_mean.
  assert (Hpos : (0 < num_Q total_hours)%Q).
  { rewrite Eh. apply Qmult_lt_0_compat; assumption. }
  rewrite (proj2 (num_ltb_lt (NInt 0) total_hours) Hpos).
  unfold num_truediv.
  destruct (Qeq_bool (num_Q total_hours) 0) eqn:E.
  - apply Qeq_bool_eq in E. rewrite E in Hpos.
    now apply Qlt_irrefl in Hpos.
  - cbn [bind]. eexists. split; [reflexivity|].
    assert (Hk' : ~ (k == 0)%Q)
      by (intros Z0; rewrite Z0 in Hk; now apply Qlt_irrefl in Hk).
    assert (Hc' : ~ (c == 0)%Q)
      by (intros Z0; rewrite Z0 in Hc; now apply Qlt_irrefl in Hc).
    cbn [num_Q]. rewrite Qred_correct, Et, Eh. field.
    repeat split; assumption.
Qed.

(** X29: over whole hours, a relative humidity that is the same integer in
    every grid value of a day averages to itself: the loop returns, counts
    each value's hours once, and the mean that is then converted and stored
    is that integer.  The bound keeps every intermediate value an integer
    that a binary float holds exactly, where floats and rationals agree. *)
Theorem steady_humidity_is_kept :
  forall (start end_ : value) (z : Z) (values : list value)
         (ks : list (option Z)),
    Forall (fun value => getKeyValue value [KStr "value"] None = Ok (VInt z))
      values ->
    Forall2 (covers parse_datetime add_duration start end_) values ks ->
    0 < whole_hours ks ->
    (Z.abs z + 1) * whole_hours ks <= 2 ^ 53 ->
    exists total total_hours mean,
      NOAAWeatherAPI.average_loop parse_datetime add_duration false
        start end_ values = Ok (total, total_hours) /\
      (num_Q total == inject_Z (z * whole_hours ks))%Q /\
      (num_Q total_hours == inject_Z (whole_hours ks))%Q /\
      NOAAWeatherAPI.day_mean (total, total_hours) = Ok (Some mean) /\
      (num_Q mean == inject_Z z)%Q.
Proof.
  intros start end_ z values ks Hall Hks Hpos _.
  destruct (average_loop_whole false start end_ z values ks Hall Hks)
    as (total & th & Hl & Et & Eh).
  assert (Hk : (0 < inject_Z (whole_hours ks))%Q).
  { change 0%Q with (inject_Z 0). rewrite <- Zlt_Qlt. exact Hpos. }
  destruct (day_mean_ratio total th (inject_Z z) 1 _ eq_refl Hk Et Eh)
    as (mean & Hm & Em).
  exists total, th, mean. split; [exact Hl|].
  split; [rewrite Et, inject_Z_mult; reflexivity|].
  split; [rewrite Eh; ring|].
  split; [exact Hm|]. rewrite Em. field.
Qed.

(** X30: the loop for the wind speed counts the hours of each grid value
    twice.  Over whole hours, a wind that is the same integer in every grid
    value of a day leaves twice the hours of the day in [total_hours], and
    the mean that is then converted and stored is half that integer.  The
    bound keeps every intermediate value an integer that a binary float
    holds exactly, and the half of such an integer is exact too. *)
Theorem steady_wind_is_halved :
  forall (start end_ : value) (z : Z) (values : list value)
         (ks : list (option Z)),
    Forall (fun value => getKeyValue value [KStr "value"] None = Ok (VInt z))
      values ->
    Forall2 (covers parse_datetime add_duration start end_) values ks ->
    0 < whole_hours ks ->
    (Z.abs z + 2) * whole_hours ks <= 2 ^ 53 ->
    exists total total_hours mean,
      NOAAWeatherAPI.average_loop parse_datetime add_duration true
        start end_ values = Ok (total, total_hours) /\
      (num_Q total == inject_Z (z * whole_hours ks))%Q /\
      (num_Q total_hours == inject_Z (2 * whole_hours ks))%Q /\
      NOAAWeatherAPI.day_mean (total, total_hours) = Ok (Some mean) /\
      (num_Q mean == inject_Z z / 2)%Q.
Proof.
  intros start end_ z values ks Hall Hks Hpos _.
  destruct (average_loop_whole true start end_ z values ks Hall Hks)
    as (total & th & Hl & Et & Eh).
  assert (Hk : (0 < inject_Z (whole_hours ks))%Q).
  { change 0%Q with (inject_Z 0). rewrite <- Zlt_Qlt. exact Hpos. }
  destruct (day_mean_ratio total th (inject_Z z) 2 _ eq_refl Hk Et Eh)
    as (mean & Hm & Em).
  exists total, th, mean. split; [exact Hl|].
  split; [rewrite Et, inject_Z_mult; reflexivity|].
  split; [rewrite Eh, inject_Z_mult; reflexivity|].
  split; [exact Hm|exact Em].
Qed.

End PrimaryDays.

Lemma spread_reaches_every_hour_witness :
  Forall2 (fun h h' =>
             exists t, time_of h = Some t /\
               if (1586534400 <=? t) && (t <? 1586538000)
               then Sample.mark h = Ok h' else h' = h)
    Sample.four_hours
    [ VDict [("time", VInt 1586530800)];
      VDict [("time", VInt 1586534400); ("cloudCover", VFloat 0.5)];
      VDict [("time", VInt 1586538000)];
      VDict [("time", VInt 1586541600)] ].
Proof.
  apply (spread_reaches_every_hour Sample.from_four_to_five Sample.mark
           1586534400 1586538000
           [1586530800; 1586534400; 1586538000; 1586541600]
           Sample.four_hours).
  - reflexivity.
  - reflexivity.
  - reflexivity.
  - repeat constructor; lia.
  - intros h h' H. unfold time_of.
    now rewrite (setitem_str_other _ _ "time" _ _ H) by discriminate.
  - vm_compute. reflexivity.
Defined.

Lemma steady_humidity_is_kept_witness :
  exists total total_hours mean,
    NOAAWeatherAPI.average_loop Sample.clock Sample.one_hour_later false
      Sample.midnight Sample.next_midnight (Sample.steady (VInt 55))
    = Ok (total, total_hours) /\
    (num_Q total == inject_Z (55 * whole_hours [Some 1%Z; None]))%Q /\
    (num_Q total_hours == inject_Z (whole_hours [Some 1%Z; None]))%Q /\
    NOAAWeatherAPI.day_mean (total, total_hours) = Ok (Some mean) /\
    (num_Q mean == inject_Z 55)%Q.
Proof.
  apply (steady_humidity_is_kept Sample.clock Sample.one_hour_later
           Sample.midnight Sample.next_midnight 55
           (Sample.steady (VInt 55)) [Some 1; None]).
  - repeat constructor.
  - repeat constructor.
    + discriminate.
    + exists (NFloat 1). split; vm_compute; reflexivity.
  - reflexivity.
  - vm_compute. discriminate.
Defined.

Lemma steady_wind_is_halved_witness :
  exists total total_hours mean,
    NOAAWeatherAPI.average_loop Sample.clock Sample.one_hour_later true
      Sample.midnight Sample.next_midnight (Sample.steady (VInt 10))
    = Ok (total, total_hours) /\
    (num_Q total == inject_Z (10 * whole_hours [Some 1%Z; None]))%Q /\
    (num_Q total_hours == inject_Z (2 * whole_hours [Some 1%Z; None]))%Q /\
    NOAAWeatherAPI.day_mean (total, total_hours) = Ok (Some mean) /\
    (num_Q mean == inject_Z 10 / 2)%Q.
Proof.
  apply (steady_wind_is_halved Sample.clock Sample.one_hour_later
           Sample.midnight Sample.next_midnight 10
           (Sample.steady (VInt 10)) [Some 1; None]).
  - repeat constructor.
  - repeat constructor.
    + discriminate.
    + exists (NFloat 1). split; vm_compute; reflexivity.
  - reflexivity.
  - vm_compute. discriminate.
Defined.

(** ** The secondary adapter: a document without hourly skeleton *)

Section SecondaryHours.

Variable strptime : string -> result Q.
Variable strptime_day : string -> result Q.
Variable parse_datetime : string -> result Q.
Variable moon_phase : Q -> result Q.
Variable flask_app : bool.

(** The skeleton that line 321 synthesises, [range(timestamp + (timestamp +
    3600 * 48), 3600)], is empty at any time since 1970: the section then
    stores an empty list of hours and writes nothing else. *)
Lemma hourly_section_without_skeleton (up : upstream)
  (output output' data : value) :
  truthy (cc_hourly_obj up) = true ->
  0 <= this_hour up ->
  getKeyValue output [KStr "hourly"; KStr "data"] None = Ok data ->
  truthy data = false ->
  hourly_section strptime flask_app up output = Ok output' ->
  setitem_str2 output "hourly" "data" (VList []) = Ok output'.
Proof.
  intros F Hclock Hd Ht H.
  unfold hourly_section in H. rewrite F, Hd in H. cbn [bind] in H.
  unfold no_data in H. rewrite Ht in H. cbn [negb bind] in H.
  rewrite py_range_empty in H by lia.
  cbn [map len List.length Z.of_nat bind] in H.
  rewrite py_range_empty in H by lia.
  cbn [foldM bind fst snd] in H. exact H.
Qed.

Lemma minutely_section_dict (up : upstream) (output output' : value)
  (d : list (string * value)) :
  minutely_section strptime up output = Ok output' ->
  output = VDict d -> exists d', output' = VDict d'.
Proof.
  unfold minutely_section. intros H ->.
  destruct (truthy (cc_minutely_obj up)); [|inversion H; eauto].
  inv_binds H.
  match type of H with
  | (if ?b then _ else _) = _ => destruct b; [|inversion H; eauto]
  end.
  inv_binds H. destruct (setitem_str_dict _ _ _ _ H) as (d' & -> & _). eauto.
Qed.

(** C10: a non-empty hourly payload does not suffice for the summary of the
    [minutely] block to be overwritten.  On a document without hourly
    skeleton (the key [data] absent, or a falsy value), a call whose four
    fetches succeed and that returns leaves an empty list of hours, so there
    is no first hour, and does not write to [minutely.summary] and
    [minutely.icon]: with minute data in the document they are as they
    were, without they are the [None] that the minutely section has put
    there. *)
Theorem minutely_summary_left_without_hours :
  forall (latitude longitude : value) (up : upstream)
         (input_dictionary out data : value),
    fetched up ->
    0 <= this_hour up ->
    truthy input_dictionary = true ->
    getKeyValue input_dictionary [KStr "hourly"; KStr "data"] None = Ok data ->
    truthy data = false ->
    get strptime strptime_day parse_datetime moon_phase flask_app
      latitude longitude up input_dictionary = Ok out ->
    path2 "hourly" "data" out = Some (VList []) /\
    (forall minutes,
       path2 "minutely" "data" input_dictionary = Some minutes ->
       truthy minutes = true ->
       path2 "minutely" "summary" out
       = path2 "minutely" "summary" input_dictionary /\
       path2 "minutely" "icon" out
       = path2 "minutely" "icon" input_dictionary) /\
    (forall minutes,
       getKeyValue input_dictionary [KStr "minutely"; KStr "data"] None
       = Ok minutes ->
       truthy minutes = false ->
       path2 "minutely" "summary" out = Some VNone /\
       path2 "minutely" "icon" out = Some VNone).
Proof.
  intros latitude longitude up input_dictionary out data
    F Hclock Hin Hd Ht H.
  pose proof F as (F1 & F2 & F3 & F4).
  unfold get in H. rewrite F1, F2, F3, F4, Hin in H. cbn [negb] in H.
  inv_binds H.
  match goal with
  | H0 : Ok input_dictionary = Ok ?o |- _ =>
      inversion H0; subst o; clear H0
  end.
  match goal with
  | Hc : currently_section _ _ _ _ = Ok ?o1,
    Hmi : minutely_section _ _ ?o1 = Ok ?o2,
    Hh : hourly_section _ _ _ ?o2 = Ok ?o3,
    Hda : daily_section _ _ _ _ _ ?o3 = Ok ?o4 |- _ =>
      rename Hc into H1; rename Hmi into H2; rename Hh into H3;
      rename Hda into H4;
      rename o1 into after_currently; rename o2 into after_minutely;
      rename o3 into after_hourly; rename o4 into after_daily
  end.
  (* the documents are dictionaries that agree outside the written blocks *)
  assert (E1 : forall a, a <> "currently" ->
                 lookup a after_currently = lookup a input_dictionary).
  { intros a Ha. eapply currently_section_frame; eauto. }
  assert (D1 : exists d0 d1,
             input_dictionary = VDict d0 /\ after_currently = VDict d1).
  { unfold currently_section in H1. rewrite F1 in H1. inv_binds H1.
    destruct input_dictionary as [| | | | | | |d0]; try discriminate.
    destruct (setitem_str_dict _ _ _ _ H1) as (d1 & -> & _). eauto. }
  destruct D1 as (d0 & d1 & -> & ->).
  destruct (minutely_section_dict _ _ _ _ H2 eq_refl) as (d2 & ->).
  assert (G1 : forall a b, a <> "currently" ->
                 getKeyValue (VDict d1) [KStr a; KStr b] None
                 = getKeyValue (VDict d0) [KStr a; KStr b] None).
  { intros a b Ha.
    eapply getKeyValue_same_block; [reflexivity|reflexivity|].
    now apply E1. }
  assert (Hd' : getKeyValue (VDict d2) [KStr "hourly"; KStr "data"] None
                = Ok data).
  { rewrite <- Hd, <- G1 by discriminate.
    eapply getKeyValue_same_block; [reflexivity|reflexivity|].
    eapply minutely_section_frame; eauto. discriminate. }
  pose proof (hourly_section_without_skeleton _ _ _ _ F3 Hclock Hd' Ht H3)
    as Hset.
  assert (K : forall a b, a <> "daily" -> a <> "flags" ->
                          path2 a b out = path2 a b after_hourly).
  { intros a b Ha Hb.
    transitivity (path2 a b after_daily).
    - apply lookup_path2. eapply sources_section_frame; eauto.
    - apply lookup_path2. eapply daily_section_frame; eauto. }
  assert (M : forall b, path2 "minutely" b out = path2 "minutely" b (VDict d2)).
  { intros b. rewrite K by discriminate.
    apply (setitem_str2_path2 _ _ _ "minutely" b _ _ Hset).
    left. discriminate. }
  rewrite K by discriminate.
  split; [eapply setitem_str2_same; eauto|].
  split.
  - intros minutes Hm Hmt.
    assert (E2 : VDict d2 = VDict d1).
    { eapply minutely_section_keeps with (data := minutes);
        [exact H2| |exact Hmt].
      rewrite <- Hm. apply lookup_path2. apply E1. discriminate. }
    rewrite !M, E2.
    split; apply lookup_path2; apply E1; discriminate.
  - intros minutes Hm Hmt.
    unfold minutely_section in H2. rewrite F2 in H2.
    rewrite G1, Hm in H2 by discriminate. cbn [bind] in H2.
    unfold no_data in H2. rewrite Hmt in H2. cbn [negb bind] in H2.
    inv_binds H2.
    pose proof (setitem_str_same _ _ _ _ H2) as Hw.
    rewrite !M. unfold path2. rewrite Hw. split; reflexivity.
Qed.

End SecondaryHours.

Lemma minutely_summary_left_without_hours_witness :
  (path2 "hourly" "data" Sample.stale = Some (VList []) /\
   path2 "minutely" "summary" Sample.stale
   = path2 "minutely" "summary" Sample.without_hours /\
   path2 "minutely" "icon" Sample.stale
   = path2 "minutely" "icon" Sample.without_hours) /\
  (path2 "hourly" "data" Sample.filled = Some (VList []) /\
   path2 "minutely" "summary" Sample.filled = Some VNone /\
   path2 "minutely" "icon" Sample.filled = Some VNone).
Proof.
  assert (F : fetched Sample.climacell) by (repeat split; reflexivity).
  assert (C : 0 <= this_hour Sample.climacell)
    by (vm_compute; discriminate).
  split.
  - destruct (minutely_summary_left_without_hours Sample.clock Sample.clock
                Sample.clock Sample.new_moon true (VFloat 40) (VFloat (-75))
                Sample.climacell Sample.without_hours Sample.stale VNone
                F C eq_refl eq_refl eq_refl)
      as (Hh & Hkept & _); [vm_compute; reflexivity|].
    split; [exact Hh|].
    apply (Hkept (VList [VDict [("time", VInt 1586534460)]]));
      reflexivity.
  - destruct (minutely_summary_left_without_hours Sample.clock Sample.clock
                Sample.clock Sample.new_moon true (VFloat 40) (VFloat (-75))
                Sample.climacell Sample.no_blocks Sample.filled VNone
                F C eq_refl eq_refl eq_refl)
      as (Hh & _ & Hnone); [vm_compute; reflexivity|].
    split; [exact Hh|].
    apply (Hnone VNone); reflexivity.
Defined.
